(** * Taste fingerprinting and recommendation scoring

    A shallow embedding of the computational core of the repository:
    [scripts/taste_fingerprint_generator.py] (class
    [TasteFingerprintGenerator]) and [scripts/recommendation_engine.py]
    (class [RecommendationEngine]).

    Conventions of the embedding.
    - Python floats are exact rationals ([Qc]) where the code only adds,
      divides and compares scores; rounding, overflow and NaN are outside
      that model.  The cosine similarity is embedded twice: on the kernel's
      binary64 numbers, as numpy computes it, and over the real numbers, as
      the value that computation approximates.
    - A Python dict read by key only is a [gmap]; a dict whose iteration order
      is observable is an association list in insertion order.
    - A Python exception is [None] in the [option] monad. *)

From Stdlib Require Import QArith Qcanon Reals Lra.
From Stdlib Require PrimFloat.
From stdpp Require Import base option list sorting gmap strings numbers pretty.

Local Open Scope string_scope.
Local Open Scope list_scope.
Local Open Scope Qc_scope.

(** ** Numbers *)

(** A float literal of the source, read as the rational it denotes. *)
Definition num (q : Q) : Qc := Q2Qc q.

(** [int] to [float] conversion of a length or a counter. *)
Definition of_nat (n : nat) : Qc := Qc_of_Z (Z.of_nat n).

(** [sum(xs)] starting from [start], adding left to right. *)
Definition sum_from (start : Qc) (xs : list Qc) : Qc := foldl Qcplus start xs.

(** Comparisons as the booleans the source branches on. *)
Definition ltb (x y : Qc) : bool := bool_decide (x < y).
Definition leb (x y : Qc) : bool := bool_decide (x ≤ y).

(** [min(x, y)]: the first argument unless the second is smaller. *)
Definition pymin (x y : Qc) : Qc := if ltb y x then y else x.

(** ** Ordered dictionaries *)

(** [d.get(k)] on a dict kept in insertion order. *)
Fixpoint dict_get {V} (d : list (string * V)) (k : string) : option V :=
  match d with
  | [] => None
  | (k', v) :: d' => if decide (k' = k) then Some v else dict_get d' k
  end.

(** [d.get(k, dflt)]. *)
Definition dict_get_or {V} (d : list (string * V)) (k : string) (dflt : V) : V :=
  default dflt (dict_get d k).

(** ** Stable sorting

    [list.sort(key=...)] and [sorted(..., key=...)] are stable; with
    [reverse=True] elements with equal keys still keep their original order.
    Insertion from the right with a strict comparison is such a sort. *)

Section StableSort.
Context {A K : Type} (lt : K → K → bool) (key : A → K).

(** [before rev x y]: the sort has to put [x] in front of [y]. *)
Definition before (rev : bool) (x y : A) : bool :=
  if rev then lt (key y) (key x) else lt (key x) (key y).

Fixpoint insert_sorted (rev : bool) (x : A) (l : list A) : list A :=
  match l with
  | [] => [x]
  | y :: l' => if before rev y x then y :: insert_sorted rev x l' else x :: y :: l'
  end.

Definition sort_by (rev : bool) (l : list A) : list A :=
  foldr (insert_sorted rev) [] l.
End StableSort.

(** ** [TasteFingerprintGenerator] *)

Module TasteFingerprintGenerator.

Definition dimension_count : nat := 62.

Definition _get_all_dimension_names : list string :=
  [ (* Visual Language *)
    "color_palette_psychology";
    "lighting_philosophy";
    "camera_movement_personality";
    "shot_composition_philosophy";
    "depth_of_field_psychology";
    "texture_and_grain";
    "aspect_ratio_emotional_frame";
    "spatial_density";
    "cinematic_realism_spectrum";
    "blocking_and_performance_space";
    "color_temperature";
    "lens_distortion_and_perspective";
    "shadow_ratio";
    "frame_rate_and_motion";
    "visual_motif_repetition";
    (* Editing & Rhythm *)
    "editing_tempo";
    "narrative_rhythm";
    "temporal_structure";
    "montage_philosophy";
    "scene_length_variance";
    "ellipsis_and_gaps";
    "transition_style";
    "rhythm_acceleration";
    (* Sound & Score *)
    "score_emotional_temperature";
    "score_density";
    "music_function";
    "soundscape_texture";
    "diegetic_vs_nondiegetic_ratio";
    "sonic_interiority";
    "silence_as_tool";
    "vocal_treatment";
    "rhythmic_percussion";
    (* Narrative Psychology *)
    "philosophical_stance";
    "narrative_tension_source";
    "moral_complexity";
    "ending_resolution";
    "power_dynamics";
    "intimacy_scale";
    "dialogue_philosophy";
    "relationship_to_class";
    "body_and_physicality";
    "time_relationship";
    "hope_quotient";
    "political_consciousness";
    (* Quality Profile *)
    "craft_precision_vs_rawness";
    "art_cinema_vs_pop_cinema_mode";
    "narrative_ambition_level";
    "irony_sincerity_register";
    "emotional_weight_tolerance";
    "performance_style_preference";
    "script_construction_visibility";
    "auteur_intentionality_desire";
    (* Emotional Resonance *)
    "emotional_temperature";
    "catharsis_availability";
    "tonal_consistency";
    "empathy_requirement";
    "beauty_priority";
    "sensory_immersion";
    "vulnerability_exposure";
    "mystery_comfort";
    "artifice_awareness";
    "suffering_tolerance" ].

Definition dimension_names : list string := _get_all_dimension_names.

(** A movie as [_calculate_average_scores] reads it: the value under
    ['dimensional_scores'], if the key is there.  A score is a number or
    Python's [None]. *)
Record scored_movie := ScoredMovie {
  dimensional_scores : option (gmap string (option Qc))
}.

(** [movie.get('dimensional_scores', {})] *)
Definition scores_of (movie : scored_movie) : gmap string (option Qc) :=
  default ∅ (dimensional_scores movie).

(** The two local dicts of [_calculate_average_scores]. *)
Record accum := Accum {
  dimension_sums : gmap string Qc;
  dimension_counts : gmap string nat
}.

Definition init_accum : accum :=
  {| dimension_sums := list_to_map ((λ dim, (dim, 0)) <$> dimension_names);
     dimension_counts := list_to_map ((λ dim, (dim, 0%nat)) <$> dimension_names) |}.

(** Body of the inner loop.  [dimension_counts[dim] += 1] raises
    [KeyError] on a missing key. *)
Definition add_score (dim : string) (score : option Qc) (acc : accum) : option accum :=
  match dimension_sums acc !! dim, score with
  | Some s, Some x =>
      c ← dimension_counts acc !! dim;
      Some {| dimension_sums := <[dim := s + x]> (dimension_sums acc);
              dimension_counts := <[dim := S c]> (dimension_counts acc) |}
  | _, _ => Some acc
  end.

(** [for dim, score in scores.items(): ...] *)
Definition add_movie (acc : accum) (movie : scored_movie) : option accum :=
  map_fold (λ dim score r, r ≫= add_score dim score) (Some acc) (scores_of movie).

(** [for movie in loved_movies_scores: ...] *)
Definition accumulate (movies : list scored_movie) : option accum :=
  foldl (λ r movie, r ≫= λ acc, add_movie acc movie) (Some init_accum) movies.

(** Body of the second loop: one entry of [avg_scores]. *)
Definition average_of (acc : accum) (dim : string) : option (string * Qc) :=
  c ← dimension_counts acc !! dim;
  if bool_decide (0 < c)%nat
  then s ← dimension_sums acc !! dim; Some (dim, s / of_nat c)
  else Some (dim, num 4.0).

Definition _calculate_average_scores (movies : list scored_movie)
  : option (list (string * Qc)) :=
  acc ← accumulate movies;
  mapM (average_of acc) dimension_names.

(** *** [_identify_strong_preferences] *)

Record strong_preferences := StrongPreferences {
  low_end_preferences : list (string * Qc);
  high_end_preferences : list (string * Qc)
}.

(** Body of the loop over [avg_scores.items()]; the state is
    [(strong_low, strong_high)]. *)
Definition classify (st : list (string * Qc) * list (string * Qc)) (item : string * Qc)
  : list (string * Qc) * list (string * Qc) :=
  let '(strong_low, strong_high) := st in
  let '(dim, score) := item in
  if leb score (num 2.5) then (strong_low ++ [(dim, score)], strong_high)
  else if leb (num 5.5) score then (strong_low, strong_high ++ [(dim, score)])
  else (strong_low, strong_high).

Definition _identify_strong_preferences (avg_scores : list (string * Qc))
  : strong_preferences :=
  let '(strong_low, strong_high) := foldl classify ([], []) avg_scores in
  let strong_low := sort_by ltb snd false strong_low in
  let strong_high := sort_by ltb snd true strong_high in
  {| low_end_preferences := take 10 strong_low;
     high_end_preferences := take 10 strong_high |}.

(** *** The narrative renderer *)

(** [if score < lo: parts.append(low) elif score > hi: parts.append(high)] *)
Definition if_low_elif_high (score lo : Qc) (low : string) (hi : Qc) (high : string)
    (parts : list string) : list string :=
  if ltb score lo then parts ++ [low]
  else if ltb hi score then parts ++ [high]
  else parts.

(** [if score > hi: parts.append(high)] *)
Definition if_high (score hi : Qc) (high : string) (parts : list string) : list string :=
  if ltb hi score then parts ++ [high] else parts.

(** [_narrate_visual_taste]: Narrate visual language preferences.  [visual_parts] is the list [parts] at the
    [return]. *)
Definition visual_parts (scores : list (string * Qc)) : list string :=
  let parts := [] in
  let color_score := dict_get_or scores "color_palette_psychology" (num 4) in
  let parts :=
    if_low_elif_high color_score
      (num 3) "You gravitate toward muted, desaturated color palettes that evoke melancholy and earthbound realism."
      (num 5) "You respond to saturated, neon-drenched visuals that create heightened, dreamlike intensity."
      parts in
  let lighting_score := dict_get_or scores "lighting_philosophy" (num 4) in
  let parts :=
    if_low_elif_high lighting_score
      (num 3) "You prefer naturalistic lighting that captures the world as it is, unmanipulated."
      (num 5) "You're drawn to expressionistic chiaroscuro lighting that sculpts psychological landscapes."
      parts in
  let camera_score := dict_get_or scores "camera_movement_personality" (num 4) in
  let parts :=
    if_low_elif_high camera_score
      (num 3) "You value static, contemplative camera work that observes from respectful distance."
      (num 5) "You connect with kinetic, handheld cinematography that puts you inside the nervous system of the story."
      parts in
  let realism_score := dict_get_or scores "cinematic_realism_spectrum" (num 4) in
  let parts :=
    if_low_elif_high realism_score
      (num 3) "You trust observational realism over stylization."
      (num 5) "You embrace surreal dreamscapes where subconscious truth supersedes literal reality."
      parts in
  parts.

Definition _narrate_visual_taste (scores : list (string * Qc)) : string :=
  String.concat " " (visual_parts scores).

(** [_narrate_rhythm_taste]: Narrate editing and rhythm preferences.  [rhythm_parts] is the list [parts] at the
    [return]. *)
Definition rhythm_parts (scores : list (string * Qc)) : list string :=
  let parts := [] in
  let tempo_score := dict_get_or scores "editing_tempo" (num 4) in
  let parts :=
    if_low_elif_high tempo_score
      (num 3) "You have patience for long takes and meditative pacing that allows you to sit with images."
      (num 5) "You respond to rapid montage and kinetic editing that creates visceral momentum."
      parts in
  let temporal_score := dict_get_or scores "temporal_structure" (num 4) in
  let parts :=
    if_high temporal_score
      (num 5) "You embrace nonlinear narrative structures that mirror how memory actually works."
      parts in
  parts.

Definition _narrate_rhythm_taste (scores : list (string * Qc)) : string :=
  String.concat " " (rhythm_parts scores).

(** [_narrate_sound_taste]: Narrate sound design preferences.  [sound_parts] is the list [parts] at the
    [return]. *)
Definition sound_parts (scores : list (string * Qc)) : list string :=
  let parts := [] in
  let score_temp := dict_get_or scores "score_emotional_temperature" (num 4) in
  let parts :=
    if_low_elif_high score_temp
      (num 3) "You're drawn to melancholic, minor-key scores that amplify sorrow and loss."
      (num 5) "You connect with triumphant, soaring music that offers emotional uplift."
      parts in
  let silence_score := dict_get_or scores "silence_as_tool" (num 4) in
  let parts :=
    if_high silence_score
      (num 5) "You value radical use of silence as space for contemplation and discomfort."
      parts in
  let soundscape_score := dict_get_or scores "soundscape_texture" (num 4) in
  let parts :=
    if_low_elif_high soundscape_score
      (num 3) "You prefer quiet, intimate soundscapes that capture interior emotional space."
      (num 5) "You respond to overwhelming sensory saturation in sound design."
      parts in
  parts.

Definition _narrate_sound_taste (scores : list (string * Qc)) : string :=
  String.concat " " (sound_parts scores).

(** [_narrate_quality_taste]: Narrate quality profile and cinematic craft preferences.  [quality_parts] is the list [parts] at the
    [return]. *)
Definition quality_parts (scores : list (string * Qc)) : list string :=
  let parts := [] in
  let craft_score := dict_get_or scores "craft_precision_vs_rawness" (num 4) in
  let parts :=
    if_low_elif_high craft_score
      (num 3) "You value raw expressiveness and emotional immediacy over polished perfection—craft can get in the way of truth."
      (num 5) "You find deep satisfaction in meticulous formal mastery where every frame is composed with visual intelligence."
      parts in
  let art_pop_score := dict_get_or scores "art_cinema_vs_pop_cinema_mode" (num 4) in
  let parts :=
    if_low_elif_high art_pop_score
      (num 3) "You prefer art-cinema mode: ambiguity, slowness, existential inquiry that rewards patience."
      (num 5) "You prefer pop-cinema mode: clarity, momentum, satisfying plot escalation and kinetic pleasure."
      parts in
  let ambition_score := dict_get_or scores "narrative_ambition_level" (num 4) in
  let parts :=
    if_low_elif_high ambition_score
      (num 2.5) "You seek pure sensory thrill and spectacle over thematic density."
      (num 5.5) "You want cinema to wrestle with mythic themes—existence, mortality, the human condition writ large."
      parts in
  let irony_score := dict_get_or scores "irony_sincerity_register" (num 4) in
  let parts :=
    if_low_elif_high irony_score
      (num 3) "You need films to take emotion seriously without ironic distance—full sincerity is essential."
      (num 5) "You prefer self-aware, meta-textual cinema that maintains ironic distance from pure emotion."
      parts in
  let weight_score := dict_get_or scores "emotional_weight_tolerance" (num 4) in
  let parts :=
    if_low_elif_high weight_score
      (num 2.5) "You use cinema for restoration and comfort—emotional heaviness feels overwhelming."
      (num 5.5) "You seek devastating emotional weight and unrelenting intensity—light films feel trivial."
      parts in
  let performance_score := dict_get_or scores "performance_style_preference" (num 4) in
  let parts :=
    if_low_elif_high performance_score
      (num 3) "You want acting to disappear into naturalistic behavioral truth."
      (num 5) "You love watching visible craft in heightened theatrical performances."
      parts in
  let script_score := dict_get_or scores "script_construction_visibility" (num 4) in
  let parts :=
    if_high script_score
      (num 5) "You find pleasure in intricate narrative architecture and visible structural intelligence."
      parts in
  let auteur_score := dict_get_or scores "auteur_intentionality_desire" (num 4) in
  let parts :=
    if_high auteur_score
      (num 5) "You respond to singular directorial vision and total artistic control."
      parts in
  parts.

Definition _narrate_quality_taste (scores : list (string * Qc)) : string :=
  String.concat " " (quality_parts scores).

(** [_narrate_story_taste]: Narrate narrative psychology preferences.  [story_parts] is the list [parts] at the
    [return]. *)
Definition story_parts (scores : list (string * Qc)) : list string :=
  let parts := [] in
  let philosophy_score := dict_get_or scores "philosophical_stance" (num 4) in
  let parts :=
    if_low_elif_high philosophy_score
      (num 3) "You connect with humanist narratives that maintain hope in human goodness and meaningful connection."
      (num 5) "You're drawn to cynical or nihilistic worldviews that refuse easy comfort."
      parts in
  let resolution_score := dict_get_or scores "ending_resolution" (num 4) in
  let parts :=
    if_high resolution_score
      (num 5) "You prefer films that end in radical ambiguity, trusting you to live with unanswered questions."
      parts in
  let moral_score := dict_get_or scores "moral_complexity" (num 4) in
  let parts :=
    if_high moral_score
      (num 5) "You value moral ambiguity where every character is compromised and human."
      parts in
  let class_score := dict_get_or scores "relationship_to_class" (num 4) in
  let parts :=
    if_high class_score
      (num 5) "You notice when economic reality shapes everything, seeing class as central to human experience."
      parts in
  parts.

Definition _narrate_story_taste (scores : list (string * Qc)) : string :=
  String.concat " " (story_parts scores).

(** [_narrate_emotional_taste]: Narrate emotional resonance preferences.  [emotional_parts] is the list [parts] at the
    [return]. *)
Definition emotional_parts (scores : list (string * Qc)) : list string :=
  let parts := [] in
  let temp_score := dict_get_or scores "emotional_temperature" (num 4) in
  let parts :=
    if_low_elif_high temp_score
      (num 3) "You process emotion through distance and observation, intellectualizing feeling."
      (num 5) "You need raw, unfiltered emotional intensity and aren't afraid of messiness."
      parts in
  let vulnerability_score := dict_get_or scores "vulnerability_exposure" (num 4) in
  let parts :=
    if_high vulnerability_score
      (num 5) "You crave total emotional exposure, needing to see people break completely."
      parts in
  let mystery_score := dict_get_or scores "mystery_comfort" (num 4) in
  let parts :=
    if_high mystery_score
      (num 5) "You're comfortable with radical inexplicability, embracing films that never explain themselves."
      parts in
  let beauty_score := dict_get_or scores "beauty_priority" (num 4) in
  let parts :=
    if_low_elif_high beauty_score
      (num 3) "Every frame must be aesthetically composed—you need beauty as refuge."
      (num 5) "You distrust beauty as lie, preferring deliberate ugliness as honesty."
      parts in
  parts.

Definition _narrate_emotional_taste (scores : list (string * Qc)) : string :=
  String.concat " " (emotional_parts scores).

(** [if narrative: narrative_parts.append(narrative)]: an empty string is
    falsy. *)
Definition append_if_nonempty (narrative : string) (narrative_parts : list string)
  : list string :=
  if decide (narrative = "") then narrative_parts else narrative_parts ++ [narrative].

Definition _generate_narrative_fingerprint (avg_scores : list (string * Qc))
    (strong_preferences : strong_preferences) : string :=
  let narrative_parts := [] in
  let narrative_parts := append_if_nonempty (_narrate_visual_taste avg_scores) narrative_parts in
  let narrative_parts := append_if_nonempty (_narrate_rhythm_taste avg_scores) narrative_parts in
  let narrative_parts := append_if_nonempty (_narrate_sound_taste avg_scores) narrative_parts in
  let narrative_parts := append_if_nonempty (_narrate_quality_taste avg_scores) narrative_parts in
  let narrative_parts := append_if_nonempty (_narrate_story_taste avg_scores) narrative_parts in
  let narrative_parts := append_if_nonempty (_narrate_emotional_taste avg_scores) narrative_parts in
  String.concat " " narrative_parts.

(** Every templated sentence the six category functions emitted, in the
    order of the narrative. *)
Definition narrative_sentences (scores : list (string * Qc)) : list string :=
  (visual_parts scores ++ rhythm_parts scores ++ sound_parts scores
   ++ quality_parts scores ++ story_parts scores ++ emotional_parts scores).

(** *** [_create_taste_vector] *)

(** [(vector - 1) / 6], one component. *)
Definition normalize (score : Qc) : Qc := (score - 1) / num 6.

Definition _create_taste_vector (avg_scores : list (string * Qc)) : list Qc :=
  let vector := (λ dim, dict_get_or avg_scores dim (num 4.0)) <$> dimension_names in
  normalize <$> vector.

(** *** [generate_taste_fingerprint] *)

Record fingerprint := Fingerprint {
  fingerprint_dimensional_scores : list (string * Qc);
  fingerprint_strong_preferences : strong_preferences;
  fingerprint_narrative : string;
  fingerprint_taste_vector : list Qc;
  fingerprint_vector_dimension : nat
}.

Definition generate_taste_fingerprint (loved_movies_scores : list scored_movie)
  : option fingerprint :=
  avg_scores ← _calculate_average_scores loved_movies_scores;
  let strong_preferences := _identify_strong_preferences avg_scores in
  let narrative := _generate_narrative_fingerprint avg_scores strong_preferences in
  let taste_vector := _create_taste_vector avg_scores in
  Some {| fingerprint_dimensional_scores := avg_scores;
          fingerprint_strong_preferences := strong_preferences;
          fingerprint_narrative := narrative;
          fingerprint_taste_vector := taste_vector;
          fingerprint_vector_dimension := length taste_vector |}.

(** A movie whose scores, where they are numbers, are on the 1-7 scale. *)
Definition on_scale (movie : scored_movie) : Prop :=
  map_Forall (λ _ score, match score with
                         | Some x => num 1 ≤ x ≤ num 7
                         | None => True
                         end) (scores_of movie).

#[global] Instance score_on_scale_dec (score : option Qc) :
  Decision (match score with Some x => num 1 ≤ x ≤ num 7 | None => True end).
Proof. destruct score; apply _. Defined.

#[global] Instance on_scale_dec (movie : scored_movie) : Decision (on_scale movie).
Proof. unfold on_scale. apply _. Defined.

(** *** [_explain_match] *)

Definition explanations : list (string * string) :=
  [ ("color_palette_psychology", "shares your color palette sensibility");
    ("lighting_philosophy", "uses light the way you respond to");
    ("camera_movement_personality", "moves the camera in ways you find natural");
    ("editing_tempo", "breathes at your preferred rhythm");
    ("score_emotional_temperature", "uses music to evoke emotion the way you like");
    ("philosophical_stance", "shares your worldview about human nature");
    ("emotional_temperature", "matches your emotional processing style");
    ("mystery_comfort", "handles ambiguity the way you prefer");
    ("cinematic_realism_spectrum", "balances realism and stylization as you like");
    ("vulnerability_exposure", "reveals interiority at your comfort level") ].

(** The scores of the matches are not read, whatever their type. *)
Definition _explain_match {S : Type} (top_matches : list (string * S)) : string :=
  let parts := ["This film matches your taste because it"] in
  let parts :=
    foldl (λ parts '(dim, score),
      match dict_get explanations dim with
      | Some text => parts ++ [text]
      | None => parts
      end)
      parts (take 3 top_matches) in
  (" " +:+ String.concat ", " parts) +:+ ".".

(** *** Reference notions for the aggregation claims *)

(** The score a movie supplies for a dimension: a number stored under that
    name. *)
Definition supplied (dim : string) (movie : scored_movie) : option Qc :=
  mjoin (scores_of movie !! dim).

Definition supplied_scores (dim : string) (movies : list scored_movie) : list Qc :=
  omap (supplied dim) movies.

Definition mean (xs : list Qc) : Qc := sum_from 0 xs / of_nat (length xs).

Definition expected_average (dim : string) (movies : list scored_movie) : Qc :=
  match supplied_scores dim movies with
  | [] => num 4.0
  | xs => mean xs
  end.

(** An entry of a score map that the aggregation can use: a registered
    dimension with a number. *)
Definition well_formed_entry (entry : string * option Qc) : Prop :=
  entry.1 ∈ dimension_names ∧ is_Some entry.2.

(** The movie with every other entry removed from its score map. *)
Definition drop_malformed (movie : scored_movie) : scored_movie :=
  {| dimensional_scores := filter well_formed_entry <$> dimensional_scores movie |}.

(** The film of the specification's scenario: every dimension at 2.0 except
    [temporal_structure] at 6.0. *)
Definition moonlight : scored_movie :=
  {| dimensional_scores :=
       Some (list_to_map
         ((λ dim, (dim, Some (if decide (dim = "temporal_structure")
                             then num 6.0 else num 2.0))) <$> dimension_names)) |}.

(** The aggregate score map of [[moonlight]]. *)
Definition moonlight_average : list (string * Qc) :=
  (λ dim, (dim, if decide (dim = "temporal_structure") then num 6.0 else num 2.0))
  <$> dimension_names.

(** A score map with one entry, between the two low-pole thresholds of the
    renderer. *)
Definition modest_ambition : list (string * Qc) :=
  [ ("narrative_ambition_level", num 2.75) ].

(** *** Reference notions for the renderer claim *)

Inductive pole := Low | High.

(** One templated sentence: the dimension it reads, the pole it describes,
    the threshold of its test and its text. *)
Record gate := Rule {
  gate_dimension : string;
  gate_pole : pole;
  gate_threshold : Qc;
  gate_text : string
}.

#[global] Instance pole_eq_dec : EqDecision pole.
Proof. solve_decision. Defined.
#[global] Instance gate_eq_dec : EqDecision gate.
Proof. solve_decision. Defined.

(** The test of a sentence: strictly below the threshold for a low-pole
    sentence, strictly above it for a high-pole one. *)
Definition fires (scores : list (string * Qc)) (g : gate) : Prop :=
  let score := dict_get_or scores (gate_dimension g) (num 4) in
  match gate_pole g with
  | Low => score < gate_threshold g
  | High => gate_threshold g < score
  end.

(** The catalogue of the renderer's sentences, by category function, with
    the threshold each one is tested against. *)
Definition visual_gates : list gate :=
  [ Rule "color_palette_psychology" Low (num 3)
      "You gravitate toward muted, desaturated color palettes that evoke melancholy and earthbound realism.";
    Rule "color_palette_psychology" High (num 5)
      "You respond to saturated, neon-drenched visuals that create heightened, dreamlike intensity.";
    Rule "lighting_philosophy" Low (num 3)
      "You prefer naturalistic lighting that captures the world as it is, unmanipulated.";
    Rule "lighting_philosophy" High (num 5)
      "You're drawn to expressionistic chiaroscuro lighting that sculpts psychological landscapes.";
    Rule "camera_movement_personality" Low (num 3)
      "You value static, contemplative camera work that observes from respectful distance.";
    Rule "camera_movement_personality" High (num 5)
      "You connect with kinetic, handheld cinematography that puts you inside the nervous system of the story.";
    Rule "cinematic_realism_spectrum" Low (num 3)
      "You trust observational realism over stylization.";
    Rule "cinematic_realism_spectrum" High (num 5)
      "You embrace surreal dreamscapes where subconscious truth supersedes literal reality." ].

Definition rhythm_gates : list gate :=
  [ Rule "editing_tempo" Low (num 3)
      "You have patience for long takes and meditative pacing that allows you to sit with images.";
    Rule "editing_tempo" High (num 5)
      "You respond to rapid montage and kinetic editing that creates visceral momentum.";
    Rule "temporal_structure" High (num 5)
      "You embrace nonlinear narrative structures that mirror how memory actually works." ].

Definition sound_gates : list gate :=
  [ Rule "score_emotional_temperature" Low (num 3)
      "You're drawn to melancholic, minor-key scores that amplify sorrow and loss.";
    Rule "score_emotional_temperature" High (num 5)
      "You connect with triumphant, soaring music that offers emotional uplift.";
    Rule "silence_as_tool" High (num 5)
      "You value radical use of silence as space for contemplation and discomfort.";
    Rule "soundscape_texture" Low (num 3)
      "You prefer quiet, intimate soundscapes that capture interior emotional space.";
    Rule "soundscape_texture" High (num 5)
      "You respond to overwhelming sensory saturation in sound design." ].

Definition quality_gates : list gate :=
  [ Rule "craft_precision_vs_rawness" Low (num 3)
      "You value raw expressiveness and emotional immediacy over polished perfection—craft can get in the way of truth.";
    Rule "craft_precision_vs_rawness" High (num 5)
      "You find deep satisfaction in meticulous formal mastery where every frame is composed with visual intelligence.";
    Rule "art_cinema_vs_pop_cinema_mode" Low (num 3)
      "You prefer art-cinema mode: ambiguity, slowness, existential inquiry that rewards patience.";
    Rule "art_cinema_vs_pop_cinema_mode" High (num 5)
      "You prefer pop-cinema mode: clarity, momentum, satisfying plot escalation and kinetic pleasure.";
    Rule "narrative_ambition_level" Low (num 2.5)
      "You seek pure sensory thrill and spectacle over thematic density.";
    Rule "narrative_ambition_level" High (num 5.5)
      "You want cinema to wrestle with mythic themes—existence, mortality, the human condition writ large.";
    Rule "irony_sincerity_register" Low (num 3)
      "You need films to take emotion seriously without ironic distance—full sincerity is essential.";
    Rule "irony_sincerity_register" High (num 5)
      "You prefer self-aware, meta-textual cinema that maintains ironic distance from pure emotion.";
    Rule "emotional_weight_tolerance" Low (num 2.5)
      "You use cinema for restoration and comfort—emotional heaviness feels overwhelming.";
    Rule "emotional_weight_tolerance" High (num 5.5)
      "You seek devastating emotional weight and unrelenting intensity—light films feel trivial.";
    Rule "performance_style_preference" Low (num 3)
      "You want acting to disappear into naturalistic behavioral truth.";
    Rule "performance_style_preference" High (num 5)
      "You love watching visible craft in heightened theatrical performances.";
    Rule "script_construction_visibility" High (num 5)
      "You find pleasure in intricate narrative architecture and visible structural intelligence.";
    Rule "auteur_intentionality_desire" High (num 5)
      "You respond to singular directorial vision and total artistic control." ].

Definition story_gates : list gate :=
  [ Rule "philosophical_stance" Low (num 3)
      "You connect with humanist narratives that maintain hope in human goodness and meaningful connection.";
    Rule "philosophical_stance" High (num 5)
      "You're drawn to cynical or nihilistic worldviews that refuse easy comfort.";
    Rule "ending_resolution" High (num 5)
      "You prefer films that end in radical ambiguity, trusting you to live with unanswered questions.";
    Rule "moral_complexity" High (num 5)
      "You value moral ambiguity where every character is compromised and human.";
    Rule "relationship_to_class" High (num 5)
      "You notice when economic reality shapes everything, seeing class as central to human experience." ].

Definition emotional_gates : list gate :=
  [ Rule "emotional_temperature" Low (num 3)
      "You process emotion through distance and observation, intellectualizing feeling.";
    Rule "emotional_temperature" High (num 5)
      "You need raw, unfiltered emotional intensity and aren't afraid of messiness.";
    Rule "vulnerability_exposure" High (num 5)
      "You crave total emotional exposure, needing to see people break completely.";
    Rule "mystery_comfort" High (num 5)
      "You're comfortable with radical inexplicability, embracing films that never explain themselves.";
    Rule "beauty_priority" Low (num 3)
      "Every frame must be aesthetically composed—you need beauty as refuge.";
    Rule "beauty_priority" High (num 5)
      "You distrust beauty as lie, preferring deliberate ugliness as honesty." ].

Definition sentence_gates : list gate :=
  (visual_gates ++ rhythm_gates ++ sound_gates
   ++ quality_gates ++ story_gates ++ emotional_gates).

(** The two dimensions whose sentences are tested against 2.5 and 5.5. *)
Definition strict_dimensions : list string :=
  [ "narrative_ambition_level"; "emotional_weight_tolerance" ].

(** The threshold of a gate according to its dimension and pole. *)
Definition expected_threshold (g : gate) : Qc :=
  match gate_pole g with
  | Low => if bool_decide (gate_dimension g ∈ strict_dimensions) then num 2.5 else num 3
  | High => if bool_decide (gate_dimension g ∈ strict_dimensions) then num 5.5 else num 5
  end.

(** The looser test, below 3 or above 5. *)
Definition fires_loosely (scores : list (string * Qc)) (g : gate) : Prop :=
  let score := dict_get_or scores (gate_dimension g) (num 4) in
  match gate_pole g with
  | Low => score < num 3
  | High => num 5 < score
  end.

End TasteFingerprintGenerator.

(** ** Cosine similarity

    [TasteFingerprintGenerator.calculate_similarity] on [numpy.float64]
    arrays.  [np.dot] raises [ValueError] on arrays of different lengths;
    arithmetic on [float64] never raises: it overflows to an infinity,
    underflows to zero and answers [nan]. *)

Module Binary64.
Import PrimFloat.
Local Open Scope float_scope.

(** [np.dot(a, b)] on one-dimensional arrays of equal length.  The sum is
    left to the BLAS routine, which does not fix the order of its
    additions; the products are added from left to right here. *)
Definition dot (a b : list float) : float := foldl add 0 (zip_with mul a b).

(** [np.linalg.norm(a)]: for a real one-dimensional array numpy takes
    [sqrt(a.dot(a))]. *)
Definition norm (a : list float) : float := sqrt (dot a a).

Definition calculate_similarity (vector1 vector2 : list float) : option float :=
  if bool_decide (length vector1 = length vector2) then
    let dot_product := dot vector1 vector2 in
    let norm1 := norm vector1 in
    let norm2 := norm vector2 in
    if (norm1 =? 0) || (norm2 =? 0) then Some 0
    else
      let similarity := dot_product / (norm1 * norm2) in
      Some similarity
  else None.
End Binary64.

(** The same function over the real numbers: what [calculate_similarity]
    computes when no operation rounds, overflows or underflows. *)

Module Similarity.
Local Open Scope R_scope.

(** [np.dot(a, b)] on one-dimensional arrays of equal length. *)
Definition dot (a b : list R) : R := foldr Rplus 0 (zip_with Rmult a b).

(** [np.linalg.norm(a)] *)
Definition norm (a : list R) : R := sqrt (dot a a).

Definition calculate_similarity (vector1 vector2 : list R) : option R :=
  if bool_decide (length vector1 = length vector2) then
    let dot_product := dot vector1 vector2 in
    let norm1 := norm vector1 in
    let norm2 := norm vector2 in
    if Req_dec_T norm1 0 then Some 0
    else if Req_dec_T norm2 0 then Some 0
    else Some (dot_product / (norm1 * norm2))
  else None.
(** [x < y] on floats, as the boolean the sort branches on. *)
Definition Rltb (x y : R) : bool := if Rlt_dec x y then true else false.

Record film_match := FilmMatch {
  overall_similarity : R;
  top_matching_dimensions : list (string * R);
  bottom_matching_dimensions : list (string * R);
  match_explanation : string
}.

(** [match_film_to_taste], likewise over the real numbers.
    [film_vector[i]] raises [IndexError] beyond the end of the array.  The
    dimension names are pairwise different, so the items of
    [dimension_alignment] are its assignments, in the order of the loop. *)
Definition match_film_to_taste (film_vector user_taste_vector : list R)
  : option film_match :=
  similarity_score ← calculate_similarity film_vector user_taste_vector;
  dimension_alignment ←
    mapM (λ '(i, dim_name),
      film_score ← film_vector !! i;
      user_pref ← user_taste_vector !! i;
      let alignment := 1 - Rabs (film_score - user_pref) in
      Some (dim_name, alignment))
      (imap (λ i dim_name, (i, dim_name)) TasteFingerprintGenerator.dimension_names);
  let sorted_alignment := sort_by Rltb snd true dimension_alignment in
  Some {| overall_similarity := similarity_score;
          top_matching_dimensions := take 10 sorted_alignment;
          bottom_matching_dimensions :=
            drop (length sorted_alignment - 5) sorted_alignment;
          match_explanation :=
            TasteFingerprintGenerator._explain_match (take 5 sorted_alignment) |}.

End Similarity.

(** ** Unicode strings

    A [str] whose characters matter (a title, a slug) is the list of its
    code points. *)

Abbreviation pystr := (list N).

(** The characters the slug patterns name. *)
Definition hyphen : N := 45.
Definition is_az (c : N) : bool := bool_decide (97 ≤ c ≤ 122)%N.
Definition is_09 (c : N) : bool := bool_decide (48 ≤ c ≤ 57)%N.

(** [str.lower] and the class [\s] on ASCII: the part of the Unicode tables
    that is fixed here. *)
Definition is_ascii (c : N) : bool := bool_decide (c < 128)%N.
Definition ascii_lower (c : N) : N :=
  if bool_decide (65 ≤ c ≤ 90)%N then (c + 32)%N else c.
Definition ascii_isspace (c : N) : bool :=
  bool_decide ((9 ≤ c ≤ 13)%N ∨ (28 ≤ c ≤ 32)%N).

(** An ASCII literal as a [str]. *)
Definition str (s : string) : pystr :=
  (λ a, N.of_nat (Ascii.nat_of_ascii a)) <$> String.list_ascii_of_string s.

(** A character of a finished slug: a lowercase letter, a digit or a
    hyphen. *)
Definition slug_char (c : N) : bool := is_az c || is_09 c || bool_decide (c = hyphen).

(** ** [RecommendationEngine] *)

Module RecommendationEngine.

(** A movie dict, as read by the engine: a loved movie, a rated movie or a
    candidate returned by the similarity search.  A scalar key that may be
    absent is an [option]; an absent list is [[]]. *)
Record movie := Movie {
  title : option pystr;
  year : option Z;
  genres : list string;
  themes : list string;
  director : option string;
  cast : list string;
  mood : option string;
  type : option string;
  similarity_score : option Qc;
  similar_to : option (option pystr);
  base_similarity : option Qc;
  recommendation_score : option Qc;
  score_breakdown : option (Qc * Qc * Qc * bool)
}.

(** [candidate['similar_to'] = t; candidate['base_similarity'] = b] *)
Definition set_similarity (t : option pystr) (b : Qc) (c : movie) : movie :=
  {| title := title c; year := year c; genres := genres c; themes := themes c;
     director := director c; cast := cast c; mood := mood c; type := type c;
     similarity_score := similarity_score c;
     similar_to := Some t; base_similarity := Some b;
     recommendation_score := recommendation_score c;
     score_breakdown := score_breakdown c |}.

(** [candidate['recommendation_score'] = s; candidate['score_breakdown'] = b] *)
Definition set_score (s : Qc) (b : Qc * Qc * Qc * bool) (c : movie) : movie :=
  {| title := title c; year := year c; genres := genres c; themes := themes c;
     director := director c; cast := cast c; mood := mood c; type := type c;
     similarity_score := similarity_score c;
     similar_to := similar_to c; base_similarity := base_similarity c;
     recommendation_score := Some s;
     score_breakdown := Some b |}.

Record taste_profile := TasteProfile {
  top_genres : list string;
  top_themes : list string;
  top_directors : list string;
  top_actors : list string;
  top_decades : list string;
  top_moods : list string;
  genre_distribution : list (string * nat);
  total_movies : nat;
  average_year : Qc
}.

(** [d[k] += 1] on a [defaultdict(int)]: a new key goes to the end. *)
Fixpoint incr (k : string) (d : list (string * nat)) : list (string * nat) :=
  match d with
  | [] => [(k, 1%nat)]
  | (k', n) :: d' => if decide (k' = k) then (k', S n) :: d' else (k', n) :: incr k d'
  end.

(** The six counters of [_analyze_taste_profile]. *)
Record counters := Counters {
  genres_count : list (string * nat);
  themes_count : list (string * nat);
  directors_count : list (string * nat);
  actors_count : list (string * nat);
  decades_count : list (string * nat);
  moods_count : list (string * nat)
}.

(** Body of the loop over [loved_movies]. *)
Definition count_movie (st : counters) (movie : movie) : counters :=
  let genres_count := foldl (λ d genre, incr genre d) (genres_count st) (genres movie) in
  let themes_count := foldl (λ d theme, incr theme d) (themes_count st) (themes movie) in
  let director := default "" (director movie) in
  let directors_count :=
    if bool_decide (director ≠ "" ∧ director ≠ "N/A")
    then incr director (directors_count st) else directors_count st in
  let actors_count := foldl (λ d actor, incr actor d) (actors_count st) (take 3 (cast movie)) in
  let year := default 0%Z (year movie) in
  let decades_count :=
    if bool_decide (year ≠ 0%Z)
    then let decade := ((year `div` 10) * 10)%Z in
         incr (pretty decade +:+ "s") (decades_count st)
    else decades_count st in
  let mood := default "" (mood movie) in
  let moods_count :=
    if bool_decide (mood ≠ "") then incr mood (moods_count st) else moods_count st in
  {| genres_count := genres_count; themes_count := themes_count;
     directors_count := directors_count; actors_count := actors_count;
     decades_count := decades_count; moods_count := moods_count |}.

(** [[x[0] for x in sorted(d.items(), key=lambda x: x[1], reverse=True)[:n]]] *)
Definition top (n : nat) (d : list (string * nat)) : list string :=
  (take n (sort_by Nat.ltb snd true d)).*1.

Definition _analyze_taste_profile (loved_movies : list movie) : taste_profile :=
  let st := foldl count_movie (Counters [] [] [] [] [] []) loved_movies in
  {| top_genres := top 5 (genres_count st);
     top_themes := top 5 (themes_count st);
     top_directors := top 5 (directors_count st);
     top_actors := top 5 (actors_count st);
     top_decades := top 3 (decades_count st);
     top_moods := top 3 (moods_count st);
     genre_distribution := genres_count st;
     total_movies := length loved_movies;
     average_year :=
       if bool_decide (loved_movies ≠ [])
       then Qc_of_Z (foldl Z.add 0%Z ((λ m, default 0%Z (year m)) <$> loved_movies))
            / of_nat (length loved_movies)
       else 0 |}.

(** [str.lower], the regular-expression class [\s] and the similarity
    search of the analyzer ([find_similar_movies(slug, limit=10)], queried
    once the loved movies are in the vector store) are not part of the
    engine: it is parametric in them. *)
Section Engine.
Context (str_lower : pystr → pystr) (isspace : N → bool).
Context (find_similar_movies : pystr → list movie).

(** [[a-z0-9\s-]], the characters the first substitution keeps. *)
Definition kept (c : N) : bool :=
  is_az c || is_09 c || isspace c || bool_decide (c = hyphen).

(** [re.sub(r'\s+', '-', slug)]: every maximal run of white space
    becomes one hyphen; [in_run] says that the previous character was
    white space. *)
Fixpoint sub_spaces (in_run : bool) (slug : pystr) : pystr :=
  match slug with
  | [] => []
  | c :: slug' =>
      if isspace c
      then if in_run then sub_spaces true slug' else hyphen :: sub_spaces true slug'
      else c :: sub_spaces false slug'
  end.

(** [s.lstrip(ch)] and [s.strip(ch)] for a single character [ch]. *)
Fixpoint lstrip (ch : N) (s : pystr) : pystr :=
  match s with
  | [] => []
  | c :: s' => if bool_decide (c = ch) then lstrip ch s' else s
  end.

Definition strip (ch : N) (s : pystr) : pystr :=
  reverse (lstrip ch (reverse (lstrip ch s))).

Definition _create_slug (title : pystr) : pystr :=
  let slug := str_lower title in
  let slug := filter (λ c, kept c) slug in
  let slug := sub_spaces false slug in
  strip hyphen slug.

(** [_create_slug(m.get('title', ''))] *)
Definition slug_of (m : movie) : pystr := _create_slug (default [] (title m)).

(** Body of the loop of [_score_candidates]. *)
Definition score_candidate (taste_profile : taste_profile) (diversity_factor : Qc)
    (candidate : movie) : movie :=
  let similarity := default 0 (base_similarity candidate) in
  let candidate_genres : gset string := list_to_set (genres candidate) in
  let profile_genres : gset string := list_to_set (top_genres taste_profile) in
  let genre_match :=
    of_nat (size (candidate_genres ∩ profile_genres))
    / of_nat (size candidate_genres `max` 1) in
  let director_bonus :=
    if bool_decide (director candidate ∈ Some <$> top_directors taste_profile)
    then num 1.2 else num 1.0 in
  let candidate_themes : gset string := list_to_set (themes candidate) in
  let profile_themes : gset string := list_to_set (top_themes taste_profile) in
  let theme_match :=
    if bool_decide (candidate_themes ≠ ∅)
    then of_nat (size (candidate_themes ∩ profile_themes))
         / of_nat (size candidate_themes `max` 1)
    else 0 in
  let year := default 2000%Z (year candidate) in
  let recency_factor := pymin (Qc_of_Z year / num 2020) (num 1.0) in
  let base_score := similarity * num 0.5 in
  let genre_score := genre_match * num 0.2 in
  let theme_score := theme_match * num 0.15 in
  let director_score := (director_bonus - num 1.0) * num 0.15 in
  let final_score :=
    base_score * (1 - diversity_factor * num 0.3)
    + genre_score
    + theme_score
    + director_score
    + recency_factor * diversity_factor * num 0.1 in
  set_score final_score
    (similarity, genre_match, theme_match, ltb (num 1.0) director_bonus)
    candidate.

(** The set [loved_titles] the source builds first is never read. *)
Definition _score_candidates (candidates : list movie) (taste_profile : taste_profile)
    (loved_movies : list movie) (diversity_factor : Qc) : list movie :=
  let candidates := score_candidate taste_profile diversity_factor <$> candidates in
  sort_by ltb (λ x, default 0 (recommendation_score x)) true candidates.

(** The loop of [_select_top_recommendations], with its [break]. *)
Fixpoint select_loop (num_recommendations : Z) (seen_titles : gset pystr)
    (recommendations : list movie) (scored_candidates : list movie) : list movie :=
  match scored_candidates with
  | [] => recommendations
  | candidate :: rest =>
      let title_slug := slug_of candidate in
      if bool_decide ((title_slug ∉ seen_titles) ∧ (type candidate ≠ Some "loved"))
      then
        let recommendations := recommendations ++ [candidate] in
        let seen_titles := {[title_slug]} ∪ seen_titles in
        if bool_decide (num_recommendations ≤ Z.of_nat (length recommendations))%Z
        then recommendations
        else select_loop num_recommendations seen_titles recommendations rest
      else select_loop num_recommendations seen_titles recommendations rest
  end.

Definition _select_top_recommendations (scored_candidates : list movie)
    (num_recommendations : Z) : list movie :=
  select_loop num_recommendations ∅ [] scored_candidates.

(** Step 3 of [generate_recommendations]: the candidates of every loved
    movie that are not excluded, annotated. *)
Definition gather_candidates (excluded_slugs : gset pystr) (user_loved_movies : list movie)
  : list movie :=
  foldl (λ all_candidates movie,
    let movie_slug := slug_of movie in
    let similar := find_similar_movies movie_slug in
    foldl (λ all_candidates candidate,
      let candidate_slug := slug_of candidate in
      if bool_decide (candidate_slug ∈ excluded_slugs) then all_candidates
      else (all_candidates
            ++ [set_similarity (title movie) (default 0 (similarity_score candidate))
                  candidate]))
      all_candidates similar)
    [] user_loved_movies.

(** The exclusion list: [user_rated_movies], or the loved movies when it
    is [None]. *)
Definition rated_or_loved (user_loved_movies : list movie)
    (user_rated_movies : option (list movie)) : list movie :=
  default user_loved_movies user_rated_movies.

(** [generate_recommendations], up to the keys ['recommendations'] and
    ['taste_profile'] of its result; the map, the insights and the time
    stamp are built from these two afterwards. *)
Definition generate_recommendations (user_loved_movies : list movie)
    (user_rated_movies : option (list movie)) (num_recommendations : Z)
    (diversity_factor : Qc) : list movie * taste_profile :=
  let user_rated_movies := rated_or_loved user_loved_movies user_rated_movies in
  let excluded_slugs : gset pystr := list_to_set (slug_of <$> user_rated_movies) in
  let taste_profile := _analyze_taste_profile user_loved_movies in
  let all_candidates := gather_candidates excluded_slugs user_loved_movies in
  let scored_recommendations :=
    _score_candidates all_candidates taste_profile user_loved_movies diversity_factor in
  let final_recommendations :=
    _select_top_recommendations scored_recommendations num_recommendations in
  (final_recommendations, taste_profile).
(** *** [_create_recommendation_map] *)

(** A node of the map; its ['type'] is its constructor.  A loved movie's
    node carries a ['rating'], a recommendation's a ['score'] and the
    ['similar_to'] value (a string or [None]). *)
Inductive node :=
  | LovedNode (id : pystr) (title : option pystr) (year : option Z) (rating : Qc)
      (genres : list string) (director : string)
  | RecommendationNode (id : pystr) (title : option pystr) (year : option Z) (score : Qc)
      (genres : list string) (director : string) (similar_to : option pystr).

Definition node_id (n : node) : pystr :=
  match n with
  | LovedNode id _ _ _ _ _ => id
  | RecommendationNode id _ _ _ _ _ _ => id
  end.

(** An edge; its ['type'] is always ['similarity']. *)
Record edge := Edge {
  edge_source : pystr;
  edge_target : pystr;
  edge_weight : Qc
}.

Record recommendation_map := RecommendationMap {
  nodes : list node;
  edges : list edge;
  total_nodes : nat;
  total_edges : nat
}.

(** ['user_rating'] is a key the movie record does not carry;
    [user_rating] reads it. *)
Context (user_rating : movie → option Qc).

(** [rec.get('similar_to', '')]: the value stored, [''] without the key. *)
Definition similar_to_or_empty (rec : movie) : option pystr :=
  default (Some []) (similar_to rec).

(** Truth value of a string or [None]. *)
Definition truthy (s : option pystr) : bool :=
  match s with
  | Some (_ :: _) => true
  | _ => false
  end.

Definition _create_recommendation_map (loved_movies recommendations : list movie)
  : recommendation_map :=
  let nodes := [] in
  let nodes :=
    foldl (λ nodes movie,
      nodes ++ [LovedNode (slug_of movie) (title movie) (year movie)
                  (default (num 5.0) (user_rating movie)) (genres movie)
                  (default "" (director movie))])
      nodes loved_movies in
  let nodes :=
    foldl (λ nodes rec,
      nodes ++ [RecommendationNode (slug_of rec) (title rec) (year rec)
                  (default 0 (recommendation_score rec)) (genres rec)
                  (default "" (director rec)) (similar_to_or_empty rec)])
      nodes recommendations in
  let edges :=
    foldl (λ edges rec,
      let similar_to := similar_to_or_empty rec in
      if truthy similar_to
      then edges ++ [ {| edge_source := _create_slug (default [] similar_to);
                         edge_target := slug_of rec;
                         edge_weight := default 0 (base_similarity rec) |} ]
      else edges)
      [] recommendations in
  {| nodes := nodes; edges := edges;
     total_nodes := length nodes; total_edges := length edges |}.

End Engine.

(** *** [_generate_insights] *)

(** The profile always carries ['average_year'], so the default 2000 of
    [taste_profile.get('average_year', 2000)] is never used.  An f-string
    is the concatenation of its parts; the count is printed in decimal. *)
Definition _generate_insights (taste_profile : taste_profile)
    (recommendations : list movie) : list string :=
  let insights := [] in
  let insights :=
    match top_genres taste_profile with
    | top_genre :: _ =>
        insights ++ ["Your taste strongly favors " +:+ top_genre +:+ " films"]
    | [] => insights
    end in
  let insights :=
    match top_directors taste_profile with
    | top_director :: _ =>
        insights ++ ["You're a fan of " +:+ top_director +:+ "'s work"]
    | [] => insights
    end in
  let avg_year := average_year taste_profile in
  let insights :=
    if ltb avg_year (num 1990) then insights ++ ["You appreciate classic cinema"]
    else if ltb (num 2010) avg_year then insights ++ ["You enjoy contemporary films"]
    else insights ++ ["You have an eclectic taste spanning different eras"] in
  let insights :=
    if bool_decide (recommendations ≠ [])
    then
      let high_score_count :=
        length (filter (λ r, ltb (num 0.7) (default 0 (recommendation_score r)))
                  recommendations) in
      if bool_decide (5 < high_score_count)%nat
      then insights
           ++ ["Found " +:+ pretty high_score_count
               +:+ " highly matched recommendations for you"]
      else insights
    else insights in
  insights.

(** *** Reference notions for the scoring claim *)

(** [|xs ∩ ys| / max(|xs|, 1)], counting distinct elements. *)
Definition overlap_ratio (xs ys : list string) : Qc :=
  of_nat (length (filter (λ x, x ∈ ys) (remove_dups xs)))
  / of_nat (length (remove_dups xs) `max` 1).

Definition expected_score (profile : taste_profile) (d : Qc) (candidate : movie) : Qc :=
  let genre_match := overlap_ratio (genres candidate) (top_genres profile) in
  let theme_match := overlap_ratio (themes candidate) (top_themes profile) in
  let director_bonus :=
    match director candidate with
    | Some name => if bool_decide (name ∈ top_directors profile) then num 1.2 else num 1.0
    | None => num 1.0
    end in
  let recency := pymin (Qc_of_Z (default 2000%Z (year candidate)) / num 2020) (num 1.0) in
  default 0 (base_similarity candidate) * num 0.5 * (1 - d * num 0.3)
  + genre_match * num 0.2
  + theme_match * num 0.15
  + (director_bonus - num 1.0) * num 0.15
  + recency * d * num 0.1.

(** The worked scenario of the specification: similarity 0.8, every genre
    of the candidate among the top genres, no themes, a director that is
    not a favourite, and a year with [year / 2020 = 0.9]. *)
Definition scenario_candidate : movie :=
  {| title := Some (str "Candidate"); year := Some 1818%Z;
     genres := ["Drama"]; themes := []; director := Some "Someone";
     cast := []; mood := None; type := None;
     similarity_score := Some (num 0.8); similar_to := Some None;
     base_similarity := Some (num 0.8);
     recommendation_score := None; score_breakdown := None |}.

Definition scenario_profile : taste_profile :=
  {| top_genres := ["Drama"]; top_themes := []; top_directors := [];
     top_actors := []; top_decades := []; top_moods := [];
     genre_distribution := [("Drama", 1%nat)]; total_movies := 1;
     average_year := num 2001 |}.

End RecommendationEngine.

(** ** Notions of the proofs *)

Section Order.
Context {A : Type} (key : A → Qc).

(** [in_order rev x y]: [x] may stand before [y]. *)
Definition in_order (rev : bool) (x y : A) : Prop :=
  if rev then key y ≤ key x else key x ≤ key y.

(** The first [n] of the elements of [l] that satisfy [P], sorted by
    [key]. *)
Definition top_of (P : A → Prop) `{!∀ x, Decision (P x)} (rev : bool) (n : nat)
    (l : list A) : list A := take n (sort_by ltb key rev (filter P l)).

End Order.

Section AggregationNotions.
Import TasteFingerprintGenerator.

(** Effect of a supplied score on the sum and on the counter of one
    dimension. *)
Definition bump_sum (o : option Qc) (s : Qc) : Qc := from_option (Qcplus s) s o.
Definition bump_count (o : option Qc) (c : nat) : nat := from_option (λ _, S c) c o.

(** Both local dicts have the same keys. *)
Definition same_keys (acc : accum) : Prop :=
  ∀ d, is_Some (dimension_sums acc !! d) ↔ is_Some (dimension_counts acc !! d).

(** What an accumulator [acc'] is after the entries [m] went into [acc]. *)
Definition folded (acc : accum) (m : gmap string (option Qc)) (acc' : accum) : Prop :=
  ∀ d, dimension_sums acc' !! d = bump_sum (mjoin (m !! d)) <$> dimension_sums acc !! d
     ∧ dimension_counts acc' !! d = bump_count (mjoin (m !! d)) <$> dimension_counts acc !! d.

(** The two tests of the preference extractor. *)
Definition is_low (e : string * Qc) : Prop := e.2 ≤ num 2.5.
Definition is_high (e : string * Qc) : Prop := num 5.5 ≤ e.2.

(** [emits scores s g]: [s] is the sentence of [g] and the test of [g]
    succeeds. *)
Definition emits (scores : list (string * Qc)) (s : string) (g : gate) : Prop :=
  gate_text g = s ∧ fires scores g.

End AggregationNotions.

(** ** Notions for the selection and the ordering of candidates *)

(** The elements of [l] whose image under [f] is neither in [seen] nor the
    image of an earlier element of [l]: first occurrences, in order. *)
Fixpoint distinct_by {A B : Type} `{!EqDecision B} (f : A → B) (seen : list B) (l : list A)
  : list A :=
  match l with
  | [] => []
  | x :: l' =>
      if decide (f x ∈ seen) then distinct_by f seen l'
      else x :: distinct_by f (f x :: seen) l'
  end.

(** A candidate the selection may take: its ['type'] is not ['loved']. *)
Definition selectable (c : RecommendationEngine.movie) : Prop :=
  RecommendationEngine.type c ≠ Some "loved".

(** The number of recommendations the loop can reach: the test of the
    [break] comes after an append. *)
Definition reachable (num_recommendations : Z) : nat :=
  Z.to_nat (num_recommendations `max` 1).

(** The score a candidate is ranked by:
    [x.get('recommendation_score', 0)]. *)
Definition rank (c : RecommendationEngine.movie) : Qc :=
  default 0 (RecommendationEngine.recommendation_score c).

(** ** Notions for the counters of the taste profile *)

(** How often [x] occurs in [l]. *)
Definition occurrences (x : string) (l : list string) : nat :=
  length (filter (λ y, y = x) l).

(** The distinct elements of [l] in the order of their first occurrence. *)
Definition first_seen (l : list string) : list string :=
  reverse (remove_dups (reverse l)).

(** The count a counter holds for a key, 0 for a key it does not have. *)
Definition count_of (d : list (string * nat)) (k : string) : nat :=
  default 0%nat (dict_get d k).

(** A counter that has counted the elements of [l], one after the other. *)
Definition counts (d : list (string * nat)) (l : list string) : Prop :=
  d.*1 = first_seen l ∧ ∀ k, dict_get d k = if decide (k ∈ l) then Some (occurrences k l) else None.

(** What each counter of [_analyze_taste_profile] is fed with, movie after
    movie. *)
Definition all_genres (movies : list RecommendationEngine.movie) : list string :=
  movies ≫= RecommendationEngine.genres.

Definition all_themes (movies : list RecommendationEngine.movie) : list string :=
  movies ≫= RecommendationEngine.themes.

Definition counted_director (m : RecommendationEngine.movie) : option string :=
  match RecommendationEngine.director m with
  | Some name => if bool_decide (name ≠ "" ∧ name ≠ "N/A") then Some name else None
  | None => None
  end.

Definition counted_actors (m : RecommendationEngine.movie) : list string :=
  take 3 (RecommendationEngine.cast m).

Definition counted_decade (m : RecommendationEngine.movie) : option string :=
  match RecommendationEngine.year m with
  | Some y => if bool_decide (y ≠ 0%Z) then Some (pretty ((y `div` 10) * 10)%Z +:+ "s") else None
  | None => None
  end.

Definition counted_mood (m : RecommendationEngine.movie) : option string :=
  match RecommendationEngine.mood m with
  | Some name => if bool_decide (name ≠ "") then Some name else None
  | None => None
  end.

(** A counter fed with the elements of a list. *)
Definition tally (l : list string) : list (string * nat) :=
  foldl (λ d x, RecommendationEngine.incr x d) [] l.

(** [ranked n l t]: [t] ranks the elements of [l] by frequency and keeps
    the first [n]: at most [n] distinct elements of [l], most frequent first,
    first seen first among equally frequent ones, and nothing left out is
    more frequent than anything kept. *)
Definition ranked (n : nat) (l t : list string) : Prop :=
  (length t ≤ n)%nat
  ∧ NoDup t
  ∧ Forall (λ g, g ∈ l) t
  ∧ StronglySorted (λ a b, (occurrences b l ≤ occurrences a l)%nat) t
  ∧ (∀ v, filter (λ g, occurrences g l = v) t `sublist_of` first_seen l)
  ∧ (∀ g, g ∈ l → g ∉ t →
       length t = n ∧ Forall (λ x, (occurrences g l ≤ occurrences x l)%nat) t).

(** [favourite l part]: [part] is empty when [l] is, and otherwise names
    one element of [l] that no other element is more frequent than. *)
Definition favourite (sentence : string → string) (l : list string)
    (part : list string) : Prop :=
  (l = [] ∧ part = [])
  ∨ ∃ g, g ∈ l ∧ (∀ g', (occurrences g' l ≤ occurrences g l)%nat) ∧ part = [sentence g].

(** The era of a list of years, in integers: the mean is below 1990 (or
    there is no year at all), above 2010, or in between. *)
Definition era (years : list Z) : string :=
  let n := Z.of_nat (length years) in
  let total := foldr Z.add 0%Z years in
  if decide (n = 0 ∨ total < 1990 * n)%Z then "You appreciate classic cinema"
  else if decide (2010 * n < total)%Z then "You enjoy contemporary films"
  else "You have an eclectic taste spanning different eras".

(** The alignment of every dimension, in registration order. *)
Definition alignments (film user : list R) : list (string * R) :=
  imap (λ i name, (name, (1 - Rabs (nth i film 0 - nth i user 0))%R))
    TasteFingerprintGenerator.dimension_names.

(** The explanations of the first three of a list of dimension names. *)
Definition explained (names : list string) : list string :=
  omap (dict_get TasteFingerprintGenerator.explanations) (take 3 names).

(** Two loved movies, to run the aggregator on. *)
Definition heat : RecommendationEngine.movie :=
  {| RecommendationEngine.title := Some (str "Heat");
     RecommendationEngine.year := Some 1995%Z;
     RecommendationEngine.genres := ["Crime"; "Drama"];
     RecommendationEngine.themes := [];
     RecommendationEngine.director := Some "Michael Mann";
     RecommendationEngine.cast := ["Al Pacino"; "Robert De Niro"; "Val Kilmer"; "Jon Voight"];
     RecommendationEngine.mood := Some "tense";
     RecommendationEngine.type := None;
     RecommendationEngine.similarity_score := None;
     RecommendationEngine.similar_to := None;
     RecommendationEngine.base_similarity := None;
     RecommendationEngine.recommendation_score := None;
     RecommendationEngine.score_breakdown := None |}.

Definition collateral : RecommendationEngine.movie :=
  {| RecommendationEngine.title := Some (str "Collateral");
     RecommendationEngine.year := None;
     RecommendationEngine.genres := ["Thriller"; "Crime"];
     RecommendationEngine.themes := [];
     RecommendationEngine.director := Some "N/A";
     RecommendationEngine.cast := ["Tom Cruise"];
     RecommendationEngine.mood := None;
     RecommendationEngine.type := None;
     RecommendationEngine.similarity_score := None;
     RecommendationEngine.similar_to := None;
     RecommendationEngine.base_similarity := None;
     RecommendationEngine.recommendation_score := None;
     RecommendationEngine.score_breakdown := None |}.

Section NotAfter.
Context {A K : Type} (lt : K → K → bool) (key : A → K).

(** [not_after rev x y]: the sort does not have to put [y] in front of
    [x]. *)
Definition not_after (rev : bool) (x y : A) : Prop := before lt key rev y x = false.
End NotAfter.

(* ================================================================== *)
(** * Properties *)

(** Closed decidable statements about computed values are settled by
    evaluating their decision procedure. *)
Ltac by_evaluation := apply (bool_decide_unpack _); vm_compute; exact I.

(** ** Facts on the stable sort *)

Section SortFacts.
Context {A K : Type} (lt : K → K → bool) (key : A → K).

Lemma insert_sorted_perm rev x l : insert_sorted lt key rev x l ≡ₚ x :: l.
Proof.
  induction l as [|y l IH]; [done|]. simpl.
  destruct (before lt key rev y x); [|done].
  rewrite IH. apply Permutation_swap.
Qed.

Lemma sort_by_perm rev l : sort_by lt key rev l ≡ₚ l.
Proof.
  induction l as [|x l IH]; [done|]. simpl.
  rewrite insert_sorted_perm. by rewrite IH.
Qed.


Lemma elem_of_sort_by rev l x : x ∈ sort_by lt key rev l ↔ x ∈ l.
Proof. by rewrite sort_by_perm. Qed.

(** Stability: the sort does not move elements with equal keys past one
    another, as soon as no key is below itself. *)
Context `{!EqDecision K} (lt_irrefl : ∀ k, lt k k = false).

Lemma insert_sorted_stable rev x l v :
  filter (λ a, key a = v) (insert_sorted lt key rev x l)
  = filter (λ a, key a = v) (x :: l).
Proof.
  induction l as [|y l IH]; [done|]. simpl.
  destruct (before lt key rev y x) eqn:Hb; [|done].
  rewrite filter_cons, IH, !filter_cons.
  destruct (decide (key y = v)) as [Hy|Hy]; [|done].
  destruct (decide (key x = v)) as [Hx|Hx]; [|done].
  exfalso. unfold before in Hb. rewrite Hx, Hy in Hb.
  destruct rev; by rewrite lt_irrefl in Hb.
Qed.

Lemma sort_by_stable rev l v :
  filter (λ a, key a = v) (sort_by lt key rev l) = filter (λ a, key a = v) l.
Proof.
  induction l as [|x l IH]; [done|]. simpl.
  rewrite insert_sorted_stable, !filter_cons. by rewrite IH.
Qed.
End SortFacts.

(** The order a sort on rational keys produces. *)
Section SortOrder.
Context {A : Type} (key : A → Qc).

Lemma in_order_trans rev x y z : in_order key rev x y → in_order key rev y z → in_order key rev x z.
Proof. destruct rev; simpl; intros; by etrans. Qed.

Lemma before_in_order rev x y : before ltb key rev x y = true → in_order key rev x y.
Proof.
  unfold before, in_order, ltb.
  destruct rev; intros H%bool_decide_eq_true; by apply Qclt_le_weak.
Qed.

Lemma not_before_in_order rev x y : before ltb key rev x y = false → in_order key rev y x.
Proof.
  unfold before, in_order, ltb.
  destruct rev; intros H%bool_decide_eq_false; by apply Qcle_ngt.
Qed.

Lemma insert_sorted_sorted rev x l :
  StronglySorted (in_order key rev) l →
  StronglySorted (in_order key rev) (insert_sorted ltb key rev x l).
Proof.
  induction 1 as [|y l Hs IH Hy]; simpl; [by repeat constructor|].
  destruct (before ltb key rev y x) eqn:Hb.
  - constructor; [done|]. rewrite insert_sorted_perm.
    constructor; [by apply before_in_order | done].
  - apply not_before_in_order in Hb. constructor; [by constructor|].
    constructor; [done|]. eapply Forall_impl; [done|].
    intros z Hz. by eapply in_order_trans.
Qed.

Lemma sort_by_sorted rev l : StronglySorted (in_order key rev) (sort_by ltb key rev l).
Proof.
  induction l as [|x l IH]; simpl; [constructor | by apply insert_sorted_sorted].
Qed.

Lemma ltb_irrefl (k : Qc) : ltb k k = false.
Proof. apply bool_decide_eq_false. apply Qcle_ngt. reflexivity. Qed.
End SortOrder.

Section Aggregation.
Import TasteFingerprintGenerator.

Lemma dimension_names_length : length dimension_names = 62%nat.
Proof. reflexivity. Qed.

(** Lookups in a dict comprehension [{k: v for k in l}]. *)
Lemma lookup_const_map {V} (v : V) (l : list string) (k : string) :
  (list_to_map ((λ d, (d, v)) <$> l) : gmap string V) !! k
  = if decide (k ∈ l) then Some v else None.
Proof.
  induction l as [|d l IH].
  - rewrite fmap_nil, list_to_map_nil, lookup_empty.
    by rewrite decide_False by apply not_elem_of_nil.
  - rewrite fmap_cons, list_to_map_cons.
    destruct (decide (d = k)) as [->|Hne].
    + rewrite lookup_insert_eq. rewrite decide_True; [done | left].
    + rewrite lookup_insert_ne, IH by done.
      destruct (decide (k ∈ l)) as [Hin|Hin].
      * rewrite decide_True; [done | by right].
      * rewrite decide_False; [done|]. rewrite elem_of_cons. by intros [?|?].
Qed.

Lemma dict_get_tabulate {V} (g : string → V) (l : list string) (k : string) :
  dict_get ((λ d, (d, g d)) <$> l) k = if decide (k ∈ l) then Some (g k) else None.
Proof.
  induction l as [|d l IH].
  - by rewrite decide_False by apply not_elem_of_nil.
  - rewrite fmap_cons. cbn [dict_get].
    destruct (decide (d = k)) as [->|Hne].
    + rewrite decide_True; [done | left].
    + rewrite IH. destruct (decide (k ∈ l)) as [Hin|Hin].
      * rewrite decide_True; [done | by right].
      * rewrite decide_False; [done|]. rewrite elem_of_cons. by intros [?|?].
Qed.

Lemma mapM_tabulate {A B} (f : A → option B) (g : A → B) (l : list A) :
  Forall (λ a, f a = Some (g a)) l → mapM f l = Some (g <$> l).
Proof.
  induction 1 as [|a l Ha _ IH]; [done|].
  simpl. rewrite Ha. simpl. by rewrite IH.
Qed.

Lemma folded_same_keys acc m acc' : same_keys acc → folded acc m acc' → same_keys acc'.
Proof.
  intros Hk Hf d. destruct (Hf d) as [-> ->]. rewrite !fmap_is_Some. apply Hk.
Qed.

Lemma add_score_folded acc acc1 m i x :
  same_keys acc → m !! i = None → folded acc m acc1 →
  ∃ acc2, add_score i x acc1 = Some acc2 ∧ folded acc (<[i:=x]> m) acc2.
Proof.
  intros Hk Hi Hf. destruct (Hf i) as [Hs Hc]. rewrite Hi in Hs, Hc. simpl in Hs, Hc.
  unfold add_score. rewrite Hs.
  destruct (dimension_sums acc !! i) as [s|] eqn:Es; simpl;
    [destruct x as [v|] |].
  - destruct (proj1 (Hk i)) as [c Ec]; [by rewrite Es|].
    rewrite Hc, Ec. simpl. eexists; split; [done|].
    intros d. simpl. destruct (decide (i = d)) as [<-|Hne].
    + rewrite !lookup_insert_eq, Es, Ec. done.
    + rewrite !lookup_insert_ne by done. apply Hf.
  - eexists; split; [done|]. intros d. destruct (decide (i = d)) as [<-|Hne].
    + rewrite lookup_insert_eq, Hs, Hc, Es. simpl. split; [done|].
      by destruct (dimension_counts acc !! i).
    + rewrite lookup_insert_ne by done. apply Hf.
  - eexists; split; [done|]. intros d. destruct (decide (i = d)) as [<-|Hne].
    + rewrite lookup_insert_eq, Hs, Hc, Es. simpl. split; [done|].
      destruct (dimension_counts acc !! i) as [c|] eqn:Ec; [|done].
      destruct (proj2 (Hk i)) as [? ?]; [by rewrite Ec | congruence].
    + rewrite lookup_insert_ne by done. apply Hf.
Qed.

(** One movie: no [KeyError], and each dimension moves by what the movie
    supplies for it. *)
Lemma add_movie_folded acc movie :
  same_keys acc →
  ∃ acc', add_movie acc movie = Some acc' ∧ folded acc (scores_of movie) acc'.
Proof.
  intros Hk. unfold add_movie.
  apply (map_fold_weak_ind (λ r m, ∃ acc', r = Some acc' ∧ folded acc m acc')).
  - exists acc. split; [done|]. intros d. rewrite lookup_empty. simpl.
    split; [by destruct (dimension_sums acc !! d) | by destruct (dimension_counts acc !! d)].
  - intros i x m r Hi (acc1 & -> & Hf). simpl. by eapply add_score_folded.
Qed.

(** The whole first loop, started from any accumulator. *)
Lemma accumulate_from acc movies :
  same_keys acc →
  ∃ acc', foldl (λ r movie, r ≫= λ a, add_movie a movie) (Some acc) movies = Some acc'
    ∧ ∀ d, dimension_sums acc' !! d
           = (λ s, sum_from s (supplied_scores d movies)) <$> dimension_sums acc !! d
         ∧ dimension_counts acc' !! d
           = (λ c, c + length (supplied_scores d movies))%nat <$> dimension_counts acc !! d.
Proof.
  revert acc. induction movies as [|movie movies IH]; intros acc Hk.
  - exists acc. split; [done|]. intros d. simpl. split.
    + by destruct (dimension_sums acc !! d).
    + destruct (dimension_counts acc !! d); simpl; [f_equal; lia | done].
  - simpl. destruct (add_movie_folded acc movie Hk) as (acc1 & -> & Hf).
    destruct (IH acc1 (folded_same_keys _ _ _ Hk Hf)) as (acc' & -> & H').
    exists acc'. split; [done|]. intros d.
    destruct (H' d) as [-> ->]. destruct (Hf d) as [-> ->].
    unfold supplied_scores, supplied. simpl.
    destruct (mjoin (scores_of movie !! d)) as [x|]; simpl.
    + split; [by destruct (dimension_sums acc !! d)|].
      destruct (dimension_counts acc !! d); simpl; [f_equal; lia | done].
    + split; [by destruct (dimension_sums acc !! d)|].
      by destruct (dimension_counts acc !! d).
Qed.

Lemma init_accum_lookup d :
  dimension_sums init_accum !! d = (if decide (d ∈ dimension_names) then Some 0 else None)
  ∧ dimension_counts init_accum !! d
    = (if decide (d ∈ dimension_names) then Some 0%nat else None).
Proof. unfold init_accum. cbn [dimension_sums dimension_counts]. by rewrite !lookup_const_map. Qed.

Lemma init_accum_same_keys : same_keys init_accum.
Proof.
  intros d. destruct (init_accum_lookup d) as [-> ->].
  case_decide; [by split; eauto | by split; intros [? ?]].
Qed.

(** [_calculate_average_scores] never raises and tabulates
    [expected_average] over the registered dimensions. *)
Lemma calculate_average_scores_tabulate movies :
  _calculate_average_scores movies
  = Some ((λ dim, (dim, expected_average dim movies)) <$> dimension_names).
Proof.
  unfold _calculate_average_scores, accumulate.
  destruct (accumulate_from init_accum movies init_accum_same_keys) as (acc & -> & H).
  cbn [mbind option_bind]. apply mapM_tabulate. apply list.Forall_forall. intros d Hd.
  destruct (H d) as [Hs Hc]. destruct (init_accum_lookup d) as [Is Ic].
  rewrite decide_True in Is by done. rewrite decide_True in Ic by done. rewrite Is in Hs. rewrite Ic in Hc.
  cbn [fmap option_fmap option_map] in Hs, Hc.
  unfold average_of, expected_average, mean. rewrite Hc. cbn [mbind option_bind].
  destruct (supplied_scores d movies) as [|x xs] eqn:E.
  - by rewrite bool_decide_false by (cbn; lia).
  - rewrite bool_decide_true by (cbn; lia). rewrite Hs. done.
Qed.

(** C1. For every list of movies the aggregation returns (it raises no
    error) a map over exactly the 62 registered dimensions, in registration
    order, in which every dimension holds the arithmetic mean of the scores
    of the movies supplying it, and 4.0 when no movie supplies it; on the
    empty list every dimension holds 4.0. *)
Theorem aggregate_is_mean_of_suppliers (movies : list scored_movie) :
  (∃ avg_scores,
      _calculate_average_scores movies = Some avg_scores
      ∧ avg_scores.*1 = dimension_names
      ∧ length avg_scores = 62%nat
      ∧ Forall (λ dim,
          dict_get avg_scores dim
          = Some (match supplied_scores dim movies with
                  | [] => num 4.0
                  | xs => sum_from 0 xs / of_nat (length xs)
                  end)) dimension_names)
  ∧ _calculate_average_scores [] = Some ((λ dim, (dim, num 4.0)) <$> dimension_names).
Proof.
  split; [|apply calculate_average_scores_tabulate].
  eexists. split; [apply calculate_average_scores_tabulate|].
  split; [|split].
  - rewrite <- list_fmap_compose. apply list_fmap_id.
  - by rewrite length_fmap.
  - apply list.Forall_forall. intros d Hd.
    rewrite dict_get_tabulate, decide_True by done. done.
Qed.

(** The scenario of the specification, evaluated. *)
Example moonlight_scores :
  _calculate_average_scores [moonlight]
  = Some ((λ dim, (dim, if decide (dim = "temporal_structure") then num 6.0 else num 2.0))
          <$> dimension_names).
Proof. by_evaluation. Qed.

(** On a registered dimension a movie supplies the same score with and
    without its malformed entries. *)
Lemma supplied_drop_malformed dim movie :
  dim ∈ dimension_names → supplied dim (drop_malformed movie) = supplied dim movie.
Proof.
  intros Hd. unfold supplied, scores_of, drop_malformed. cbn [dimensional_scores].
  destruct (dimensional_scores movie) as [m|]; cbn [fmap option_fmap option_map default];
    [|by rewrite lookup_empty].
  unfold Datatypes.id. rewrite map_lookup_filter. destruct (m !! dim) as [[x|]|]; cbn; [| |done].
  - rewrite option_guard_True; [done|]. split; [done | by eexists].
  - rewrite option_guard_False; [done|]. by intros [_ [? ?]].
Qed.

(** The aggregate only depends on what the movies supply for the registered
    dimensions. *)
Lemma aggregate_depends_on_supplied movies1 movies2 :
  Forall2 (λ m1 m2, ∀ dim, dim ∈ dimension_names → supplied dim m1 = supplied dim m2)
    movies1 movies2 →
  _calculate_average_scores movies1 = _calculate_average_scores movies2.
Proof.
  intros H. rewrite !calculate_average_scores_tabulate. f_equal.
  apply Forall_fmap_ext, list.Forall_forall. intros d Hd. f_equal.
  unfold expected_average, supplied_scores.
  rewrite (list_omap_ext (supplied d) (supplied d) movies1 movies2); [done|].
  eapply Forall2_impl; [done|]. intros m1 m2 Hm. by apply Hm.
Qed.

(** C10. Removing, from any of the movies, every entry whose dimension name
    is not registered and every entry whose score is [None] leaves the
    aggregate score map unchanged.  [movies] pairs each movie with the
    choice of cleaning it or not. *)
Theorem malformed_entries_ignored (movies : list (bool * scored_movie)) :
  _calculate_average_scores
    ((λ bm : bool * scored_movie, if bm.1 then drop_malformed bm.2 else bm.2) <$> movies)
  = _calculate_average_scores (movies.*2).
Proof.
  apply aggregate_depends_on_supplied.
  apply Forall2_fmap, Forall_Forall2_diag, list.Forall_forall.
  intros [[] m] _ d Hd; [by apply supplied_drop_malformed | done].
Qed.

End Aggregation.

(** ** The preference extractor *)

Section Preferences.
Import TasteFingerprintGenerator.

Lemma dimension_names_NoDup : NoDup dimension_names.
Proof. by_evaluation. Qed.

(** In a dict every key has one value. *)
Lemma NoDup_fst_agree {V} (d : list (string * V)) k v1 v2 :
  NoDup d.*1 → (k, v1) ∈ d → (k, v2) ∈ d → v1 = v2.
Proof.
  induction d as [|[k' v'] d IH]; [by intros _ ?%elem_of_nil|].
  rewrite fmap_cons, NoDup_cons, !elem_of_cons. cbn [fst]. intros [Hk Hd] [E1|H1] [E2|H2].
  - congruence.
  - exfalso. apply Hk. inversion E1; subst. by apply (list_elem_of_fmap_2 fst _ _ H2).
  - exfalso. apply Hk. inversion E2; subst. by apply (list_elem_of_fmap_2 fst _ _ H1).
  - by apply IH.
Qed.

Lemma filter_sublist_mono {A} (P : A → Prop) `{!∀ x, Decision (P x)} (l1 l2 : list A) :
  l1 `sublist_of` l2 → filter P l1 `sublist_of` filter P l2.
Proof.
  induction 1 as [|x l1 l2 _ IH|x l1 l2 _ IH]; [done|..]; rewrite !filter_cons.
  - destruct (decide (P x)); [by constructor | done].
  - destruct (decide (P x)); [by constructor | done].
Qed.

(** Facts on [top_of]. *)
Section Top.
Context {A : Type} (key : A → Qc) (P : A → Prop) `{!∀ x, Decision (P x)}.
Context (rev : bool) (n : nat).

Lemma top_of_sound l : Forall (λ e, e ∈ l ∧ P e) (top_of key P rev n l).
Proof.
  apply list.Forall_forall. intros e He.
  apply (λ H, elem_of_sublist _ _ _ H (sublist_take _ _)) in He.
  apply elem_of_sort_by, list_elem_of_filter in He. tauto.
Qed.

Lemma top_of_length l : (length (top_of key P rev n l) ≤ n)%nat.
Proof. unfold top_of. rewrite length_take. lia. Qed.

Lemma top_of_sorted l : StronglySorted (in_order key rev) (top_of key P rev n l).
Proof.
  pose proof (sort_by_sorted key rev (filter P l)) as Hsorted.
  rewrite <- (take_drop n) in Hsorted. by apply StronglySorted_app_1_l in Hsorted.
Qed.

Lemma top_of_stable l v : filter (λ a, key a = v) (top_of key P rev n l) `sublist_of` l.
Proof.
  trans (filter (λ a, key a = v) (sort_by ltb key rev (filter P l))).
  { apply filter_sublist_mono, sublist_take. }
  rewrite (sort_by_stable ltb key ltb_irrefl).
  trans (filter P l); apply sublist_filter.
Qed.

Lemma top_of_complete l e :
  e ∈ l → P e →
  e ∈ top_of key P rev n l ∨ (length (top_of key P rev n l) = n ∧ Forall (λ e', in_order key rev e' e) (top_of key P rev n l)).
Proof.
  intros He HP.
  assert (e ∈ sort_by ltb key rev (filter P l)) as Hs.
  { apply elem_of_sort_by, list_elem_of_filter. done. }
  pose proof (sort_by_sorted key rev (filter P l)) as Hsorted.
  rewrite <- (take_drop n) in Hs, Hsorted.
  apply elem_of_app in Hs as [Hs|Hs]; [by left | right]. split.
  - unfold top_of. rewrite length_take. apply Nat.min_l.
    destruct (decide (n ≤ length (sort_by ltb key rev (filter P l)))%nat); [done|].
    rewrite drop_ge in Hs by lia. by apply elem_of_nil in Hs.
  - apply list.Forall_forall. intros e' He'.
    by eapply StronglySorted_app_1_elem_of.
Qed.
End Top.

(** The loop of the extractor computes two filters. *)
Lemma classify_filters avg strong_low strong_high :
  foldl classify (strong_low, strong_high) avg
  = (strong_low ++ filter is_low avg, strong_high ++ filter is_high avg).
Proof.
  revert strong_low strong_high.
  induction avg as [|[dim score] avg IH]; intros lo hi; [by rewrite !app_nil_r|].
  cbn [foldl classify]. rewrite !filter_cons. unfold leb, is_low, is_high at 1. cbn [snd].
  destruct (decide (score ≤ num 2.5)) as [Hl|Hl].
  - rewrite bool_decide_true, IH by done.
    rewrite decide_False; [by rewrite <- app_assoc|].
    intros Hh. by pose proof (Qcle_trans _ _ _ Hh Hl).
  - rewrite bool_decide_false by done. destruct (decide (num 5.5 ≤ score)) as [Hh|Hh].
    + rewrite bool_decide_true, IH by done. by rewrite <- app_assoc.
    + rewrite bool_decide_false by done. apply IH.
Qed.

Lemma identify_strong_preferences_top avg :
  _identify_strong_preferences avg
  = {| low_end_preferences := top_of snd is_low false 10 avg;
       high_end_preferences := top_of snd is_high true 10 avg |}.
Proof. unfold _identify_strong_preferences. by rewrite classify_filters. Qed.

(** C4, as amended.  For an aggregate score map (its keys are the
    registered dimensions, in registration order): every entry of the
    low-pole list is a dimension with score ≤ 2.5 and every entry of the
    high-pole list one with score ≥ 5.5, so the lists share no dimension;
    each list has at most 10 entries, is ordered most extreme first, and
    keeps dimensions with equal scores in registration order; and a
    dimension with score ≤ 2.5 (≥ 5.5) is missing from its list only when
    that list already holds 10 entries that are at least as extreme. *)
Theorem strong_preferences_capped (avg_scores : list (string * Qc)) :
  avg_scores.*1 = dimension_names →
  let low := low_end_preferences (_identify_strong_preferences avg_scores) in
  let high := high_end_preferences (_identify_strong_preferences avg_scores) in
  (Forall (λ e, e ∈ avg_scores ∧ e.2 ≤ num 2.5) low
   ∧ Forall (λ e, e ∈ avg_scores ∧ num 5.5 ≤ e.2) high)
  ∧ (∀ dim, dim ∈ low.*1 → dim ∉ high.*1)
  ∧ (length low ≤ 10 ∧ length high ≤ 10)%nat
  ∧ (StronglySorted (λ a b, a.2 ≤ b.2) low ∧ StronglySorted (λ a b, b.2 ≤ a.2) high)
  ∧ (∀ score,
       (filter (λ e, e.2 = score) low).*1 `sublist_of` dimension_names
       ∧ (filter (λ e, e.2 = score) high).*1 `sublist_of` dimension_names)
  ∧ Forall (λ e,
      (e.2 ≤ num 2.5 →
         e ∈ low ∨ (length low = 10%nat ∧ Forall (λ e', e'.2 ≤ e.2) low))
      ∧ (num 5.5 ≤ e.2 →
         e ∈ high ∨ (length high = 10%nat ∧ Forall (λ e', e.2 ≤ e'.2) high)))
      avg_scores.
Proof.
  intros Hkeys. rewrite identify_strong_preferences_top.
  cbn [low_end_preferences high_end_preferences]. cbv zeta.
  pose proof (top_of_sound snd is_low false 10 avg_scores) as Hlow.
  pose proof (top_of_sound snd is_high true 10 avg_scores) as Hhigh.
  repeat split.
  - done.
  - done.
  - intros dim (el & -> & Hel)%list_elem_of_fmap (eh & Hd & Heh)%list_elem_of_fmap.
    rewrite list.Forall_forall in Hlow, Hhigh.
    destruct (Hlow _ Hel) as [Hl1 Hl2], (Hhigh _ Heh) as [Hh1 Hh2].
    destruct el as [d sl], eh as [d' sh]. cbn [fst] in Hd. subst d'.
    assert (sl = sh) as ->.
    { eapply NoDup_fst_agree; [|done..]. rewrite Hkeys. apply dimension_names_NoDup. }
    unfold is_low, is_high in *. cbn [snd] in *.
    by pose proof (Qcle_trans _ _ _ Hh2 Hl2).
  - apply top_of_length.
  - apply top_of_length.
  - apply (top_of_sorted snd is_low false 10).
  - apply (top_of_sorted snd is_high true 10).
  - rewrite <- Hkeys. apply fmap_sublist, top_of_stable.
  - rewrite <- Hkeys. apply fmap_sublist, top_of_stable.
  - apply list.Forall_forall. intros e He. split; intros Hs.
    + apply (top_of_complete snd is_low false 10); done.
    + apply (top_of_complete snd is_high true 10); done.
Qed.

Lemma strong_preferences_capped_witness :
  let low := low_end_preferences (_identify_strong_preferences moonlight_average) in
  let high := high_end_preferences (_identify_strong_preferences moonlight_average) in
  (Forall (λ e, e ∈ moonlight_average ∧ e.2 ≤ num 2.5) low
   ∧ Forall (λ e, e ∈ moonlight_average ∧ num 5.5 ≤ e.2) high)
  ∧ (∀ dim, dim ∈ low.*1 → dim ∉ high.*1)
  ∧ (length low ≤ 10 ∧ length high ≤ 10)%nat
  ∧ (StronglySorted (λ a b, a.2 ≤ b.2) low ∧ StronglySorted (λ a b, b.2 ≤ a.2) high)
  ∧ (∀ score,
       (filter (λ e, e.2 = score) low).*1 `sublist_of` dimension_names
       ∧ (filter (λ e, e.2 = score) high).*1 `sublist_of` dimension_names)
  ∧ Forall (λ e,
      (e.2 ≤ num 2.5 →
         e ∈ low ∨ (length low = 10%nat ∧ Forall (λ e', e'.2 ≤ e.2) low))
      ∧ (num 5.5 ≤ e.2 →
         e ∈ high ∨ (length high = 10%nat ∧ Forall (λ e', e.2 ≤ e'.2) high)))
      moonlight_average.
Proof. apply (strong_preferences_capped moonlight_average). reflexivity. Defined.

(** The extractor on the scenario of the specification: ten of the 61
    dimensions at 2.0, the first ten registered, and the one at 6.0. *)
Example moonlight_preferences :
  _identify_strong_preferences moonlight_average
  = {| low_end_preferences :=
         (λ dim, (dim, num 2.0)) <$> take 10 dimension_names;
       high_end_preferences := [("temporal_structure", num 6.0)] |}.
Proof.
  rewrite identify_strong_preferences_top. f_equal; by_evaluation.
Qed.

(** C4 fails as stated: in the aggregate of the scenario
    [color_temperature] scores 2.0 ≤ 2.5 and is not in the low-pole list,
    which the cap of 10 has closed. *)
Lemma low_pole_list_omits_an_extreme_dimension :
  ("color_temperature", num 2.0) ∈ moonlight_average
  ∧ num 2.0 ≤ num 2.5
  ∧ "color_temperature"
      ∉ (low_end_preferences (_identify_strong_preferences moonlight_average)).*1.
Proof.
  rewrite moonlight_preferences. cbn [low_end_preferences].
  split; [by_evaluation|]. split; by_evaluation.
Qed.

End Preferences.

(** ** The taste vector *)

Section TasteVector.
Import TasteFingerprintGenerator.

Lemma normalize_mono x y : x ≤ y → normalize x ≤ normalize y.
Proof.
  intros H. unfold normalize, Qcdiv. apply Qcmult_le_compat_r; [|done].
  unfold Qcminus. by apply Qcplus_le_mono_r.
Qed.

Lemma normalize_strict_mono x y : x < y → normalize x < normalize y.
Proof.
  intros H. unfold normalize, Qcdiv. apply Qcmult_lt_compat_r; [done|].
  unfold Qcminus. by apply Qcplus_lt_mono_r.
Qed.

(** In a dict built over distinct keys, [get] finds the entry of each
    key. *)
Lemma dict_get_own {V} (d : list (string * V)) (dflt : V) :
  NoDup d.*1 → (λ k, dict_get_or d k dflt) <$> d.*1 = d.*2.
Proof.
  induction d as [|[k v] d IH]; [done|].
  rewrite !fmap_cons, NoDup_cons. cbn [fst snd]. intros [Hk Hd]. f_equal.
  - unfold dict_get_or. cbn [dict_get]. by rewrite decide_True.
  - rewrite <- (IH Hd). apply Forall_fmap_ext, list.Forall_forall. intros k' Hk'.
    unfold dict_get_or. cbn [dict_get]. rewrite decide_False; [done|]. by intros ->.
Qed.

(** C5. The taste vector of an aggregate score map has exactly 62 entries,
    entry [i] being [(avg_i - 1) / 6] for the score [avg_i] of the [i]-th
    registered dimension; the normalization is monotonic, sends 1, 4 and 7
    to 0, 1/2 and 1, and keeps every entry within [0, 1] when every score
    is within [1, 7]. *)
Theorem taste_vector_normalized (avg_scores : list (string * Qc)) :
  avg_scores.*1 = dimension_names →
  length (_create_taste_vector avg_scores) = 62%nat
  ∧ _create_taste_vector avg_scores = (λ e, (e.2 - 1) / num 6) <$> avg_scores
  ∧ (∀ x y, (x ≤ y → normalize x ≤ normalize y) ∧ (x < y → normalize x < normalize y))
  ∧ (normalize (num 1) = 0 ∧ normalize (num 4) = num 0.5 ∧ normalize (num 7) = 1)
  ∧ (Forall (λ e, num 1 ≤ e.2 ≤ num 7) avg_scores →
     Forall (λ x, 0 ≤ x ≤ 1) (_create_taste_vector avg_scores)).
Proof.
  intros Hkeys.
  assert (_create_taste_vector avg_scores = normalize <$> avg_scores.*2) as Hvec.
  { unfold _create_taste_vector. rewrite <- Hkeys, dict_get_own; [done|].
    rewrite Hkeys. apply dimension_names_NoDup. }
  split; [|split; [|split; [|split]]].
  - unfold _create_taste_vector. by rewrite !length_fmap.
  - rewrite Hvec. by rewrite <- list_fmap_compose.
  - intros x y. split; [apply normalize_mono | apply normalize_strict_mono].
  - repeat split; by_evaluation.
  - rewrite Hvec. intros H. apply Forall_fmap, Forall_fmap.
    eapply Forall_impl; [done|]. intros [d x] [H1 H7]. cbn [snd compose] in *.
    split.
    + replace 0 with (normalize (num 1)) by by_evaluation. by apply normalize_mono.
    + replace 1 with (normalize (num 7)) by by_evaluation. by apply normalize_mono.
Qed.

Lemma taste_vector_normalized_witness :
  length (_create_taste_vector moonlight_average) = 62%nat
  ∧ _create_taste_vector moonlight_average
    = (λ e, (e.2 - 1) / num 6) <$> moonlight_average
  ∧ (∀ x y, (x ≤ y → normalize x ≤ normalize y) ∧ (x < y → normalize x < normalize y))
  ∧ (normalize (num 1) = 0 ∧ normalize (num 4) = num 0.5 ∧ normalize (num 7) = 1)
  ∧ (Forall (λ e, num 1 ≤ e.2 ≤ num 7) moonlight_average →
     Forall (λ x, 0 ≤ x ≤ 1) (_create_taste_vector moonlight_average)).
Proof. apply (taste_vector_normalized moonlight_average). reflexivity. Defined.

(** The scenario of the specification: [temporal_structure] is the 18th
    dimension, and its entry is 5/6 (0.833...). *)
Example moonlight_vector_entry :
  dimension_names !! 17%nat = Some "temporal_structure"
  ∧ _create_taste_vector moonlight_average !! 17%nat = Some (num 5 / num 6).
Proof. split; by_evaluation. Qed.

End TasteVector.

(** ** The narrative renderer *)

Section Renderer.
Import TasteFingerprintGenerator.

Lemma elem_of_if_low_elif_high scores dim lo low hi high parts s :
  lo ≤ hi →
  s ∈ if_low_elif_high (dict_get_or scores dim (num 4)) lo low hi high parts
  ↔ s ∈ parts ∨ emits scores s (Rule dim Low lo low) ∨ emits scores s (Rule dim High hi high).
Proof.
  intros Hle. unfold if_low_elif_high, emits, fires, ltb. cbn.
  set (score := dict_get_or scores dim (num 4)).
  destruct (decide (score < lo)) as [Hl|Hl].
  - rewrite bool_decide_true by done. rewrite elem_of_app, list_elem_of_singleton.
    assert (¬ hi < score) as Hh.
    { intros Hh. apply (Qclt_not_le _ _ (Qclt_trans _ _ _ Hh Hl)), Hle. }
    intuition congruence.
  - rewrite bool_decide_false by done. destruct (decide (hi < score)) as [Hh|Hh].
    + rewrite bool_decide_true by done. rewrite elem_of_app, list_elem_of_singleton.
      intuition congruence.
    + rewrite bool_decide_false by done. tauto.
Qed.

Lemma elem_of_if_high scores dim hi high parts s :
  s ∈ if_high (dict_get_or scores dim (num 4)) hi high parts
  ↔ s ∈ parts ∨ emits scores s (Rule dim High hi high).
Proof.
  unfold if_high, emits, fires, ltb. cbn.
  set (score := dict_get_or scores dim (num 4)).
  destruct (decide (hi < score)) as [Hh|Hh].
  - rewrite bool_decide_true by done. rewrite elem_of_app, list_elem_of_singleton.
    intuition congruence.
  - rewrite bool_decide_false by done. tauto.
Qed.

Lemma threshold_3_5 : num 3 ≤ num 5.
Proof. by_evaluation. Qed.
Lemma threshold_25_55 : num 2.5 ≤ num 5.5.
Proof. by_evaluation. Qed.

Lemma step_low_elif_high scores dim lo low hi high parts s (Q : Prop) :
  lo ≤ hi → (s ∈ parts ↔ Q) →
  s ∈ if_low_elif_high (dict_get_or scores dim (num 4)) lo low hi high parts
  ↔ Q ∨ emits scores s (Rule dim Low lo low) ∨ emits scores s (Rule dim High hi high).
Proof. intros Hle <-. by apply elem_of_if_low_elif_high. Qed.

Lemma step_high scores dim hi high parts s (Q : Prop) :
  (s ∈ parts ↔ Q) →
  s ∈ if_high (dict_get_or scores dim (num 4)) hi high parts
  ↔ Q ∨ emits scores s (Rule dim High hi high).
Proof. intros <-. apply elem_of_if_high. Qed.

Lemma Exists_disjunction {A} (P : A → Prop) l :
  Exists P l ↔ foldr (λ x Q, P x ∨ Q) False l.
Proof.
  induction l as [|x l IH]; simpl; [apply Exists_nil|]. by rewrite Exists_cons, IH.
Qed.

(** Reads the list [parts] of a category function, test by test, as the
    disjunction of the gates of its catalogue. *)
Ltac gate_chain :=
  rewrite Exists_disjunction; cbn [foldr]; cbv zeta;
  eapply iff_trans;
  [ repeat first
      [ eapply (step_low_elif_high _ _ _ _ _ _ _ _ _ threshold_3_5)
      | eapply (step_low_elif_high _ _ _ _ _ _ _ _ _ threshold_25_55)
      | eapply step_high ];
    apply elem_of_nil
  | tauto ].

Lemma visual_parts_gated scores s :
  s ∈ visual_parts scores ↔ Exists (emits scores s) visual_gates.
Proof. unfold visual_parts, visual_gates. gate_chain. Qed.

Lemma rhythm_parts_gated scores s :
  s ∈ rhythm_parts scores ↔ Exists (emits scores s) rhythm_gates.
Proof. unfold rhythm_parts, rhythm_gates. gate_chain. Qed.

Lemma sound_parts_gated scores s :
  s ∈ sound_parts scores ↔ Exists (emits scores s) sound_gates.
Proof. unfold sound_parts, sound_gates. gate_chain. Qed.

Lemma quality_parts_gated scores s :
  s ∈ quality_parts scores ↔ Exists (emits scores s) quality_gates.
Proof. unfold quality_parts, quality_gates. gate_chain. Qed.

Lemma story_parts_gated scores s :
  s ∈ story_parts scores ↔ Exists (emits scores s) story_gates.
Proof. unfold story_parts, story_gates. gate_chain. Qed.

Lemma emotional_parts_gated scores s :
  s ∈ emotional_parts scores ↔ Exists (emits scores s) emotional_gates.
Proof. unfold emotional_parts, emotional_gates. gate_chain. Qed.

Lemma narrative_sentences_gated scores s :
  s ∈ narrative_sentences scores ↔ Exists (emits scores s) sentence_gates.
Proof.
  unfold narrative_sentences, sentence_gates. rewrite !elem_of_app, !Exists_app.
  by rewrite visual_parts_gated, rhythm_parts_gated, sound_parts_gated,
    quality_parts_gated, story_parts_gated, emotional_parts_gated.
Qed.

Lemma sentence_gates_thresholds :
  Forall (λ g, gate_threshold g = expected_threshold g) sentence_gates.
Proof. by_evaluation. Qed.

Lemma fires_fires_loosely scores g :
  gate_threshold g = expected_threshold g → fires scores g → fires_loosely scores g.
Proof.
  unfold fires, fires_loosely, expected_threshold. cbv zeta.
  intros ->. destruct (gate_pole g), (bool_decide _); try done; intros H.
  - eapply Qclt_trans; [done | by_evaluation].
  - eapply Qclt_trans; [|done]. by_evaluation.
Qed.

(** C7, as amended.  A sentence is emitted by the six category functions
    exactly when it is the sentence of a gate of the catalogue whose strict
    test succeeds on the score of its dimension (4 when absent); the test is
    below 3 for a low-pole sentence and above 5 for a high-pole one, except
    for the sentences of [narrative_ambition_level] and
    [emotional_weight_tolerance], which are tested against 2.5 and 5.5; so
    every emitted sentence has its score below 3 or above 5. *)
Theorem renderer_sentences_gated (scores : list (string * Qc)) :
  (∀ s, s ∈ narrative_sentences scores
        ↔ ∃ g, g ∈ sentence_gates ∧ gate_text g = s ∧ fires scores g)
  ∧ Forall (λ g, gate_threshold g = expected_threshold g) sentence_gates
  ∧ NoDup (gate_text <$> sentence_gates)
  ∧ Forall (λ s, ∃ g, g ∈ sentence_gates ∧ gate_text g = s ∧ fires_loosely scores g)
      (narrative_sentences scores).
Proof.
  split; [|split; [|split]].
  - intros s. rewrite narrative_sentences_gated, list.Exists_exists. done.
  - apply sentence_gates_thresholds.
  - by_evaluation.
  - apply list.Forall_forall. intros s.
    rewrite narrative_sentences_gated, list.Exists_exists.
    intros (g & Hg & Ht & Hf). exists g. split; [done|]. split; [done|].
    apply fires_fires_loosely; [|done].
    by apply (proj1 (list.Forall_forall _ _) sentence_gates_thresholds).
Qed.

(** C7 fails as stated: with [narrative_ambition_level] at 2.75 the score is
    strictly below 3, and the low-pole sentence of that dimension is not
    emitted. *)
Lemma ambition_sentence_not_gated_by_3 :
  Rule "narrative_ambition_level" Low (num 2.5)
    "You seek pure sensory thrill and spectacle over thematic density."
    ∈ sentence_gates
  ∧ dict_get_or modest_ambition "narrative_ambition_level" (num 4) < num 3
  ∧ "You seek pure sensory thrill and spectacle over thematic density."
      ∉ narrative_sentences modest_ambition.
Proof. split; [by_evaluation|]. split; by_evaluation. Qed.

End Renderer.

(** ** The taste profile aggregator *)

Section Profile.
Import RecommendationEngine.

(** [sum] adds from the left, starting at 0. *)
Lemma foldl_add_from (z : Z) (ys : list Z) :
  foldl Z.add z ys = (z + foldr Z.add 0 ys)%Z.
Proof.
  revert z. induction ys as [|y ys IH]; intros z; cbn [foldl foldr]; [lia|].
  rewrite IH. lia.
Qed.

Lemma sum_left_to_right (ys : list Z) : foldl Z.add 0%Z ys = foldr Z.add 0%Z ys.
Proof. rewrite foldl_add_from. lia. Qed.

(** C8. On the empty list of loved movies the profile has no top genres,
    average year 0 and 0 movies, and nothing is raised; on a non-empty
    list the average year is the sum of the years, a missing year
    counting as 0, divided by the number of movies. *)
Theorem average_year_over_all_movies :
  (top_genres (_analyze_taste_profile []) = []
   ∧ average_year (_analyze_taste_profile []) = 0
   ∧ total_movies (_analyze_taste_profile []) = 0%nat)
  ∧ ∀ movie movies,
      average_year (_analyze_taste_profile (movie :: movies))
      = Qc_of_Z (foldr Z.add 0%Z ((λ m, default 0%Z (year m)) <$> movie :: movies))
        / of_nat (length (movie :: movies)).
Proof.
  split; [done|]. intros movie movies.
  unfold _analyze_taste_profile. cbn [average_year].
  rewrite bool_decide_true by done. do 2 f_equal.
  apply sum_left_to_right.
Qed.

End Profile.

(** ** The candidate scorer *)

Section Scorer.
Import RecommendationEngine.

Lemma size_list_to_set_remove_dups (xs : list string) :
  size (list_to_set xs : gset string) = length (remove_dups xs).
Proof.
  rewrite <- (size_list_to_set (C:=gset string) (remove_dups xs))
    by apply NoDup_remove_dups.
  f_equal. apply set_eq. intros x.
  by rewrite !elem_of_list_to_set, elem_of_remove_dups.
Qed.

Lemma size_intersection_filter (xs ys : list string) :
  size ((list_to_set xs : gset string) ∩ list_to_set ys)
  = length (filter (λ x, x ∈ ys) (remove_dups xs)).
Proof.
  rewrite <- (size_list_to_set (C:=gset string) (filter (λ x, x ∈ ys) (remove_dups xs)))
    by apply NoDup_filter, NoDup_remove_dups.
  f_equal. apply set_eq. intros x.
  rewrite elem_of_intersection, !elem_of_list_to_set, list_elem_of_filter,
    elem_of_remove_dups. tauto.
Qed.

(** The set-based ratio of the scorer, on lists. *)
Lemma ratio_overlap (xs ys : list string) :
  of_nat (size ((list_to_set xs : gset string) ∩ list_to_set ys))
  / of_nat (size (list_to_set xs : gset string) `max` 1)
  = overlap_ratio xs ys.
Proof.
  unfold overlap_ratio. by rewrite size_intersection_filter, size_list_to_set_remove_dups.
Qed.

Lemma theme_match_overlap (xs ys : list string) :
  (if bool_decide (list_to_set xs ≠@{gset string} ∅) then overlap_ratio xs ys else 0)
  = overlap_ratio xs ys.
Proof.
  destruct xs as [|x xs].
  - rewrite bool_decide_false by (intros H; by apply H). symmetry. by_evaluation.
  - rewrite bool_decide_true; [done|]. rewrite list_to_set_cons. set_solver.
Qed.

Lemma director_bonus_cases (name : option string) (top : list string) :
  (if bool_decide (name ∈ Some <$> top) then num 1.2 else num 1.0)
  = match name with
    | Some name => if bool_decide (name ∈ top) then num 1.2 else num 1.0
    | None => num 1.0
    end.
Proof.
  destruct name as [name|].
  - rewrite (bool_decide_ext _ (name ∈ top)); [done|].
    rewrite list_elem_of_fmap. split; [by intros (? & [= ->] & ?) | eauto].
  - rewrite bool_decide_false; [done|]. rewrite list_elem_of_fmap. by intros (? & ? & ?).
Qed.

Lemma score_candidate_score profile d candidate :
  recommendation_score (score_candidate profile d candidate)
  = Some (expected_score profile d candidate).
Proof.
  unfold score_candidate, expected_score. cbv zeta. cbn [recommendation_score set_score].
  by rewrite !ratio_overlap, theme_match_overlap, director_bonus_cases.
Qed.

(** C2. Every candidate the scorer returns carries, as its
    [recommendation_score], the fixed linear weighting
    [base_similarity*0.5*(1 - d*0.3) + genre_match*0.2 + theme_match*0.15
     + (director_bonus - 1.0)*0.15 + recency*d*0.1] of [expected_score],
    for every diversity factor [d]; the scorer returns the scored
    candidates, reordered; and the worked scenario of the specification
    scores 0.591. *)
Theorem recommendation_score_formula
    (candidates : list movie) (profile : taste_profile) (loved_movies : list movie) (d : Qc) :
  Forall (λ c, recommendation_score c = Some (expected_score profile d c))
    (_score_candidates candidates profile loved_movies d)
  ∧ _score_candidates candidates profile loved_movies d
    ≡ₚ score_candidate profile d <$> candidates
  ∧ recommendation_score
      <$> _score_candidates [scenario_candidate] scenario_profile [] (num 0.3)
    = [Some (num 0.591)].
Proof.
  split; [|split].
  - apply list.Forall_forall. intros c.
    unfold _score_candidates. rewrite elem_of_sort_by, list_elem_of_fmap.
    intros (c0 & -> & _). rewrite score_candidate_score. done.
  - apply sort_by_perm.
  - by_evaluation.
Qed.

End Scorer.

(** ** Slugs *)

Section Slug.
Import RecommendationEngine.
Context (str_lower : pystr → pystr) (isspace : N → bool).

Lemma sub_spaces_chars in_run s :
  Forall (λ c, kept isspace c) s → Forall (λ c, slug_char c) (sub_spaces isspace in_run s).
Proof.
  intros H. revert in_run. induction H as [|c s Hc _ IH]; intros in_run; [constructor|].
  cbn [sub_spaces]. destruct (isspace c) eqn:Hs.
  - destruct in_run; [apply IH|]. constructor; [done | apply IH].
  - constructor; [|apply IH]. unfold kept in Hc. rewrite Hs in Hc.
    unfold slug_char. by rewrite orb_false_r in Hc.
Qed.

(** [lstrip] removes a run of [ch] from the front. *)
Lemma lstrip_run ch s : ∃ k, s = replicate k ch ++ lstrip ch s.
Proof.
  induction s as [|c s [k IH]]; [by exists 0%nat|]. cbn [lstrip].
  case_bool_decide as Hc; [|by exists 0%nat].
  exists (S k). subst c. cbn [replicate app]. by f_equal.
Qed.

Lemma lstrip_head ch s : head (lstrip ch s) ≠ Some ch.
Proof.
  induction s as [|c s IH]; [done|]. cbn [lstrip].
  case_bool_decide as Hc; [done|]. cbn. by intros [= ->].
Qed.

Lemma lstrip_id ch s : head s ≠ Some ch → lstrip ch s = s.
Proof.
  destruct s as [|c s]; [done|]. cbn. intros H.
  rewrite bool_decide_false; [done|]. by intros ->.
Qed.

Lemma Forall_lstrip (P : N → Prop) ch s : Forall P s → Forall P (lstrip ch s).
Proof.
  induction 1 as [|c s Hc Hs IH]; [constructor|]. cbn [lstrip].
  case_bool_decide; [done | by constructor].
Qed.

Lemma Forall_strip (P : N → Prop) ch s : Forall P s → Forall P (strip ch s).
Proof.
  intros H. unfold strip. by apply Forall_reverse, Forall_lstrip, Forall_reverse, Forall_lstrip.
Qed.

Lemma strip_ends ch s : head (strip ch s) ≠ Some ch ∧ last (strip ch s) ≠ Some ch.
Proof.
  unfold strip. rewrite head_reverse, last_reverse. split; [|apply lstrip_head].
  destruct (lstrip_run ch (reverse (lstrip ch s))) as [k Hk].
  pose proof (lstrip_head ch s) as Hhead. rewrite <- last_reverse, Hk, last_app in Hhead.
  by destruct (last (lstrip ch (reverse (lstrip ch s)))).
Qed.

Lemma strip_id ch s : head s ≠ Some ch → last s ≠ Some ch → strip ch s = s.
Proof.
  intros Hh Hl. unfold strip. rewrite (lstrip_id ch s) by done.
  rewrite lstrip_id by (by rewrite head_reverse). apply reverse_involutive.
Qed.

Lemma create_slug_chars title : Forall (λ c, slug_char c) (_create_slug str_lower isspace title).
Proof.
  unfold _create_slug. cbv zeta. apply Forall_strip, sub_spaces_chars.
  apply list.Forall_forall. by intros c [? _]%list_elem_of_filter.
Qed.

(** [str.lower] and [\s] agree with their ASCII tables on ASCII input. *)
Hypothesis str_lower_ascii :
  ∀ s, Forall (λ c, is_ascii c) s → str_lower s = ascii_lower <$> s.
Hypothesis isspace_ascii : ∀ c, is_ascii c → isspace c = ascii_isspace c.

Lemma slug_char_ascii c :
  slug_char c → is_ascii c ∧ ascii_lower c = c ∧ ascii_isspace c = false.
Proof.
  unfold slug_char, is_az, is_09, is_ascii, ascii_lower, ascii_isspace, hyphen.
  rewrite !orb_True, !bool_decide_spec. intros H.
  split; [lia|]. split.
  - rewrite bool_decide_false; [done | lia].
  - apply bool_decide_eq_false. lia.
Qed.

Lemma sub_spaces_id s :
  Forall (λ c, slug_char c) s → sub_spaces isspace false s = s.
Proof.
  induction 1 as [|c s Hc _ IH]; [done|]. cbn [sub_spaces].
  destruct (slug_char_ascii c Hc) as (Ha & _ & Hs).
  by rewrite isspace_ascii, Hs, IH.
Qed.

(** A finished slug is its own slug. *)
Lemma create_slug_fixed s :
  Forall (λ c, slug_char c) s → head s ≠ Some hyphen → last s ≠ Some hyphen →
  _create_slug str_lower isspace s = s.
Proof.
  intros Hs Hh Hl. unfold _create_slug. cbv zeta.
  assert (str_lower s = s) as ->.
  { rewrite str_lower_ascii.
    - rewrite <- (list_fmap_id s) at 2. apply Forall_fmap_ext.
      eapply Forall_impl; [done|]. intros c Hc. by apply slug_char_ascii.
    - eapply Forall_impl; [done|]. intros c Hc. by apply slug_char_ascii. }
  assert (filter (λ c, kept isspace c) s = s) as ->.
  { clear Hh Hl. induction Hs as [|c s Hc _ IH]; [done|].
    rewrite filter_cons, decide_True, IH; [done|].
    unfold kept. unfold slug_char in Hc. rewrite !orb_True in *. tauto. }
  rewrite sub_spaces_id by done. by apply strip_id.
Qed.

(** C9. [_create_slug] is idempotent, and a slug consists of lowercase
    letters, digits and hyphens and neither starts nor ends with a
    hyphen. *)
Theorem create_slug_idempotent (title : pystr) :
  _create_slug str_lower isspace (_create_slug str_lower isspace title)
  = _create_slug str_lower isspace title
  ∧ Forall (λ c, slug_char c) (_create_slug str_lower isspace title)
  ∧ head (_create_slug str_lower isspace title) ≠ Some hyphen
  ∧ last (_create_slug str_lower isspace title) ≠ Some hyphen.
Proof.
  assert (head (_create_slug str_lower isspace title) ≠ Some hyphen
          ∧ last (_create_slug str_lower isspace title) ≠ Some hyphen) as [Hh Hl].
  { apply strip_ends. }
  pose proof (create_slug_chars title) as Hc.
  split; [by apply create_slug_fixed | done].
Qed.

End Slug.

(** A title with capitals, punctuation and runs of blanks. *)
Example slug_of_a_title :
  RecommendationEngine._create_slug (fmap ascii_lower) ascii_isspace
    (str "  The Matrix:   Reloaded! ")
  = str "the-matrix-reloaded".
Proof. reflexivity. Qed.

Lemma create_slug_idempotent_witness :
  RecommendationEngine._create_slug (fmap ascii_lower) ascii_isspace
    (RecommendationEngine._create_slug (fmap ascii_lower) ascii_isspace
       (str "  The Matrix:   Reloaded! "))
  = RecommendationEngine._create_slug (fmap ascii_lower) ascii_isspace
      (str "  The Matrix:   Reloaded! ")
  ∧ Forall (λ c, slug_char c)
      (RecommendationEngine._create_slug (fmap ascii_lower) ascii_isspace
         (str "  The Matrix:   Reloaded! "))
  ∧ head (RecommendationEngine._create_slug (fmap ascii_lower) ascii_isspace
            (str "  The Matrix:   Reloaded! ")) ≠ Some hyphen
  ∧ last (RecommendationEngine._create_slug (fmap ascii_lower) ascii_isspace
            (str "  The Matrix:   Reloaded! ")) ≠ Some hyphen.
Proof.
  apply (create_slug_idempotent (fmap ascii_lower) ascii_isspace).
  - intros s _. reflexivity.
  - intros c _. reflexivity.
Defined.

(** ** The recommendation list *)

Section Recommendations.
Import RecommendationEngine.
Context (str_lower : pystr → pystr) (isspace : N → bool).
Context (find_similar_movies : pystr → list movie).

Local Abbreviation slug := (slug_of str_lower isspace).

(** Scoring and annotating a candidate leave its title alone. *)
Lemma slug_of_score_candidate profile d c : slug (score_candidate profile d c) = slug c.
Proof. reflexivity. Qed.

Lemma slug_of_set_similarity t b c : slug (set_similarity t b c) = slug c.
Proof. reflexivity. Qed.

(** The selection loop keeps [seen_titles] equal to the slugs selected so
    far, so it only ever adds candidates with new slugs. *)
Lemma select_loop_spec num seen recs cands :
  (∀ x, x ∈ seen ↔ x ∈ slug <$> recs) →
  NoDup (slug <$> recs) →
  NoDup (slug <$> select_loop str_lower isspace num seen recs cands)
  ∧ ∀ c, c ∈ select_loop str_lower isspace num seen recs cands → c ∈ recs ∨ c ∈ cands.
Proof.
  revert seen recs. induction cands as [|c cands IH]; intros seen recs Hseen Hnd.
  { cbn [select_loop]. split; [done | by left]. }
  cbn [select_loop]. cbv zeta. case_bool_decide as Hc.
  - destruct Hc as [Hnew _].
    assert (NoDup (slug <$> recs ++ [c])) as Hnd'.
    { rewrite fmap_app. apply NoDup_app. split; [done|]. split.
      - intros x Hx [->|[]%elem_of_nil]%elem_of_cons. by apply Hnew, Hseen.
      - apply NoDup_singleton. }
    case_bool_decide.
    + split; [done|]. intros c' [?|[->|[]%elem_of_nil]%elem_of_cons]%elem_of_app.
      * by left.
      * right. left.
    + destruct (IH ({[slug c]} ∪ seen) (recs ++ [c])) as [H1 H2]; [|done|].
      { intros x. rewrite elem_of_union, elem_of_singleton, fmap_app, elem_of_app, Hseen.
        cbn. rewrite list_elem_of_singleton. tauto. }
      split; [done|]. intros c' [[?|[->|[]%elem_of_nil]%elem_of_cons]%elem_of_app|?]%H2.
      * by left.
      * right. left.
      * right. by right.
  - destruct (IH seen recs Hseen Hnd) as [H1 H2]. split; [done|].
    intros c' [?|?]%H2; [by left | right; by right].
Qed.

(** The inner loop of step 3 only appends candidates that are not
    excluded. *)
Lemma gather_similar_unseen (excluded : gset pystr) t similar acc :
  Forall (λ c, slug c ∉ excluded) acc →
  Forall (λ c, slug c ∉ excluded)
    (foldl (λ all_candidates candidate,
       if bool_decide (slug candidate ∈ excluded) then all_candidates
       else all_candidates
            ++ [set_similarity t (default 0 (similarity_score candidate)) candidate])
       acc similar).
Proof.
  revert acc. induction similar as [|c similar IH]; intros acc Hacc; [done|].
  cbn [foldl]. apply IH. case_bool_decide as Hc; [done|].
  apply Forall_app. split; [done|]. by repeat constructor.
Qed.

Lemma gather_loop_unseen (excluded : gset pystr) loved acc :
  Forall (λ c, slug c ∉ excluded) acc →
  Forall (λ c, slug c ∉ excluded)
    (foldl (λ all_candidates movie,
       foldl (λ all_candidates candidate,
         if bool_decide (slug candidate ∈ excluded) then all_candidates
         else all_candidates
              ++ [set_similarity (title movie) (default 0 (similarity_score candidate))
                    candidate])
         all_candidates (find_similar_movies (slug movie)))
       acc loved).
Proof.
  revert acc. induction loved as [|m loved IH]; intros acc Hacc; [done|].
  cbn [foldl]. by apply IH, gather_similar_unseen.
Qed.

(** No gathered candidate has an excluded slug. *)
Lemma gather_candidates_unseen (excluded : gset pystr) loved :
  Forall (λ c, slug c ∉ excluded)
    (gather_candidates str_lower isspace find_similar_movies excluded loved).
Proof. apply gather_loop_unseen. constructor. Qed.

(** C3. The recommendations returned by [generate_recommendations] have
    pairwise different slugs, and none of them has the slug of a film of
    the exclusion list, which is the list of rated films, or the list of
    loved films when no list of rated films is given. *)
Theorem recommendations_distinct_and_unseen
    (user_loved_movies : list movie) (user_rated_movies : option (list movie))
    (num_recommendations : Z) (diversity_factor : Qc) :
  let recommendations :=
    (generate_recommendations str_lower isspace find_similar_movies
       user_loved_movies user_rated_movies num_recommendations diversity_factor).1 in
  NoDup (slug <$> recommendations)
  ∧ Forall (λ c, slug c ∉ slug <$> rated_or_loved user_loved_movies user_rated_movies)
      recommendations.
Proof.
  unfold generate_recommendations. cbv zeta. cbn [fst].
  unfold _select_top_recommendations.
  set (excluded := list_to_set _ : gset pystr).
  set (scored := _score_candidates _ _ _ _).
  destruct (select_loop_spec num_recommendations ∅ [] scored) as [Hnd Hsub].
  { intros x. rewrite elem_of_empty. cbn. by rewrite elem_of_nil. }
  { constructor. }
  split; [done|]. apply list.Forall_forall. intros c [[]%elem_of_nil|Hc]%Hsub.
  unfold scored, _score_candidates in Hc.
  apply elem_of_sort_by, list_elem_of_fmap in Hc as (c0 & -> & Hc0).
  rewrite slug_of_score_candidate.
  pose proof (gather_candidates_unseen excluded user_loved_movies) as Hg.
  rewrite list.Forall_forall in Hg. specialize (Hg _ Hc0).
  unfold excluded in Hg. by rewrite elem_of_list_to_set in Hg.
Qed.

End Recommendations.

(** ** Cosine similarity *)

Section Cosine.
Import Similarity.
Local Open Scope R_scope.





End Cosine.

(** ** Cosine similarity in binary64: where the claim fails *)

Section Binary64Runs.
Import PrimFloat.
Local Open Scope float_scope.
#[local] Set Warnings "-inexact-float".


(** Where nothing overflows or underflows the similarity of an array with
    itself comes out as 1.0, here without any rounding error. *)
Example similarity_of_3_4_with_itself :
  Binary64.calculate_similarity [3; 4] [3; 4] = Some 1.
Proof. reflexivity. Qed.

End Binary64Runs.

(** ** Selection and ranking *)

Section Selection.
Import RecommendationEngine.
Context (str_lower : pystr → pystr) (isspace : N → bool).
Context (find_similar_movies : pystr → list movie).

Local Abbreviation slug := (slug_of str_lower isspace).

Lemma select_loop_take (n : Z) (seen : gset pystr) (seenl : list pystr)
    (recs cands : list movie) :
  (∀ x, x ∈ seen ↔ x ∈ seenl) →
  (length recs < reachable n)%nat →
  select_loop str_lower isspace n seen recs cands
  = recs ++ take (reachable n - length recs)
              (distinct_by slug seenl (filter selectable cands)).
Proof.
  revert seen seenl recs. induction cands as [|c cands IH]; intros seen seenl recs Hseen Hlen.
  { cbn. by rewrite take_nil, app_nil_r. }
  cbn [select_loop]. cbv zeta. rewrite filter_cons. case_bool_decide as Hc.
  - destruct Hc as [Hnew Hsel]. rewrite decide_True by done. cbn [distinct_by].
    rewrite decide_False by (by rewrite <- Hseen).
    rewrite length_app. cbn [length].
    destruct (reachable n - length recs)%nat as [|k] eqn:Hk; [lia|]. cbn [take].
    case_bool_decide as Hbreak.
    + assert (k = 0%nat) as ->.
      { unfold reachable in *. lia. }
      by rewrite take_0.
    + rewrite (IH _ (slug c :: seenl)).
      * rewrite length_app. cbn [length]. rewrite <- app_assoc. cbn [app].
        do 3 f_equal. lia.
      * intros x. rewrite elem_of_union, elem_of_singleton, elem_of_cons, Hseen. tauto.
      * rewrite length_app. cbn [length]. unfold reachable in *. lia.
  - destruct (decide (selectable c)) as [Hsel|Hsel].
    + cbn [distinct_by]. rewrite decide_True; [by apply IH|].
      apply Hseen. apply dec_stable. intros Hnew. apply Hc. by split.
    + by apply IH.
Qed.

Lemma distinct_by_sublist {A B : Type} `{!EqDecision B} (f : A → B) seen (l : list A) :
  distinct_by f seen l `sublist_of` l.
Proof.
  revert seen. induction l as [|x l IH]; intros seen; [done|]. cbn [distinct_by].
  case_decide; [by apply sublist_cons | by apply sublist_skip].
Qed.

Lemma StronglySorted_sublist {A : Type} (R : relation A) (l1 l2 : list A) :
  l1 `sublist_of` l2 → StronglySorted R l2 → StronglySorted R l1.
Proof.
  induction 1 as [|x l1 l2 Hsub IH|x l1 l2 Hsub IH]; [done|..];
    rewrite !StronglySorted_cons; intros [Hx Hs].
  - split; [|by apply IH]. rewrite list.Forall_forall in Hx |- *.
    intros y Hy. apply Hx. by eapply elem_of_sublist.
  - by apply IH.
Qed.

Lemma select_top_take (scored_candidates : list movie) (num_recommendations : Z) :
  _select_top_recommendations str_lower isspace scored_candidates num_recommendations
  = take (reachable num_recommendations)
      (distinct_by slug [] (filter selectable scored_candidates)).
Proof.
  unfold _select_top_recommendations.
  rewrite (select_loop_take _ ∅ []).
  - cbn [length app]. by rewrite Nat.sub_0_r.
  - intros x. rewrite elem_of_empty, elem_of_nil. tauto.
  - cbn [length]. unfold reachable. lia.
Qed.

Lemma select_top_length (scored_candidates : list movie) (num_recommendations : Z) :
  (length (_select_top_recommendations str_lower isspace scored_candidates
             num_recommendations) ≤ reachable num_recommendations)%nat.
Proof. rewrite select_top_take, length_take. lia. Qed.

Lemma select_top_sublist (scored_candidates : list movie) (num_recommendations : Z) :
  _select_top_recommendations str_lower isspace scored_candidates num_recommendations
  `sublist_of` scored_candidates.
Proof.
  rewrite select_top_take.
  trans (distinct_by slug [] (filter selectable scored_candidates)); [apply sublist_take|].
  trans (filter selectable scored_candidates);
    [apply distinct_by_sublist | apply sublist_filter].
Qed.

(** X1. [_select_top_recommendations] returns, in order, the first
    [max(num_recommendations, 1)] of the candidates that are not of type
    ['loved'] and are the first with their slug among those; so it returns
    a subsequence of its input of at most that length, and for
    [num_recommendations <= 0] it still returns one candidate as soon as
    one can be selected. *)
Theorem select_top_first_occurrences (scored_candidates : list movie)
    (num_recommendations : Z) :
  _select_top_recommendations str_lower isspace scored_candidates num_recommendations
  = take (reachable num_recommendations)
      (distinct_by slug [] (filter selectable scored_candidates))
  ∧ (length (_select_top_recommendations str_lower isspace scored_candidates
               num_recommendations) ≤ reachable num_recommendations)%nat
  ∧ _select_top_recommendations str_lower isspace scored_candidates num_recommendations
    `sublist_of` scored_candidates
  ∧ ((num_recommendations ≤ 0)%Z →
     Exists selectable scored_candidates →
     length (_select_top_recommendations str_lower isspace scored_candidates
               num_recommendations) = 1%nat).
Proof.
  split; [apply select_top_take|].
  split; [apply select_top_length|].
  split; [apply select_top_sublist|].
  rewrite select_top_take.
  - intros Hn Hex. replace (reachable num_recommendations) with 1%nat
      by (unfold reachable; lia).
    apply list.Exists_exists in Hex as (c & Hc & Hsel).
    destruct (filter selectable scored_candidates) as [|c' l] eqn:Hf.
    + exfalso. eapply elem_of_nil. rewrite <- Hf. by apply list_elem_of_filter.
    + cbn [distinct_by]. rewrite decide_False by apply not_elem_of_nil. done.
Qed.

(** X2. [_score_candidates] returns its candidates by non-increasing
    [recommendation_score], and candidates with equal scores in the order
    they came in. *)
Theorem score_candidates_ranked (candidates : list movie) (profile : taste_profile)
    (loved_movies : list movie) (d : Qc) :
  StronglySorted (λ a b, rank b ≤ rank a)
    (_score_candidates candidates profile loved_movies d)
  ∧ ∀ score,
      filter (λ c, rank c = score) (_score_candidates candidates profile loved_movies d)
      = filter (λ c, rank c = score) (score_candidate profile d <$> candidates).
Proof.
  split.
  - apply (sort_by_sorted rank true).
  - intros score. apply (sort_by_stable ltb rank ltb_irrefl).
Qed.

(** Where the gathered candidates come from. *)
Definition sourced (loved : list movie) (c : movie) : Prop :=
  ∃ m c0, m ∈ loved ∧ c0 ∈ find_similar_movies (slug m)
    ∧ c = set_similarity (title m) (default 0 (similarity_score c0)) c0.

Lemma gather_similar_sourced (excluded : gset pystr) loved m similar acc :
  m ∈ loved → similar ⊆ find_similar_movies (slug m) →
  Forall (sourced loved) acc →
  Forall (sourced loved)
    (foldl (λ all_candidates candidate,
       if bool_decide (slug candidate ∈ excluded) then all_candidates
       else all_candidates
            ++ [set_similarity (title m) (default 0 (similarity_score candidate)) candidate])
       acc similar).
Proof.
  intros Hm. revert acc. induction similar as [|c similar IH]; intros acc Hsub Hacc; [done|].
  cbn [foldl]. apply IH; [set_solver|]. case_bool_decide; [done|].
  apply Forall_app. split; [done|]. constructor; [|constructor].
  exists m, c. split; [done|]. split; [|done]. apply Hsub. left.
Qed.

Lemma gather_loop_sourced (excluded : gset pystr) loved rest acc :
  rest ⊆ loved →
  Forall (sourced loved) acc →
  Forall (sourced loved)
    (foldl (λ all_candidates movie,
       foldl (λ all_candidates candidate,
         if bool_decide (slug candidate ∈ excluded) then all_candidates
         else all_candidates
              ++ [set_similarity (title movie) (default 0 (similarity_score candidate))
                    candidate])
         all_candidates (find_similar_movies (slug movie)))
       acc rest).
Proof.
  revert acc. induction rest as [|m rest IH]; intros acc Hsub Hacc; [done|].
  cbn [foldl]. apply IH; [set_solver|].
  apply gather_similar_sourced; [set_solver|done..].
Qed.

(** X3. The recommendations of [generate_recommendations] come by
    non-increasing score and are at most [max(num_recommendations, 1)];
    each one is a result of the similarity search for one of the loved
    movies, annotated with that movie's title as [similar_to], the search's
    [similarity_score] (0 when absent) as [base_similarity] and the score of
    the scorer; without loved movies there is no recommendation. *)
Theorem recommendations_ranked_and_sourced
    (user_loved_movies : list movie) (user_rated_movies : option (list movie))
    (num_recommendations : Z) (diversity_factor : Qc) :
  let recommendations :=
    (generate_recommendations str_lower isspace find_similar_movies
       user_loved_movies user_rated_movies num_recommendations diversity_factor).1 in
  StronglySorted (λ a b, rank b ≤ rank a) recommendations
  ∧ (length recommendations ≤ reachable num_recommendations)%nat
  ∧ Forall (λ c, ∃ m c0,
        m ∈ user_loved_movies ∧ c0 ∈ find_similar_movies (slug m)
        ∧ title c = title c0
        ∧ similar_to c = Some (title m)
        ∧ base_similarity c = Some (default 0 (similarity_score c0))
        ∧ recommendation_score c
          = Some (expected_score (_analyze_taste_profile user_loved_movies)
                    diversity_factor c))
      recommendations
  ∧ (generate_recommendations str_lower isspace find_similar_movies
       [] user_rated_movies num_recommendations diversity_factor).1 = [].
Proof.
  unfold generate_recommendations. cbv zeta. cbn [fst].
  set (excluded := list_to_set _ : gset pystr).
  set (profile := _analyze_taste_profile user_loved_movies).
  set (gathered := gather_candidates _ _ _ _ _).
  set (scored := _score_candidates gathered _ _ _).
  pose proof (select_top_length scored num_recommendations) as Hlen.
  pose proof (select_top_sublist scored num_recommendations) as Hsub.
  split; [|split; [done|split]].
  - eapply StronglySorted_sublist; [done|]. apply (sort_by_sorted rank true).
  - apply list.Forall_forall. intros c Hc.
    apply (λ H, elem_of_sublist _ _ _ H Hsub) in Hc.
    unfold scored, _score_candidates in Hc.
    apply elem_of_sort_by, list_elem_of_fmap in Hc as (c1 & -> & Hc1).
    assert (Forall (sourced user_loved_movies) gathered) as Hg.
    { apply gather_loop_sourced; [done | constructor]. }
    rewrite list.Forall_forall in Hg. destruct (Hg _ Hc1) as (m & c0 & Hm & Hc0 & ->).
    exists m, c0. repeat (split; [done|]).
    rewrite score_candidate_score. done.
  - done.
Qed.

End Selection.

(** ** Sorting on any strict weak order *)

Section SortGeneric.
Context {A K : Type} (lt : K → K → bool) (key : A → K).
Context (lt_asym : ∀ a b, lt a b = true → lt b a = false).
Context (lt_negtrans : ∀ a b c, lt a b = false → lt b c = false → lt a c = false).

Lemma before_asym rev x y :
  before lt key rev x y = true → before lt key rev y x = false.
Proof. unfold before. destruct rev; apply lt_asym. Qed.

Lemma not_after_trans rev x y z :
  not_after lt key rev x y → not_after lt key rev y z → not_after lt key rev x z.
Proof. unfold not_after, before. destruct rev; intros H1 H2; by eapply lt_negtrans. Qed.

Lemma insert_sorted_not_after rev x l :
  StronglySorted (not_after lt key rev) l →
  StronglySorted (not_after lt key rev) (insert_sorted lt key rev x l).
Proof.
  induction 1 as [|y l Hs IH Hy]; simpl; [by repeat constructor|].
  destruct (before lt key rev y x) eqn:Hb.
  - constructor; [done|]. rewrite insert_sorted_perm.
    constructor; [by apply before_asym | done].
  - constructor; [by constructor|]. constructor; [done|].
    eapply Forall_impl; [done|]. intros z Hz. by eapply not_after_trans.
Qed.

Lemma sort_by_not_after rev l :
  StronglySorted (not_after lt key rev) (sort_by lt key rev l).
Proof.
  induction l as [|x l IH]; simpl; [constructor | by apply insert_sorted_not_after].
Qed.

(** The first [n] of a sorted list: what is left out is not in front of
    anything kept. *)
Lemma take_sort_by_complete rev n l x :
  x ∈ l →
  x ∈ take n (sort_by lt key rev l)
  ∨ (length (take n (sort_by lt key rev l)) = n
     ∧ Forall (λ y, not_after lt key rev y x) (take n (sort_by lt key rev l))).
Proof.
  intros Hx. pose proof (sort_by_not_after rev l) as Hsorted.
  apply (elem_of_sort_by lt key rev) in Hx.
  rewrite <- (take_drop n (sort_by lt key rev l)) in Hx, Hsorted.
  apply elem_of_app in Hx as [Hx|Hx]; [by left | right]. split.
  - rewrite length_take. apply Nat.min_l.
    destruct (decide (n ≤ length (sort_by lt key rev l))%nat); [done|].
    rewrite drop_ge in Hx by lia. by apply elem_of_nil in Hx.
  - apply list.Forall_forall. intros y Hy. by eapply StronglySorted_app_1_elem_of.
Qed.

End SortGeneric.

Lemma nat_ltb_asym (a b : nat) : Nat.ltb a b = true → Nat.ltb b a = false.
Proof. rewrite Nat.ltb_lt, Nat.ltb_ge. lia. Qed.

Lemma nat_ltb_negtrans (a b c : nat) :
  Nat.ltb a b = false → Nat.ltb b c = false → Nat.ltb a c = false.
Proof. rewrite !Nat.ltb_ge. lia. Qed.

Lemma nat_ltb_irrefl (a : nat) : Nat.ltb a a = false.
Proof. apply Nat.ltb_irrefl. Qed.

(** ** The counters of the taste profile *)

Section Counters.
Import RecommendationEngine.

Lemma incr_lookup k d k' :
  dict_get (incr k d) k'
  = if decide (k = k') then Some (S (count_of d k)) else dict_get d k'.
Proof.
  unfold count_of. induction d as [|[k0 n] d IH]; cbn [incr dict_get].
  - by destruct (decide (k = k')).
  - destruct (decide (k0 = k)) as [->|Hne]; cbn [dict_get default].
    + by destruct (decide (k = k')).
    + destruct (decide (k0 = k')) as [->|?]; [|apply IH].
      by rewrite decide_False by done.
Qed.

Lemma incr_keys k d :
  (incr k d).*1 = if decide (k ∈ d.*1) then d.*1 else d.*1 ++ [k].
Proof.
  induction d as [|[k0 n] d IH]; cbn [incr]; [by rewrite decide_False by apply not_elem_of_nil|].
  destruct (decide (k0 = k)) as [->|Hne].
  - rewrite !fmap_cons. cbn [fst]. by rewrite decide_True by left.
  - rewrite !fmap_cons, IH. cbn [fst]. destruct (decide (k ∈ d.*1)) as [Hin|Hin].
    + by rewrite decide_True by (by right).
    + rewrite decide_False; [done|]. rewrite elem_of_cons. by intros [?|?].
Qed.

Lemma first_seen_snoc l x :
  first_seen (l ++ [x]) = if decide (x ∈ first_seen l) then first_seen l else first_seen l ++ [x].
Proof.
  unfold first_seen. rewrite reverse_app. change (reverse [x]) with [x]. cbn [app remove_dups].
  destruct (decide_rel elem_of x (reverse l)) as [Hin|Hin].
  - rewrite decide_True; [done|]. by apply elem_of_reverse, elem_of_remove_dups.
  - rewrite decide_False; [by rewrite reverse_cons|].
    by rewrite elem_of_reverse, elem_of_remove_dups.
Qed.

Lemma elem_of_first_seen l x : x ∈ first_seen l ↔ x ∈ l.
Proof. unfold first_seen. by rewrite elem_of_reverse, elem_of_remove_dups, elem_of_reverse. Qed.

Lemma NoDup_first_seen l : NoDup (first_seen l).
Proof. unfold first_seen. rewrite reverse_Permutation. apply NoDup_remove_dups. Qed.

Lemma occurrences_snoc x l y :
  occurrences x (l ++ [y]) = (occurrences x l + if decide (y = x) then 1 else 0)%nat.
Proof.
  unfold occurrences. rewrite filter_app, length_app. f_equal.
  rewrite filter_cons, filter_nil. by destruct (decide (y = x)).
Qed.

Lemma occurrences_pos x l : (0 < occurrences x l)%nat ↔ x ∈ l.
Proof.
  unfold occurrences. split.
  - intros H. destruct (filter (λ y, y = x) l) as [|y l'] eqn:E; [cbn in H; lia|].
    assert (y ∈ filter (λ y, y = x) l) as Hy by (rewrite E; left).
    apply list_elem_of_filter in Hy as [-> ?]. done.
  - intros H. assert (x ∈ filter (λ y, y = x) l) as Hx by (by apply list_elem_of_filter).
    destruct (filter (λ y, y = x) l); [by apply elem_of_nil in Hx | cbn; lia].
Qed.

Lemma counts_nil : counts [] [].
Proof. split; [done|]. intros k. by rewrite decide_False by apply not_elem_of_nil. Qed.

Lemma counts_incr d l x : counts d l → counts (incr x d) (l ++ [x]).
Proof.
  intros [Hkeys Hget]. split.
  - by rewrite incr_keys, first_seen_snoc, Hkeys.
  - intros k. rewrite incr_lookup, occurrences_snoc. unfold count_of. rewrite !Hget.
    destruct (decide (x = k)) as [->|Hne].
    + rewrite (decide_True (P:=k ∈ l ++ [k])) by (apply elem_of_app; right; left).
      f_equal. destruct (decide (k ∈ l)) as [Hin|Hin]; cbn; [lia|].
      assert (occurrences k l = 0%nat) as ->; [|done].
      destruct (occurrences k l) eqn:E; [done|]. exfalso. apply Hin, occurrences_pos. lia.
    + rewrite Nat.add_0_r. destruct (decide (k ∈ l)) as [Hin|Hin].
      * by rewrite decide_True by (apply elem_of_app; by left).
      * rewrite decide_False; [done|]. rewrite elem_of_app, list_elem_of_singleton.
        by intros [?|?].
Qed.

Lemma counts_foldl d l xs :
  counts d l → counts (foldl (λ d x, incr x d) d xs) (l ++ xs).
Proof.
  revert d l. induction xs as [|x xs IH]; intros d l H; cbn [foldl].
  - by rewrite app_nil_r.
  - rewrite (assoc_L (++) l [x] xs : l ++ x :: xs = (l ++ [x]) ++ xs). by apply IH, counts_incr.
Qed.

Lemma tally_counts l : counts (tally l) l.
Proof. apply (counts_foldl [] []), counts_nil. Qed.

Lemma foldl_incr_app d l1 l2 :
  foldl (λ d x, incr x d) d (l1 ++ l2)
  = foldl (λ d x, incr x d) (foldl (λ d x, incr x d) d l1) l2.
Proof. apply foldl_app. Qed.

Lemma omap_cons_list {A B : Type} (f : A → option B) (x : A) (l : list A) :
  omap f (x :: l) = option_list (f x) ++ omap f l.
Proof. cbn. by destruct (f x). Qed.

(** What one movie adds to each counter. *)
Lemma count_movie_step st m :
  genres_count (count_movie st m) = foldl (λ d x, incr x d) (genres_count st) (genres m)
  ∧ themes_count (count_movie st m) = foldl (λ d x, incr x d) (themes_count st) (themes m)
  ∧ directors_count (count_movie st m)
    = foldl (λ d x, incr x d) (directors_count st) (option_list (counted_director m))
  ∧ actors_count (count_movie st m)
    = foldl (λ d x, incr x d) (actors_count st) (counted_actors m)
  ∧ decades_count (count_movie st m)
    = foldl (λ d x, incr x d) (decades_count st) (option_list (counted_decade m))
  ∧ moods_count (count_movie st m)
    = foldl (λ d x, incr x d) (moods_count st) (option_list (counted_mood m)).
Proof.
  unfold count_movie, counted_director, counted_decade, counted_mood, counted_actors.
  cbv zeta. cbn [genres_count themes_count directors_count actors_count
                 decades_count moods_count].
  repeat split.
  - destruct (director m) as [name|]; cbn.
    + by destruct (bool_decide _).
    + by rewrite bool_decide_false by (by intros [? _]).
  - destruct (year m) as [y|]; cbn.
    + by destruct (bool_decide _).
    + by rewrite bool_decide_false by (by intros ?).
  - destruct (mood m) as [name|]; cbn.
    + by destruct (bool_decide _).
    + by rewrite bool_decide_false by (by intros ?).
Qed.

(** The loop of [_analyze_taste_profile] feeds each counter with its own
    list. *)
Lemma count_movies_tally st movies :
  genres_count (foldl count_movie st movies)
  = foldl (λ d x, incr x d) (genres_count st) (all_genres movies)
  ∧ themes_count (foldl count_movie st movies)
    = foldl (λ d x, incr x d) (themes_count st) (all_themes movies)
  ∧ directors_count (foldl count_movie st movies)
    = foldl (λ d x, incr x d) (directors_count st) (omap counted_director movies)
  ∧ actors_count (foldl count_movie st movies)
    = foldl (λ d x, incr x d) (actors_count st) (movies ≫= counted_actors)
  ∧ decades_count (foldl count_movie st movies)
    = foldl (λ d x, incr x d) (decades_count st) (omap counted_decade movies)
  ∧ moods_count (foldl count_movie st movies)
    = foldl (λ d x, incr x d) (moods_count st) (omap counted_mood movies).
Proof.
  revert st. induction movies as [|m movies IH]; intros st; [done|].
  cbn [foldl]. destruct (IH (count_movie st m)) as (-> & -> & -> & -> & -> & ->).
  destruct (count_movie_step st m) as (-> & -> & -> & -> & -> & ->).
  unfold all_genres, all_themes. rewrite !bind_cons, !omap_cons_list, !foldl_incr_app.
  done.
Qed.

Lemma analyze_counters movies :
  let p := _analyze_taste_profile movies in
  genre_distribution p = tally (all_genres movies)
  ∧ top_genres p = top 5 (tally (all_genres movies))
  ∧ top_themes p = top 5 (tally (all_themes movies))
  ∧ top_directors p = top 5 (tally (omap counted_director movies))
  ∧ top_actors p = top 5 (tally (movies ≫= counted_actors))
  ∧ top_decades p = top 3 (tally (omap counted_decade movies))
  ∧ top_moods p = top 3 (tally (omap counted_mood movies)).
Proof.
  unfold _analyze_taste_profile. cbv zeta.
  cbn [genre_distribution top_genres top_themes top_directors top_actors top_decades top_moods].
  destruct (count_movies_tally (Counters [] [] [] [] [] []) movies)
    as (-> & -> & -> & -> & -> & ->).
  done.
Qed.

Lemma dict_get_elem {V} (d : list (string * V)) k v :
  NoDup d.*1 → (k, v) ∈ d → dict_get d k = Some v.
Proof.
  induction d as [|[k0 v0] d IH]; [by intros _ ?%elem_of_nil|].
  rewrite fmap_cons, NoDup_cons, elem_of_cons. cbn [fst dict_get].
  intros [Hk Hd] [[= -> ->]|Hin]; [by rewrite decide_True|].
  rewrite decide_False; [by apply IH|]. intros ->. apply Hk.
  by apply (list_elem_of_fmap_2 fst _ _ Hin).
Qed.

Lemma dict_get_Some_elem {V} (d : list (string * V)) k v :
  dict_get d k = Some v → (k, v) ∈ d.
Proof.
  induction d as [|[k0 v0] d IH]; [done|]. cbn [dict_get].
  case_decide as Hk; [intros [= ->]; subst; left | intros ?; right; by apply IH].
Qed.

(** Sorting the entries of a counter and reading off the names: a filter on
    the names is a filter on the entries. *)
Lemma filter_names (c : string → nat) (v : nat) (S : list (string * nat)) :
  Forall (λ e, e.2 = c e.1) S →
  filter (λ g, c g = v) S.*1 = (filter (λ e, e.2 = v) S).*1.
Proof.
  induction 1 as [|[k n] S Hk _ IH]; [done|]. cbn [snd fst] in Hk. subst n.
  rewrite fmap_cons, !filter_cons. cbn [fst snd].
  destruct (decide (c k = v)); [rewrite fmap_cons; cbn [fst]|]; by rewrite IH.
Qed.

Lemma sorted_names (c : string → nat) (S : list (string * nat)) :
  Forall (λ e, e.2 = c e.1) S →
  StronglySorted (not_after Nat.ltb snd true) S →
  StronglySorted (λ a b, (c b ≤ c a)%nat) S.*1.
Proof.
  induction 1 as [|[k n] S Hk HS IH]; [constructor|].
  rewrite fmap_cons, !StronglySorted_cons. intros [Hall Hs]. split; [|by apply IH].
  apply Forall_fmap. rewrite list.Forall_forall in Hall, HS |- *.
  intros [k' n'] He. specialize (Hall _ He). specialize (HS _ He).
  unfold not_after, before in Hall. cbn [snd fst compose] in *.
  apply Nat.ltb_ge in Hall. lia.
Qed.

(** The ranking [top n] computes from a counter of the list [l]. *)
Lemma top_tally (n : nat) (l : list string) :
  (length (top n (tally l)) ≤ n)%nat
  ∧ NoDup (top n (tally l))
  ∧ Forall (λ g, g ∈ l) (top n (tally l))
  ∧ StronglySorted (λ a b, (occurrences b l ≤ occurrences a l)%nat) (top n (tally l))
  ∧ (∀ v, filter (λ g, occurrences g l = v) (top n (tally l)) `sublist_of` first_seen l)
  ∧ (∀ g, g ∈ l → g ∉ top n (tally l) →
       length (top n (tally l)) = n
       ∧ Forall (λ t, (occurrences g l ≤ occurrences t l)%nat) (top n (tally l))).
Proof.
  destruct (tally_counts l) as [Hkeys Hget]. unfold top.
  set (sorted := sort_by Nat.ltb snd true (tally l)).
  assert (NoDup (tally l).*1) as Hnd by (rewrite Hkeys; apply NoDup_first_seen).
  assert (∀ e, e ∈ tally l → e.1 ∈ l ∧ e.2 = occurrences e.1 l) as Hentry.
  { intros [k v] He. cbn [fst snd]. apply (dict_get_elem _ _ _ Hnd) in He.
    rewrite Hget in He. by case_decide; simplify_eq. }
  assert (Forall (λ e, e.1 ∈ l ∧ e.2 = occurrences e.1 l) (take n sorted)) as Htake.
  { apply list.Forall_forall. intros e He. apply Hentry.
    apply (elem_of_sort_by Nat.ltb snd true).
    by apply (λ H, elem_of_sublist _ _ _ H (sublist_take _ _)) in He. }
  assert (Forall (λ e, e.2 = (λ g, occurrences g l) e.1) (take n sorted)) as Hocc.
  { eapply Forall_impl; [done|]. by intros e [_ ?]. }
  assert (StronglySorted (not_after Nat.ltb snd true) (take n sorted)) as Hsorted.
  { pose proof (sort_by_not_after Nat.ltb snd nat_ltb_asym nat_ltb_negtrans true (tally l))
      as Hs. fold sorted in Hs. rewrite <- (take_drop n sorted) in Hs.
    by apply StronglySorted_app_1_l in Hs. }
  split; [|split; [|split; [|split; [|split]]]].
  - rewrite length_fmap, length_take. lia.
  - apply (sublist_NoDup _ (sorted.*1)).
    + unfold sorted. rewrite sort_by_perm. done.
    + apply fmap_sublist, sublist_take.
  - apply Forall_fmap. eapply Forall_impl; [exact Htake|]. by intros e [? _].
  - by apply (sorted_names (λ g, occurrences g l)).
  - intros v. rewrite (filter_names (λ g, occurrences g l)) by done.
    rewrite <- Hkeys. apply fmap_sublist.
    trans (filter (λ e : string * nat, e.2 = v) sorted).
    { apply filter_sublist_mono, sublist_take. }
    unfold sorted. rewrite (sort_by_stable Nat.ltb snd nat_ltb_irrefl).
    apply sublist_filter.
  - intros g Hg Hout.
    assert ((g, occurrences g l) ∈ tally l) as He.
    { apply dict_get_Some_elem. by rewrite Hget, decide_True. }
    destruct (take_sort_by_complete Nat.ltb snd nat_ltb_asym nat_ltb_negtrans true n _ _ He)
      as [Hin|[Hlen Hall]].
    { exfalso. apply Hout. by apply (list_elem_of_fmap_2 fst _ _ Hin). }
    split; [by rewrite length_fmap|]. apply Forall_fmap.
    fold sorted in Hall. rewrite list.Forall_forall in Hall, Hocc |- *.
    intros e He'. specialize (Hall _ He'). specialize (Hocc _ He').
    unfold not_after, before in Hall. cbn [snd compose] in *.
    apply Nat.ltb_ge in Hall. lia.
Qed.

Lemma top_ranked n l : ranked n l (top n (tally l)).
Proof. apply top_tally. Qed.

(** The aggregator on two movies: a missing year and the director ['N/A']
    are not counted, the cast counts up to its third name, and the more
    frequent genre comes first. *)
Example profile_of_two_movies :
  top_genres (_analyze_taste_profile [heat; collateral]) = ["Crime"; "Drama"; "Thriller"]
  ∧ genre_distribution (_analyze_taste_profile [heat; collateral])
    = [("Crime", 2%nat); ("Drama", 1%nat); ("Thriller", 1%nat)]
  ∧ top_directors (_analyze_taste_profile [heat; collateral]) = ["Michael Mann"]
  ∧ top_actors (_analyze_taste_profile [heat; collateral])
    = ["Al Pacino"; "Robert De Niro"; "Val Kilmer"; "Tom Cruise"]
  ∧ top_decades (_analyze_taste_profile [heat; collateral]) = ["1990s"]
  ∧ total_movies (_analyze_taste_profile [heat; collateral]) = 2%nat.
Proof. repeat split; by_evaluation. Qed.

(** X4. [genre_distribution] holds, for every genre of the loved movies,
    the number of times it occurs in their genre lists, and nothing for any
    other genre; its keys are the distinct genres in the order in which they
    were first seen. *)
Theorem genre_distribution_counts (loved_movies : list movie) :
  (genre_distribution (_analyze_taste_profile loved_movies)).*1
  = first_seen (all_genres loved_movies)
  ∧ NoDup (genre_distribution (_analyze_taste_profile loved_movies)).*1
  ∧ ∀ genre,
      dict_get (genre_distribution (_analyze_taste_profile loved_movies)) genre
      = if decide (genre ∈ all_genres loved_movies)
        then Some (occurrences genre (all_genres loved_movies))
        else None.
Proof.
  destruct (analyze_counters loved_movies) as (-> & _).
  destruct (tally_counts (all_genres loved_movies)) as [Hkeys Hget].
  split; [done|]. split; [|done]. rewrite Hkeys. apply NoDup_first_seen.
Qed.

(** X5. Each top list of the taste profile ranks what its counter was fed
    with: at most 5 (3 for decades and moods) distinct entries, most
    frequent first, first seen first among equally frequent ones, and no
    entry left out is more frequent than an entry kept. *)
Theorem top_lists_ranked (loved_movies : list movie) :
  ranked 5 (all_genres loved_movies) (top_genres (_analyze_taste_profile loved_movies))
  ∧ ranked 5 (all_themes loved_movies) (top_themes (_analyze_taste_profile loved_movies))
  ∧ ranked 5 (omap counted_director loved_movies)
      (top_directors (_analyze_taste_profile loved_movies))
  ∧ ranked 5 (loved_movies ≫= counted_actors)
      (top_actors (_analyze_taste_profile loved_movies))
  ∧ ranked 3 (omap counted_decade loved_movies)
      (top_decades (_analyze_taste_profile loved_movies))
  ∧ ranked 3 (omap counted_mood loved_movies)
      (top_moods (_analyze_taste_profile loved_movies)).
Proof.
  destruct (analyze_counters loved_movies) as (_ & -> & -> & -> & -> & -> & ->).
  split; [|split; [|split; [|split; [|split]]]]; apply top_ranked.
Qed.

(** Every entry of a top list was fed to its counter. *)
Lemma top_lists_ranked_aux (loved_movies : list movie) :
  Forall (λ x, x ∈ omap counted_director loved_movies)
    (top_directors (_analyze_taste_profile loved_movies))
  ∧ Forall (λ x, x ∈ loved_movies ≫= counted_actors)
      (top_actors (_analyze_taste_profile loved_movies))
  ∧ Forall (λ x, x ∈ omap counted_decade loved_movies)
      (top_decades (_analyze_taste_profile loved_movies))
  ∧ Forall (λ x, x ∈ omap counted_mood loved_movies)
      (top_moods (_analyze_taste_profile loved_movies)).
Proof.
  destruct (analyze_counters loved_movies) as (_ & _ & _ & -> & -> & -> & ->).
  split; [|split; [|split]]; apply top_tally.
Qed.

(** X6. What the taste profile never lists: a top director is the
    non-empty director of a loved movie other than ['N/A']; a top actor is
    among the first three cast members of a loved movie; a top decade is the
    label of the decade of a loved movie whose year is present and not 0;
    a top mood is the non-empty mood of a loved movie. *)
Theorem top_lists_sources (loved_movies : list movie) :
  Forall (λ name, name ≠ "" ∧ name ≠ "N/A"
                  ∧ ∃ m, m ∈ loved_movies ∧ director m = Some name)
    (top_directors (_analyze_taste_profile loved_movies))
  ∧ Forall (λ actor, ∃ m, m ∈ loved_movies ∧ actor ∈ take 3 (cast m))
      (top_actors (_analyze_taste_profile loved_movies))
  ∧ Forall (λ label, ∃ m y, m ∈ loved_movies ∧ year m = Some y ∧ y ≠ 0%Z
                            ∧ label = pretty ((y `div` 10) * 10)%Z +:+ "s")
      (top_decades (_analyze_taste_profile loved_movies))
  ∧ Forall (λ name, name ≠ "" ∧ ∃ m, m ∈ loved_movies ∧ mood m = Some name)
      (top_moods (_analyze_taste_profile loved_movies)).
Proof.
  destruct (top_lists_ranked_aux loved_movies) as (Hd & Ha & Hy & Hm).
  split; [|split; [|split]].
  - eapply Forall_impl; [exact Hd|]. intros name (m & Hm' & Hc)%list_elem_of_omap.
    unfold counted_director in Hc. destruct (director m) as [n|] eqn:E; [|done].
    case_bool_decide as Hn; [|done]. simplify_eq. destruct Hn. eauto.
  - eapply Forall_impl; [exact Ha|]. intros actor (m & Hm' & Hc)%list_elem_of_bind. eauto.
  - eapply Forall_impl; [exact Hy|]. intros label (m & Hm' & Hc)%list_elem_of_omap.
    unfold counted_decade in Hc. destruct (year m) as [y|] eqn:E; [|done].
    case_bool_decide as Hn; [|done]. simplify_eq. eauto 10.
  - eapply Forall_impl; [exact Hm|]. intros name (m & Hm' & Hc)%list_elem_of_omap.
    unfold counted_mood in Hc. destruct (mood m) as [n|] eqn:E; [|done].
    case_bool_decide as Hn; [|done]. simplify_eq. eauto.
Qed.

End Counters.

(** ** The fingerprint stays on its scales *)

Section Scales.
Import TasteFingerprintGenerator.

Lemma of_nat_S (n : nat) : of_nat (S n) = of_nat n + 1.
Proof. unfold of_nat. by rewrite Nat2Z.inj_succ, <- Z.add_1_r, Z2Qc_inj_add, Z2Qc_inj_1. Qed.

Lemma of_nat_pos (n : nat) : (0 < n)%nat → 0 < of_nat n.
Proof.
  intros H. unfold of_nat. rewrite <- Z2Qc_inj_0.
  apply (proj1 (Z2Qc_inj_lt 0 (Z.of_nat n))). lia.
Qed.

Lemma sum_from_bounds (lo hi s : Qc) (xs : list Qc) :
  Forall (λ x, lo ≤ x ≤ hi) xs →
  s + lo * of_nat (length xs) ≤ sum_from s xs ≤ s + hi * of_nat (length xs).
Proof.
  intros H. revert s. induction H as [|x xs [Hlo Hhi] _ IH]; intros s.
  - cbn. replace (of_nat 0) with 0 by by_evaluation.
    rewrite !Qcmult_0_r, Qcplus_0_r. split; reflexivity.
  - cbn [length]. unfold sum_from. cbn [foldl]. fold (sum_from (s + x) xs).
    rewrite of_nat_S. destruct (IH (s + x)) as [H1 H2]. split.
    + etrans; [|exact H1].
      replace (s + lo * (of_nat (length xs) + 1))
        with ((s + lo) + lo * of_nat (length xs)) by ring.
      apply Qcplus_le_mono_r. by apply Qcplus_le_mono_l.
    + etrans; [exact H2|].
      replace (s + hi * (of_nat (length xs) + 1))
        with ((s + hi) + hi * of_nat (length xs)) by ring.
      apply Qcplus_le_mono_r. by apply Qcplus_le_mono_l.
Qed.

(** The mean of scores within bounds is within the bounds. *)
Lemma mean_bounds (lo hi : Qc) (xs : list Qc) :
  xs ≠ [] → Forall (λ x, lo ≤ x ≤ hi) xs → lo ≤ mean xs ≤ hi.
Proof.
  intros Hne H. destruct (sum_from_bounds lo hi 0 xs H) as [H1 H2].
  rewrite Qcplus_0_l in H1, H2.
  assert (0 < of_nat (length xs)) as Hpos.
  { apply of_nat_pos. destruct xs; [done | cbn; lia]. }
  assert (mean xs * of_nat (length xs) = sum_from 0 xs) as Hmean.
  { unfold mean. field. intros E. rewrite E in Hpos. by apply Qclt_not_eq in Hpos. }
  split; apply (Qcmult_lt_0_le_reg_r _ _ _ Hpos); by rewrite Hmean.
Qed.

Lemma supplied_on_scale dim movie x :
  on_scale movie → supplied dim movie = Some x → num 1 ≤ x ≤ num 7.
Proof.
  unfold on_scale, supplied. intros H Hs.
  destruct (scores_of movie !! dim) as [[y|]|] eqn:E; try done.
  cbn in Hs. simplify_eq. by apply (map_Forall_lookup_1 _ _ _ _ H E).
Qed.

Lemma expected_average_on_scale dim movies :
  Forall on_scale movies → num 1 ≤ expected_average dim movies ≤ num 7.
Proof.
  intros H. unfold expected_average.
  destruct (supplied_scores dim movies) as [|x xs] eqn:E; [split; by_evaluation|].
  apply mean_bounds; [done|]. rewrite <- E. unfold supplied_scores.
  apply list.Forall_forall. intros y (m & Hm & Hy)%list_elem_of_omap.
  rewrite list.Forall_forall in H. by apply (supplied_on_scale dim m y (H m Hm)).
Qed.

(** X7. When every numeric score of every loved movie is on the 1-7 scale,
    the fingerprint is computed, each of its 62 aggregate scores is on the
    1-7 scale, and each of the 62 entries of its taste vector lies in
    [0, 1]. *)
Theorem fingerprint_on_scale (loved_movies_scores : list scored_movie) :
  Forall on_scale loved_movies_scores →
  ∃ fp, generate_taste_fingerprint loved_movies_scores = Some fp
    ∧ (fingerprint_dimensional_scores fp).*1 = dimension_names
    ∧ Forall (λ e, num 1 ≤ e.2 ≤ num 7) (fingerprint_dimensional_scores fp)
    ∧ Forall (λ x, 0 ≤ x ≤ 1) (fingerprint_taste_vector fp)
    ∧ fingerprint_vector_dimension fp = 62%nat.
Proof.
  intros H. unfold generate_taste_fingerprint.
  rewrite calculate_average_scores_tabulate. cbn [mbind option_bind]. eexists. split; [done|].
  cbn [fingerprint_dimensional_scores fingerprint_taste_vector fingerprint_vector_dimension].
  set (avg := (λ dim, (dim, expected_average dim loved_movies_scores)) <$> dimension_names).
  assert (avg.*1 = dimension_names) as Hkeys.
  { unfold avg. rewrite <- list_fmap_compose. apply list_fmap_id. }
  assert (Forall (λ e, num 1 ≤ e.2 ≤ num 7) avg) as Hrange.
  { unfold avg. apply Forall_fmap, list.Forall_forall. intros d _.
    by apply expected_average_on_scale. }
  split; [done|]. split; [done|]. split.
  - unfold _create_taste_vector. rewrite <- Hkeys, dict_get_own
      by (rewrite Hkeys; apply dimension_names_NoDup).
    apply Forall_fmap, Forall_fmap. eapply Forall_impl; [exact Hrange|].
    intros [d x] [H1 H7]. cbn [snd compose] in *. split.
    + replace 0 with (normalize (num 1)) by by_evaluation. by apply normalize_mono.
    + replace 1 with (normalize (num 7)) by by_evaluation. by apply normalize_mono.
  - unfold _create_taste_vector. by rewrite !length_fmap.
Qed.

Lemma fingerprint_on_scale_witness :
  ∃ fp, generate_taste_fingerprint [moonlight] = Some fp
    ∧ (fingerprint_dimensional_scores fp).*1 = dimension_names
    ∧ Forall (λ e, num 1 ≤ e.2 ≤ num 7) (fingerprint_dimensional_scores fp)
    ∧ Forall (λ x, 0 ≤ x ≤ 1) (fingerprint_taste_vector fp)
    ∧ fingerprint_vector_dimension fp = 62%nat.
Proof. apply (fingerprint_on_scale [moonlight]). by_evaluation. Defined.

End Scales.

(** ** The narrative is its sentences, joined *)

Section Narrative.
Import TasteFingerprintGenerator.

Lemma concat_cons_cons sep x y l :
  String.concat sep (x :: y :: l) = x +:+ sep +:+ String.concat sep (y :: l).
Proof. reflexivity. Qed.

Lemma append_nonempty (x y : string) : x ≠ "" → x +:+ y ≠ "".
Proof. by destruct x. Qed.

Lemma append_assoc (x y z : string) : (x +:+ y) +:+ z = x +:+ y +:+ z.
Proof.
  induction x as [|a x IH]; [done|].
  change (String a ((x +:+ y) +:+ z) = String a (x +:+ y +:+ z)). by f_equal.
Qed.

Lemma concat_nonempty sep l : Forall (λ s, s ≠ "") l → l ≠ [] → String.concat sep l ≠ "".
Proof.
  intros H Hne. destruct H as [|x l Hx Hl]; [done|].
  destruct l as [|y l]; [done|]. rewrite concat_cons_cons. by apply append_nonempty.
Qed.

(** Joining a concatenation: the two joins, with a separator between them
    when both have something to join. *)
Lemma concat_app sep l1 l2 :
  l1 ≠ [] → l2 ≠ [] →
  String.concat sep (l1 ++ l2) = String.concat sep l1 +:+ sep +:+ String.concat sep l2.
Proof.
  intros H1 H2. induction l1 as [|x l1 IH]; [done|].
  destruct l1 as [|y l1].
  - destruct l2 as [|z l2]; [done|]. reflexivity.
  - cbn [app] in *. rewrite !concat_cons_cons, IH by done. by rewrite !append_assoc.
Qed.

Lemma concat_eq_empty sep z zs : String.concat sep (z :: zs) = "" → z = "".
Proof. destruct zs; [done|]. rewrite concat_cons_cons. by destruct z. Qed.

(** Joining the joins of groups, the empty ones left out, is joining all
    the sentences. *)
Lemma concat_groups (groups : list (list string)) :
  Forall (Forall (λ s, s ≠ "")) groups →
  String.concat " " (filter (λ s, s ≠ "") (String.concat " " <$> groups))
  = String.concat " " (mjoin groups).
Proof.
  induction 1 as [|g groups Hg Hgs IH]; [done|].
  rewrite fmap_cons, filter_cons. change (mjoin (g :: groups)) with (g ++ mjoin groups).
  assert (Forall (λ s, s ≠ "") (filter (λ s, s ≠ "") (String.concat " " <$> groups))) as HF.
  { apply list.Forall_forall. by intros s [? _]%list_elem_of_filter. }
  assert (Forall (λ s, s ≠ "") (mjoin groups)) as HJ by (by apply Forall_join).
  revert IH HF. generalize (filter (λ s, s ≠ "") (String.concat " " <$> groups)).
  intros F IH HF.
  destruct g as [|x g].
  { rewrite decide_False by (by intros H; apply H). apply IH. }
  rewrite decide_True by (by apply concat_nonempty).
  destruct (mjoin groups) as [|y rest].
  - rewrite app_nil_r. destruct F as [|z zs]; [done|].
    exfalso. apply Forall_cons in HF as [Hz _]. by apply Hz, (concat_eq_empty " " z zs).
  - rewrite concat_app by done. destruct F as [|z zs].
    + exfalso. symmetry in IH. revert IH. by apply concat_nonempty.
    + by rewrite concat_cons_cons, IH.
Qed.

Lemma append_if_nonempty_filter narrative narrative_parts :
  append_if_nonempty narrative narrative_parts
  = narrative_parts ++ filter (λ s, s ≠ "") [narrative].
Proof.
  unfold append_if_nonempty. rewrite filter_cons, filter_nil.
  destruct (decide (narrative = "")) as [->|H].
  - rewrite decide_False by (by intros H; apply H). by rewrite app_nil_r.
  - by rewrite decide_True.
Qed.

Lemma gate_texts_nonempty : Forall (λ g, gate_text g ≠ "") sentence_gates.
Proof. by_evaluation. Qed.

Lemma narrative_sentences_nonempty scores : Forall (λ s, s ≠ "") (narrative_sentences scores).
Proof.
  apply list.Forall_forall. intros s.
  rewrite narrative_sentences_gated, list.Exists_exists. intros (g & Hg & <- & _).
  by apply (proj1 (list.Forall_forall _ _) gate_texts_nonempty).
Qed.

(** X8. The narrative of a fingerprint is the sequence of all emitted
    sentences, in category order, separated by single blanks; it does not
    depend on the extracted preferences, and it is empty exactly when no
    sentence is emitted. *)
Theorem narrative_joins_sentences (avg_scores : list (string * Qc))
    (strong_preferences : strong_preferences) :
  _generate_narrative_fingerprint avg_scores strong_preferences
  = String.concat " " (narrative_sentences avg_scores)
  ∧ (_generate_narrative_fingerprint avg_scores strong_preferences = ""
     ↔ narrative_sentences avg_scores = []).
Proof.
  assert (_generate_narrative_fingerprint avg_scores strong_preferences
          = String.concat " " (narrative_sentences avg_scores)) as Heq.
  { unfold _generate_narrative_fingerprint. cbv zeta.
    rewrite !append_if_nonempty_filter, app_nil_l, <- !filter_app.
    unfold _narrate_visual_taste, _narrate_rhythm_taste, _narrate_sound_taste,
      _narrate_quality_taste, _narrate_story_taste, _narrate_emotional_taste.
    cbn [app].
    etrans; [apply (concat_groups [visual_parts avg_scores; rhythm_parts avg_scores;
               sound_parts avg_scores; quality_parts avg_scores; story_parts avg_scores;
               emotional_parts avg_scores])|].
    - pose proof (narrative_sentences_nonempty avg_scores) as H.
      unfold narrative_sentences in H. rewrite !Forall_app in H.
      destruct H as (? & ? & ? & ? & ? & ?). by repeat constructor.
    - unfold narrative_sentences. cbn [mjoin list_join]. by rewrite app_nil_r. }
  split; [done|]. rewrite Heq. split.
  - intros H. destruct (narrative_sentences avg_scores) as [|s l] eqn:E; [done|].
    exfalso. revert H. apply concat_nonempty; [|done].
    rewrite <- E. apply narrative_sentences_nonempty.
  - by intros ->.
Qed.

End Narrative.

(** ** The recommendation map *)

Section RecommendationMap.
Import RecommendationEngine.
Context (str_lower : pystr → pystr) (isspace : N → bool).
Context (find_similar_movies : pystr → list movie).
Context (user_rating : movie → option Qc).

Local Abbreviation slug := (slug_of str_lower isspace).
Local Abbreviation create_map := (_create_recommendation_map str_lower isspace user_rating).

Lemma foldl_snoc_fmap {A B : Type} (f : A → B) (acc : list B) (l : list A) :
  foldl (λ acc x, acc ++ [f x]) acc l = acc ++ (f <$> l).
Proof.
  revert acc. induction l as [|x l IH]; intros acc; cbn [foldl fmap list_fmap].
  - by rewrite app_nil_r.
  - rewrite IH, <- app_assoc. done.
Qed.

Lemma foldl_snoc_filter {A B : Type} (p : A → bool) (f : A → B) (acc : list B) (l : list A) :
  foldl (λ acc x, if p x then acc ++ [f x] else acc) acc l
  = acc ++ (f <$> filter (λ x, p x) l).
Proof.
  revert acc. induction l as [|x l IH]; intros acc; cbn [foldl].
  - by rewrite app_nil_r.
  - rewrite IH, filter_cons. case_decide as Hp.
    + apply Is_true_true in Hp. rewrite Hp, fmap_cons, <- app_assoc. done.
    + apply Is_true_false in Hp. by rewrite Hp.
Qed.

Lemma filter_all {A : Type} (P : A → Prop) `{!∀ x, Decision (P x)} (l : list A) :
  Forall P l → filter P l = l.
Proof.
  induction 1 as [|x l Hx _ IH]; [done|].
  by rewrite filter_cons, decide_True, IH.
Qed.

(** The edge the map draws for a recommendation. *)
Definition edge_of (rec : movie) : edge :=
  {| edge_source := _create_slug str_lower isspace (default [] (similar_to_or_empty rec));
     edge_target := slug rec;
     edge_weight := default 0 (base_similarity rec) |}.

Lemma map_nodes loved recs :
  node_id <$> nodes (create_map loved recs) = (slug <$> loved) ++ (slug <$> recs).
Proof.
  unfold _create_recommendation_map. cbv zeta. cbn [nodes].
  rewrite !foldl_snoc_fmap. cbn [app]. rewrite fmap_app, <- !list_fmap_compose. done.
Qed.

Lemma map_edges loved recs :
  edges (create_map loved recs)
  = edge_of <$> filter (λ rec, truthy (similar_to_or_empty rec)) recs.
Proof.
  unfold _create_recommendation_map. cbv zeta. cbn [edges].
  by rewrite (foldl_snoc_filter (λ rec, truthy (similar_to_or_empty rec)) edge_of).
Qed.

(** Every recommendation names a loved movie's title as [similar_to]. *)
Lemma recommendations_similar_to (user_loved_movies : list movie)
    (user_rated_movies : option (list movie)) (num_recommendations : Z)
    (diversity_factor : Qc) :
  Forall (λ c, ∃ m, m ∈ user_loved_movies ∧ similar_to c = Some (title m))
    (generate_recommendations str_lower isspace find_similar_movies
       user_loved_movies user_rated_movies num_recommendations diversity_factor).1.
Proof.
  unfold generate_recommendations. cbv zeta. cbn [fst].
  set (excluded := list_to_set _ : gset pystr).
  set (gathered := gather_candidates _ _ _ _ _).
  set (scored := _score_candidates gathered _ _ _).
  pose proof (select_top_sublist str_lower isspace find_similar_movies scored num_recommendations) as Hsub.
  apply list.Forall_forall. intros c Hc.
  apply (λ H, elem_of_sublist _ _ _ H Hsub) in Hc.
  unfold scored, _score_candidates in Hc.
  apply elem_of_sort_by, list_elem_of_fmap in Hc as (c1 & -> & Hc1).
  assert (Forall (sourced str_lower isspace find_similar_movies user_loved_movies) gathered)
    as Hg.
  { apply gather_loop_sourced; [done | constructor]. }
  rewrite list.Forall_forall in Hg. destruct (Hg _ Hc1) as (m & c0 & Hm & Hc0 & ->).
  by exists m.
Qed.

(** The recommendations have pairwise different slugs, none of them
    excluded. *)
Lemma recommendations_slugs (user_loved_movies : list movie)
    (user_rated_movies : option (list movie)) (num_recommendations : Z)
    (diversity_factor : Qc) :
  let recommendations :=
    (generate_recommendations str_lower isspace find_similar_movies
       user_loved_movies user_rated_movies num_recommendations diversity_factor).1 in
  NoDup (slug <$> recommendations)
  ∧ ∀ c, c ∈ recommendations →
      slug c ∉ slug <$> rated_or_loved user_loved_movies user_rated_movies.
Proof.
  unfold generate_recommendations. cbv zeta. cbn [fst].
  unfold _select_top_recommendations.
  set (excluded := list_to_set _ : gset pystr).
  set (scored := _score_candidates _ _ _ _).
  destruct (select_loop_spec str_lower isspace find_similar_movies num_recommendations ∅ [] scored)
    as [Hnd Hsub].
  { intros x. rewrite elem_of_empty. cbn. by rewrite elem_of_nil. }
  { constructor. }
  split; [done|]. intros c [[]%elem_of_nil|Hc]%Hsub.
  unfold scored, _score_candidates in Hc.
  apply elem_of_sort_by, list_elem_of_fmap in Hc as (c0 & -> & Hc0).
  rewrite slug_of_score_candidate.
  pose proof (gather_candidates_unseen str_lower isspace find_similar_movies
                excluded user_loved_movies) as Hg.
  rewrite list.Forall_forall in Hg. specialize (Hg _ Hc0).
  unfold excluded in Hg. by rewrite elem_of_list_to_set in Hg.
Qed.

(** X9. The map of any loved movies and recommendations has one node per
    loved movie followed by one node per recommendation, each with the
    movie's slug as id; [total_nodes] and [total_edges] are the lengths of
    the two lists; there is at most one edge per recommendation, in the
    order of the recommendations, each ending in its recommendation's node
    and weighted by its [base_similarity] (0 when absent); a recommendation
    has no edge exactly when its [similar_to] is absent, [None] or empty. *)
Theorem recommendation_map_shape (loved_movies recommendations : list movie) :
  let map := create_map loved_movies recommendations in
  node_id <$> nodes map = (slug <$> loved_movies) ++ (slug <$> recommendations)
  ∧ total_nodes map = (length loved_movies + length recommendations)%nat
  ∧ total_edges map = length (edges map)
  ∧ (total_edges map ≤ length recommendations)%nat
  ∧ edge_target <$> edges map `sublist_of` slug <$> recommendations
  ∧ edges map
    = (λ rec, {| edge_source :=
                   _create_slug str_lower isspace (default [] (similar_to_or_empty rec));
                 edge_target := slug rec;
                 edge_weight := default 0 (base_similarity rec) |})
      <$> filter (λ rec, similar_to rec ∉ [None; Some None; Some (Some [])])
            recommendations.
Proof.
  cbv zeta. split; [apply map_nodes|]. split; [|split; [done|split; [|split]]].
  - change (total_nodes (create_map loved_movies recommendations))
      with (length (nodes (create_map loved_movies recommendations))).
    rewrite <- (length_fmap node_id), map_nodes, length_app, !length_fmap. done.
  - change (total_edges (create_map loved_movies recommendations))
      with (length (edges (create_map loved_movies recommendations))).
    rewrite map_edges, length_fmap. apply length_filter.
  - rewrite map_edges, <- list_fmap_compose.
    change (edge_target ∘ edge_of) with slug.
    apply fmap_sublist, sublist_filter.
  - rewrite map_edges. fold edge_of. f_equal. apply list_filter_iff.
    intros rec. unfold similar_to_or_empty.
    rewrite !not_elem_of_cons.
    destruct (similar_to rec) as [[[|c t]|]|]; cbn; split; try done; try tauto.
    intros _. repeat split; try done. apply not_elem_of_nil.
Qed.

(** X10. In the map of the recommendations of [generate_recommendations],
    every edge leads from the node of a loved movie to the node of a
    recommendation; no two edges end in the same node; and when every
    loved movie has a non-empty title, every recommendation has its
    edge. *)
Theorem recommendation_map_edges_connect
    (user_loved_movies : list movie) (user_rated_movies : option (list movie))
    (num_recommendations : Z) (diversity_factor : Qc) :
  let recommendations :=
    (generate_recommendations str_lower isspace find_similar_movies
       user_loved_movies user_rated_movies num_recommendations diversity_factor).1 in
  let map := create_map user_loved_movies recommendations in
  Forall (λ e, edge_source e ∈ slug <$> user_loved_movies
               ∧ edge_target e ∈ slug <$> recommendations
               ∧ edge_source e ∈ node_id <$> nodes map
               ∧ edge_target e ∈ node_id <$> nodes map)
    (edges map)
  ∧ NoDup (edge_target <$> edges map)
  ∧ (Forall (λ m, ∃ t, title m = Some t ∧ t ≠ []) user_loved_movies →
     total_edges map = length recommendations
     ∧ edge_target <$> edges map = slug <$> recommendations).
Proof.
  cbv zeta.
  set (recs := (generate_recommendations _ _ _ _ _ _ _).1).
  pose proof (recommendations_similar_to user_loved_movies user_rated_movies
                num_recommendations diversity_factor) as Hsim.
  fold recs in Hsim. rewrite list.Forall_forall in Hsim.
  destruct (recommendations_slugs user_loved_movies user_rated_movies
              num_recommendations diversity_factor) as [Hnd _].
  fold recs in Hnd.
  split; [|split].
  - rewrite map_nodes, map_edges. apply list.Forall_forall.
    intros e (rec & -> & [Htruthy Hrec]%list_elem_of_filter)%list_elem_of_fmap.
    destruct (Hsim _ Hrec) as (m & Hm & Hto).
    assert (edge_source (edge_of rec) ∈ slug <$> user_loved_movies) as Hsrc.
    { cbn [edge_source edge_of]. unfold similar_to_or_empty. rewrite Hto. cbn [default].
      by apply (list_elem_of_fmap_2 slug). }
    assert (edge_target (edge_of rec) ∈ slug <$> recs) as Htgt.
    { cbn [edge_target edge_of]. by apply list_elem_of_fmap_2. }
    rewrite !elem_of_app. tauto.
  - rewrite map_edges, <- list_fmap_compose.
    change (edge_target ∘ edge_of) with slug.
    refine (sublist_NoDup _ _ Hnd _). apply fmap_sublist, sublist_filter.
  - intros Htitles. rewrite list.Forall_forall in Htitles.
    assert (filter (λ rec, truthy (similar_to_or_empty rec)) recs = recs) as Hall.
    { apply filter_all. apply list.Forall_forall. intros rec Hrec.
      destruct (Hsim _ Hrec) as (m & Hm & Hto).
      destruct (Htitles _ Hm) as (t & Ht & Hne).
      unfold similar_to_or_empty. rewrite Hto, Ht. cbn. by destruct t. }
    change (total_edges (create_map user_loved_movies recs))
      with (length (edges (create_map user_loved_movies recs))).
    rewrite map_edges, Hall, length_fmap, <- list_fmap_compose. done.
Qed.

(** X11. When the loved movies have pairwise different slugs and are all
    excluded from the recommendations (no list of rated movies is given, or
    it holds the loved movies), the ids of the nodes of the map are
    pairwise different. *)
Theorem recommendation_map_ids_distinct
    (user_loved_movies : list movie) (user_rated_movies : option (list movie))
    (num_recommendations : Z) (diversity_factor : Qc) :
  NoDup (slug <$> user_loved_movies) →
  user_loved_movies ⊆ rated_or_loved user_loved_movies user_rated_movies →
  NoDup (node_id <$> nodes
    (create_map user_loved_movies
       (generate_recommendations str_lower isspace find_similar_movies
          user_loved_movies user_rated_movies num_recommendations diversity_factor).1)).
Proof.
  intros Hloved Hsub.
  destruct (recommendations_slugs user_loved_movies user_rated_movies
              num_recommendations diversity_factor) as [Hnd Hex].
  rewrite map_nodes. apply NoDup_app. split; [done|]. split; [|done].
  intros x (m & -> & Hm)%list_elem_of_fmap (c & Hx & Hc)%list_elem_of_fmap.
  apply (Hex _ Hc). rewrite <- Hx. apply list_elem_of_fmap_2. by apply Hsub.
Qed.

End RecommendationMap.

Lemma recommendation_map_ids_distinct_witness :
  NoDup (RecommendationEngine.slug_of (fmap ascii_lower) ascii_isspace
           <$> [heat; collateral])
  ∧ [heat; collateral] ⊆ RecommendationEngine.rated_or_loved [heat; collateral] None
  ∧ NoDup (RecommendationEngine.node_id <$> RecommendationEngine.nodes
      (RecommendationEngine._create_recommendation_map (fmap ascii_lower) ascii_isspace
         (λ _, None) [heat; collateral]
         (RecommendationEngine.generate_recommendations (fmap ascii_lower) ascii_isspace
            (λ _, [RecommendationEngine.scenario_candidate])
            [heat; collateral] None 5 (num 0.5)).1)).
Proof.
  assert (NoDup (RecommendationEngine.slug_of (fmap ascii_lower) ascii_isspace
                   <$> [heat; collateral])) as Hloved by by_evaluation.
  assert ([heat; collateral]
          ⊆ RecommendationEngine.rated_or_loved [heat; collateral] None) as Hsub
    by (intros x Hx; exact Hx).
  split; [exact Hloved|]. split; [exact Hsub|].
  exact (recommendation_map_ids_distinct (fmap ascii_lower) ascii_isspace
           (λ _, [RecommendationEngine.scenario_candidate]) (λ _, None)
           [heat; collateral] None 5 (num 0.5) Hloved Hsub).
Defined.

(** ** The insights *)

Section Insights.
Import RecommendationEngine.

Lemma mean_lt (s c : Z) (n : nat) :
  (0 < n)%nat → Qc_of_Z s / of_nat n < Qc_of_Z c ↔ (s < c * Z.of_nat n)%Z.
Proof.
  intros Hn. pose proof (of_nat_pos n Hn) as Hpos.
  rewrite (Qcmult_lt_mono_pos_r _ _ _ Hpos).
  replace (Qc_of_Z s / of_nat n * of_nat n) with (Qc_of_Z s).
  - unfold of_nat. rewrite <- Z2Qc_inj_mul. symmetry. apply Z2Qc_inj_lt.
  - field. intros E. rewrite E in Hpos. by apply Qclt_not_eq in Hpos.
Qed.

Lemma lt_mean (s c : Z) (n : nat) :
  (0 < n)%nat → Qc_of_Z c < Qc_of_Z s / of_nat n ↔ (c * Z.of_nat n < s)%Z.
Proof.
  intros Hn. pose proof (of_nat_pos n Hn) as Hpos.
  rewrite (Qcmult_lt_mono_pos_r _ _ _ Hpos).
  replace (Qc_of_Z s / of_nat n * of_nat n) with (Qc_of_Z s).
  - unfold of_nat. rewrite <- Z2Qc_inj_mul. symmetry. apply Z2Qc_inj_lt.
  - field. intros E. rewrite E in Hpos. by apply Qclt_not_eq in Hpos.
Qed.

(** The head of a top list is a most frequent element. *)
Lemma top_head_favourite (sentence : string → string) (n : nat) (l : list string) :
  (0 < n)%nat →
  favourite sentence l
    match top n (tally l) with g :: _ => [sentence g] | [] => [] end.
Proof.
  intros Hn. destruct (top_tally n l) as (_ & _ & Hin & Hsorted & _ & Hout).
  destruct (top n (tally l)) as [|g t] eqn:Htop.
  - left. split; [|done]. destruct l as [|x l]; [done|].
    destruct (Hout x) as [Hlen _]; [left | apply not_elem_of_nil |].
    cbn in Hlen. lia.
  - right. exists g. apply Forall_cons in Hin as [Hg _]. split; [done|]. split; [|done].
    intros g'. apply StronglySorted_cons in Hsorted as [Hhead _].
    rewrite list.Forall_forall in Hhead.
    destruct (decide (g' ∈ l)) as [Hg'|Hg'].
    + destruct (decide (g' ∈ g :: t)) as [[->|Ht]%elem_of_cons|Hnot].
      * done.
      * by apply Hhead.
      * destruct (Hout g' Hg' Hnot) as [_ Hall]. by apply Forall_cons in Hall as [? _].
    + destruct (occurrences g' l) as [|k] eqn:Hocc; [lia|].
      exfalso. apply Hg', occurrences_pos. lia.
Qed.

(** The era the source reads off [average_year], in integers. *)
Lemma era_of_average (loved_movies : list movie) :
  (if ltb (average_year (_analyze_taste_profile loved_movies)) (num 1990)
   then "You appreciate classic cinema"
   else if ltb (num 2010) (average_year (_analyze_taste_profile loved_movies))
        then "You enjoy contemporary films"
        else "You have an eclectic taste spanning different eras")
  = era ((λ m, default 0%Z (year m)) <$> loved_movies).
Proof.
  unfold era, _analyze_taste_profile. cbv zeta. cbn [average_year].
  rewrite length_fmap. destruct loved_movies as [|m l].
  { rewrite bool_decide_false by (by intros H; apply H).
    rewrite decide_True by (by left). unfold ltb. by rewrite bool_decide_true by by_evaluation. }
  rewrite bool_decide_true by done. rewrite sum_left_to_right.
  set (years := (λ m, default 0%Z (year m)) <$> m :: l).
  set (n := length (m :: l)). assert (0 < n)%nat as Hn by (unfold n; cbn; lia).
  replace (num 1990) with (Qc_of_Z 1990) by by_evaluation.
  replace (num 2010) with (Qc_of_Z 2010) by by_evaluation.
  unfold ltb. pose proof (mean_lt (foldr Z.add 0%Z years) 1990 n Hn) as H1.
  pose proof (lt_mean (foldr Z.add 0%Z years) 2010 n Hn) as H2.
  case_bool_decide as Ha; case_decide as Hb.
  - done.
  - exfalso. apply Hb. right. by apply H1.
  - destruct Hb as [Hb|Hb]; [lia|]. exfalso. by apply Ha, H1.
  - case_bool_decide as Hc; case_decide as Hd.
    + done.
    + exfalso. by apply Hd, H2.
    + exfalso. by apply Hc, H2.
    + done.
Qed.

(** The four parts of the insights. *)
Lemma insights_parts (profile : taste_profile) (recommendations : list movie) :
  _generate_insights profile recommendations
  = match top_genres profile with
    | g :: _ => ["Your taste strongly favors " +:+ g +:+ " films"]
    | [] => []
    end
    ++ match top_directors profile with
       | d :: _ => ["You're a fan of " +:+ d +:+ "'s work"]
       | [] => []
       end
    ++ [if ltb (average_year profile) (num 1990)
        then "You appreciate classic cinema"
        else if ltb (num 2010) (average_year profile)
             then "You enjoy contemporary films"
             else "You have an eclectic taste spanning different eras"]
    ++ (if bool_decide (recommendations ≠ [])
        then
          if bool_decide
               (5 < length (filter (λ r, ltb (num 0.7)
                                           (default 0%Qc (recommendation_score r)))
                              recommendations))%nat
          then ["Found "
                +:+ pretty (length (filter (λ r, ltb (num 0.7)
                                                   (default 0 (recommendation_score r)))
                                      recommendations))
                +:+ " highly matched recommendations for you"]
          else []
        else []).
Proof.
  unfold _generate_insights. cbv zeta.
  destruct (top_genres profile), (top_directors profile),
    (ltb (average_year profile) (num 1990)), (ltb (num 2010) (average_year profile)),
    (bool_decide (recommendations ≠ [])); try reflexivity;
    destruct (bool_decide _); reflexivity.
Qed.

(** X12. The insights on the loved movies: a sentence on a most frequent
    genre when the loved movies have a genre at all, a sentence on a most
    frequent director (['N/A'] and the empty name not counting) when there
    is one, exactly one sentence on the era, read off the mean of the years
    with a missing year counting as 0, and the number of recommendations
    scoring above 0.7 when more than five do; so between one and four
    sentences, and without loved movies and recommendations the only
    insight is ['You appreciate classic cinema']. *)
Theorem insights_of_loved_movies (loved_movies recommendations : list movie) :
  let insights :=
    _generate_insights (_analyze_taste_profile loved_movies) recommendations in
  let high :=
    length (filter (λ r, num 0.7 < default 0 (recommendation_score r)) recommendations) in
  (∃ genre_part director_part,
     favourite (λ g, "Your taste strongly favors " +:+ g +:+ " films")
       (all_genres loved_movies) genre_part
     ∧ favourite (λ d, "You're a fan of " +:+ d +:+ "'s work")
         (omap counted_director loved_movies) director_part
     ∧ insights
       = genre_part ++ director_part
         ++ [era ((λ m, default 0%Z (year m)) <$> loved_movies)]
         ++ (if decide (5 < high)%nat
             then ["Found " +:+ pretty high +:+ " highly matched recommendations for you"]
             else []))
  ∧ (1 ≤ length insights ≤ 4)%nat
  ∧ _generate_insights (_analyze_taste_profile []) [] = ["You appreciate classic cinema"].
Proof.
  cbv zeta.
  set (high := length (filter (λ r, num 0.7 < default 0 (recommendation_score r))
                         recommendations)).
  set (genre_part :=
    match top 5 (tally (all_genres loved_movies)) with
    | g :: _ => ["Your taste strongly favors " +:+ g +:+ " films"]
    | [] => []
    end).
  set (director_part :=
    match top 5 (tally (omap counted_director loved_movies)) with
    | d :: _ => ["You're a fan of " +:+ d +:+ "'s work"]
    | [] => []
    end).
  assert (_generate_insights (_analyze_taste_profile loved_movies) recommendations
          = genre_part ++ director_part
            ++ [era ((λ m, default 0%Z (year m)) <$> loved_movies)]
            ++ (if decide (5 < high)%nat
                then ["Found " +:+ pretty high +:+ " highly matched recommendations for you"]
                else [])) as Heq.
  { rewrite insights_parts.
    destruct (analyze_counters loved_movies) as (_ & Hg & _ & Hd & _).
    cbv zeta in Hg, Hd. rewrite Hg, Hd, era_of_average.
    fold genre_part director_part. do 3 f_equal.
    assert (length (filter (λ r, ltb (num 0.7) (default 0 (recommendation_score r)))
                      recommendations) = high) as ->.
    { unfold high. f_equal. apply list_filter_iff. intros r. unfold ltb.
      by rewrite bool_decide_spec. }
    assert (high = 0%nat ∨ recommendations ≠ []) as [H0|Hne].
    { destruct recommendations; [by left | by right]. }
    - rewrite H0. rewrite decide_False by lia. rewrite (bool_decide_false (5 < 0)%nat) by lia.
      by destruct (bool_decide _).
    - rewrite bool_decide_true by done. case_bool_decide.
      + by rewrite decide_True.
      + by rewrite decide_False. }
  split; [|split].
  - exists genre_part, director_part. split; [apply top_head_favourite; lia|].
    split; [apply top_head_favourite; lia | exact Heq].
  - rewrite Heq, !length_app. cbn [length].
    assert (length genre_part ≤ 1)%nat
      by (unfold genre_part; destruct (top 5 (tally (all_genres loved_movies)));
          cbn; auto).
    assert (length director_part ≤ 1)%nat
      by (unfold director_part;
          destruct (top 5 (tally (omap counted_director loved_movies))); cbn; auto).
    clear Heq. clearbody genre_part director_part high.
    case_decide; cbn [length]; lia.
  - by_evaluation.
Qed.

End Insights.

(** ** Matching a film to a taste *)

Section FilmMatch.
Import TasteFingerprintGenerator Similarity.
Local Open Scope R_scope.


Lemma Rltb_ge (x y : R) : Rltb x y = false ↔ y <= x.
Proof.
  unfold Rltb. destruct (Rlt_dec x y); split; try done; intros; try lra.
Qed.



Lemma Rltb_irrefl (a : R) : Rltb a a = false.
Proof. rewrite Rltb_ge. lra. Qed.

(** The loop over the dimensions: it ends iff both arrays have an entry for
    every dimension. *)
Lemma alignment_loop (film user : list R) :
  (length dimension_names ≤ length film)%nat →
  (length dimension_names ≤ length user)%nat →
  mapM (λ '(i, dim_name),
      film_score ← film !! i;
      user_pref ← user !! i;
      let alignment := 1 - Rabs (film_score - user_pref) in
      Some (dim_name, alignment))
    (imap (λ i dim_name, (i, dim_name)) dimension_names)
  = Some (alignments film user).
Proof.
  intros Hf Hu. apply mapM_Some, Forall2_same_length_lookup. split.
  { unfold alignments. by rewrite !length_imap. }
  intros i [j name] y Hx Hy. unfold alignments in Hy.
  apply list_lookup_imap_Some in Hx as (name' & Hname & [= -> ->]).
  apply list_lookup_imap_Some in Hy as (name'' & Hname' & ->).
  assert (name'' = name') as -> by congruence.
  apply lookup_lt_Some in Hname.
  destruct (lookup_lt_is_Some_2 film i) as [a Ha]; [lia|].
  destruct (lookup_lt_is_Some_2 user i) as [b Hb]; [lia|].
  rewrite Ha, Hb. cbn. by rewrite (nth_lookup_Some _ _ _ _ Ha), (nth_lookup_Some _ _ _ _ Hb).
Qed.

Lemma alignment_loop_defined (film user : list R) :
  is_Some (mapM (λ '(i, dim_name),
      film_score ← film !! i;
      user_pref ← user !! i;
      let alignment := 1 - Rabs (film_score - user_pref) in
      Some (dim_name, alignment))
    (imap (λ i dim_name, (i, dim_name)) dimension_names)) →
  (length dimension_names ≤ length film)%nat ∧ (length dimension_names ≤ length user)%nat.
Proof.
  intros H%mapM_is_Some_1. rewrite list.Forall_forall in H.
  rewrite dimension_names_length.
  destruct (lookup_lt_is_Some_2 dimension_names 61) as [name Hname].
  { rewrite dimension_names_length. lia. }
  destruct (H (61%nat, name)) as [y Hy].
  { by apply (elem_of_lookup_imap_2 (λ i dim_name, (i, dim_name))). }
  cbn in Hy.
  destruct (film !! 61%nat) as [a|] eqn:Ha; [|done].
  destruct (user !! 61%nat) as [b|] eqn:Hb; [|done].
  apply lookup_lt_Some in Ha, Hb. lia.
Qed.

Lemma calculate_similarity_defined (vector1 vector2 : list R) :
  length vector1 = length vector2 → is_Some (calculate_similarity vector1 vector2).
Proof.
  intros Hlen. unfold calculate_similarity. rewrite bool_decide_true by done. cbv zeta.
  repeat destruct (Req_dec_T _ _); done.
Qed.

(** The result on arrays that are long enough. *)
Lemma match_film_to_taste_Some (film user : list R) :
  length film = length user → (62 ≤ length film)%nat →
  ∃ sim, calculate_similarity film user = Some sim
    ∧ match_film_to_taste film user
      = Some {| overall_similarity := sim;
                top_matching_dimensions :=
                  take 10 (sort_by Rltb snd true (alignments film user));
                bottom_matching_dimensions :=
                  drop (length (sort_by Rltb snd true (alignments film user)) - 5)
                    (sort_by Rltb snd true (alignments film user));
                match_explanation :=
                  _explain_match (take 5 (sort_by Rltb snd true (alignments film user))) |}.
Proof.
  intros Hlen H62. destruct (calculate_similarity_defined film user Hlen) as [sim Hsim].
  exists sim. split; [done|]. unfold match_film_to_taste.
  apply bind_Some. exists sim. split; [done|].
  apply bind_Some. exists (alignments film user). split; [|done].
  apply alignment_loop; rewrite dimension_names_length; lia.
Qed.

(** X13. [match_film_to_taste] returns a result exactly for two arrays of
    the same length with an entry for each of the 62 dimensions. *)
Theorem match_defined_iff (film_vector user_taste_vector : list R) :
  is_Some (match_film_to_taste film_vector user_taste_vector)
  ↔ length film_vector = length user_taste_vector ∧ (62 ≤ length film_vector)%nat.
Proof.
  split.
  - intros [r Hr]. unfold match_film_to_taste in Hr.
    apply bind_Some in Hr as (sim & Hsim & Hr). apply bind_Some in Hr as (al & Hal & _).
    unfold calculate_similarity in Hsim. case_bool_decide as Hlen; [|done].
    split; [done|].
    destruct (alignment_loop_defined film_vector user_taste_vector) as [H _].
    { by exists al. }
    by rewrite dimension_names_length in H.
  - intros [Hlen H62].
    destruct (match_film_to_taste_Some _ _ Hlen H62) as (sim & _ & ->). done.
Qed.







(** The explanation reads the names of the first three matches only. *)
Lemma explain_match_names {S : Type} (top_matches : list (string * S)) :
  _explain_match top_matches
  = (" " +:+ String.concat ", "
               ("This film matches your taste because it" :: explained top_matches.*1))
    +:+ ".".
Proof.
  unfold _explain_match, explained. cbv zeta. do 3 f_equal.
  rewrite <- fmap_take.
  generalize (take 3 top_matches). intros l.
  change ("This film matches your taste because it"
          :: omap (dict_get explanations) l.*1)
    with (["This film matches your taste because it"]
          ++ omap (dict_get explanations) l.*1).
  generalize ["This film matches your taste because it"].
  induction l as [|[dim score] l IH]; intros parts; cbn [foldl fmap list_fmap omap list_omap fst].
  - by rewrite app_nil_r.
  - destruct (dict_get explanations dim) as [text|].
    + rewrite IH, <- app_assoc. done.
    + apply IH.
Qed.


Lemma sort_by_constant {A K : Type} (lt : K → K → bool) (key : A → K) (v : K) rev
    (l : list A) :
  lt v v = false → Forall (λ x, key x = v) l → sort_by lt key rev l = l.
Proof.
  intros Hirr. induction 1 as [|x l Hx Hl IH]; [done|].
  cbn [sort_by foldr]. fold (sort_by lt key rev l). rewrite IH.
  destruct Hl as [|y l Hy _]; [done|]. cbn [insert_sorted]. unfold before.
  rewrite Hx, Hy. by destruct rev; rewrite Hirr.
Qed.

Lemma alignments_self (v : list R) : alignments v v = (λ name, (name, 1)) <$> dimension_names.
Proof.
  unfold alignments. rewrite <- imap_const. apply imap_ext. intros i name _. cbn.
  by rewrite Rminus_diag, Rabs_R0, Rminus_0_r.
Qed.

(** X15. A film whose array is the user's own (with an entry for every
    dimension) is aligned 1 on every dimension, so the ranking falls back on
    the registration order: the top list is the first ten dimensions, the
    bottom list the last five, and the explanation always that of the first
    three. *)
Theorem match_of_own_taste (taste_vector : list R) :
  (62 ≤ length taste_vector)%nat →
  ∃ r, match_film_to_taste taste_vector taste_vector = Some r
    ∧ calculate_similarity taste_vector taste_vector = Some (overall_similarity r)
    ∧ top_matching_dimensions r = (λ name, (name, 1)) <$> take 10 dimension_names
    ∧ bottom_matching_dimensions r = (λ name, (name, 1)) <$> drop 57 dimension_names
    ∧ match_explanation r
      = " This film matches your taste because it, shares your color palette sensibility, uses light the way you respond to, moves the camera in ways you find natural.".
Proof.
  intros H62.
  destruct (match_film_to_taste_Some taste_vector taste_vector eq_refl H62)
    as (sim & Hsim & Hr).
  rewrite alignments_self in Hr.
  rewrite (sort_by_constant Rltb snd 1) in Hr.
  - eexists. split; [exact Hr|].
    cbn [overall_similarity top_matching_dimensions bottom_matching_dimensions
         match_explanation].
    rewrite length_fmap, dimension_names_length, <- !fmap_take, <- fmap_drop.
    split; [done|]. split; [done|]. split; [done|].
    rewrite explain_match_names, <- list_fmap_compose.
    assert (∀ l : list string, (fst ∘ λ name : string, (name, 1)) <$> l = l) as ->.
    { intros l. induction l as [|x l IH]; [done|]. rewrite fmap_cons, IH. done. }
    reflexivity.
  - apply Rltb_irrefl.
  - apply list.Forall_forall. by intros a (name & -> & _)%list_elem_of_fmap.
Qed.

Lemma omap_length_le {A B : Type} (f : A → option B) (l : list A) :
  (length (omap f l) ≤ length l)%nat.
Proof.
  induction l as [|x l IH]; [done|]. cbn [omap list_omap length].
  destruct (f x); cbn [length]; lia.
Qed.

(** X16. [_explain_match] reads the names of its first three matches and
    nothing else: it joins the opening words and the stored explanations
    of those names with a comma and a blank (so a comma follows the opening
    words), skips a name without explanation, and when none of the three
    has one returns the opening words alone. *)
Theorem explain_match_reads_three_names {S : Type} (top_matches : list (string * S)) :
  _explain_match top_matches
  = (" " +:+ String.concat ", "
               ("This film matches your taste because it" :: explained top_matches.*1))
    +:+ "."
  ∧ (length (explained top_matches.*1) ≤ 3)%nat
  ∧ (Forall (λ name, dict_get explanations name = None) (take 3 top_matches.*1) →
     _explain_match top_matches = " This film matches your taste because it.")
  ∧ (∀ (S' : Type) (others : list (string * S')),
       take 3 others.*1 = take 3 top_matches.*1 →
       _explain_match others = _explain_match top_matches).
Proof.
  split; [apply explain_match_names|]. split; [|split].
  - unfold explained. etrans; [apply omap_length_le|]. rewrite length_take. lia.
  - intros Hnone. rewrite explain_match_names. unfold explained.
    replace (omap (dict_get explanations) (take 3 top_matches.*1)) with (@nil string);
      [done|].
    induction Hnone as [|name l Hname _ IH]; [done|]. cbn [omap list_omap].
    by rewrite Hname.
  - intros S' others Hsame. rewrite !explain_match_names. unfold explained.
    by rewrite Hsame.
Qed.

End FilmMatch.


Lemma match_of_own_taste_witness :
  (62 ≤ length (replicate 62 1%R))%nat
  ∧ ∃ r, Similarity.match_film_to_taste (replicate 62 1%R) (replicate 62 1%R) = Some r
      ∧ Similarity.top_matching_dimensions r
        = (λ name, (name, 1%R)) <$> take 10 TasteFingerprintGenerator.dimension_names.
Proof.
  assert (62 ≤ length (replicate 62 1%R))%nat as H62 by (simpl; lia).
  split; [exact H62|].
  destruct (match_of_own_taste (replicate 62 1%R) H62) as (r & Hr & _ & Htop & _).
  exists r. split; [exact Hr | exact Htop].
Defined.
